(** * Carbon footprint calculator: the wizard of [main.py]

    A shallow embedding of the Streamlit script [main.py] and the properties
    of its step machine, answer store, cached analyses and API boundary.

    The script is re-run from the top on every interaction.  One run is
    modelled as a computation in a monad [M] that reads the interaction
    (what the user set on the page, which button was clicked, the uploaded
    file, the outcome of the HTTP request), threads the session state, logs
    what is put on the page and what is sent out, and may raise.  A raised
    exception ends the run but keeps the state written so far, as in Python. *)

From Stdlib Require Import ZArith Floats String Ascii List Bool Lia.
From stdpp Require Import base option gmap strings list fin_maps pretty.

Open Scope string_scope.
Open Scope list_scope.
Open Scope Z_scope.

#[local] Set Warnings "-register-all".

(** ** Python values *)

(** The values the script handles: answers given to the questionnaire and
    whatever the provider's JSON holds.  A [dict] decoded from JSON keeps its
    entries in order; [pydict_get] reads the first entry of a key. *)
Inductive pyval : Type :=
| PNone
| PBool (b : bool)
| PInt (z : Z)
| PFloat (f : float)
| PStr (s : string)
| PList (l : list pyval)
| PDict (d : list (string * pyval)).

(** The answer store [st.session_state.user_responses]: category, then
    question, then answer. *)
Abbreviation store := (gmap string (gmap string pyval)).

Inductive exn : Type :=
| ValueError (msg : string)
| TypeError (msg : string)
| KeyError (msg : string)
| IndexError (msg : string)
| OverflowError (msg : string)
| OSError (msg : string)
| JSONDecodeError (msg : string)
| RequestException (msg : string)
| StreamlitAPIException (msg : string)
| RerunException.

(** [str(e)] *)
Definition exn_str (e : exn) : string :=
  match e with
  | ValueError m | TypeError m | KeyError m | IndexError m | OverflowError m
  | OSError m | JSONDecodeError m | RequestException m
  | StreamlitAPIException m => m
  | RerunException => EmptyString
  end.

(** [except Exception] catches everything but the script-control exception
    behind [st.rerun()], which derives from [BaseException]. *)
Definition is_Exception (e : exn) : bool :=
  match e with RerunException => false | _ => true end.

Definition is_ValueError (e : exn) : bool :=
  match e with ValueError _ => true | _ => false end.

Definition is_JSONDecodeError (e : exn) : bool :=
  match e with JSONDecodeError _ => true | _ => false end.

Inductive result (A : Type) : Type :=
| Ok (a : A)
| Raise (e : exn).
Arguments Ok {A} a.
Arguments Raise {A} e.

(** ** The Python runtime

    What the script calls but does not define, and whose exact results no
    property below depends on: parsing a number out of a string, printing a
    value that is not a string, [json.dumps(_, indent=2)], and whether the
    imaging library behind [st.image] decodes the bytes of a file. *)
Class Runtime : Type := {
  str_to_int : string → option Z;
  str_to_float : string → option float;
  repr : pyval → string;
  json_dumps : pyval → string;
  decodes_image : string → bool;
}.

(** Truth value of an object, as [if x:] and [bool(x)] take it. *)
Definition py_truthy (v : pyval) : bool :=
  match v with
  | PNone => false
  | PBool b => b
  | PInt z => negb (z =? 0)
  | PFloat f => negb (PrimFloat.eqb f 0%float)
  | PStr s => negb (String.eqb s EmptyString)
  | PList l => match l with [] => false | _ => true end
  | PDict d => match d with [] => false | _ => true end
  end.

Definition py_type_name (v : pyval) : string :=
  match v with
  | PNone => "NoneType"
  | PBool _ => "bool"
  | PInt _ => "int"
  | PFloat _ => "float"
  | PStr _ => "str"
  | PList _ => "list"
  | PDict _ => "dict"
  end.

(** [int(float)]: truncation towards zero. *)
Definition float_trunc (f : float) : result Z :=
  match Prim2SF f with
  | S754_zero _ => Ok 0
  | S754_infinity _ => Raise (OverflowError "cannot convert float infinity to integer")
  | S754_nan => Raise (ValueError "cannot convert float NaN to integer")
  | S754_finite s m e =>
      let a := if 0 <=? e then Z.pos m * 2 ^ e else Z.pos m / 2 ^ (- e) in
      Ok (if s then - a else a)
  end.

(** [float(int)]: the nearest double, or [OverflowError]. *)
Definition float_of_Z (z : Z) : result float :=
  let f := SF2Prim (binary_normalize 53 1024 z 0 false) in
  if PrimFloat.is_infinity f
  then Raise (OverflowError "int too large to convert to float")
  else Ok f.

Section WithRuntime.
Context `{!Runtime}.

(** [int(x)] *)
Definition py_int (v : pyval) : result Z :=
  match v with
  | PBool b => Ok (if b then 1 else 0)
  | PInt z => Ok z
  | PFloat f => float_trunc f
  | PStr s =>
      match str_to_int s with
      | Some z => Ok z
      | None => Raise (ValueError "invalid literal for int() with base 10")
      end
  | _ => Raise (TypeError "int() argument must be a string, a bytes-like object or a real number")
  end.

(** [float(x)] *)
Definition py_float (v : pyval) : result float :=
  match v with
  | PBool b => Ok (if b then 1%float else 0%float)
  | PInt z => float_of_Z z
  | PFloat f => Ok f
  | PStr s =>
      match str_to_float s with
      | Some f => Ok f
      | None => Raise (ValueError "could not convert string to float")
      end
  | _ => Raise (TypeError "float() argument must be a string or a real number")
  end.

(** [str(x)] *)
Definition py_str (v : pyval) : string :=
  match v with
  | PStr s => s
  | _ => repr v
  end.

End WithRuntime.

(** [options.index(x)]: position of the first option equal to [x];
    [ValueError] when there is none.  Only a [str] equals a [str]. *)
Fixpoint index_of (s : string) (options : list string) : option nat :=
  match options with
  | [] => None
  | o :: rest => if String.eqb o s then Some 0%nat else S <$> index_of s rest
  end.

Definition py_index (options : list string) (x : pyval) : result nat :=
  match x with
  | PStr s =>
      match index_of s options with
      | Some i => Ok i
      | None => Raise (ValueError "x is not in list")
      end
  | _ => Raise (ValueError "x is not in list")
  end.

(** [s in options], for a list of strings. *)
Definition str_in (s : string) (options : list string) : bool :=
  existsb (String.eqb s) options.

(** [sub in s], for two strings. *)
Definition is_substring (sub s : string) : bool :=
  match String.index 0 sub s with Some _ => true | None => false end.

(** [s.startswith(p)] *)
Definition startswith (p s : string) : bool := String.prefix p s.

(** ** Reading decoded JSON *)

Fixpoint pydict_get (k : string) (d : list (string * pyval)) : option pyval :=
  match d with
  | [] => None
  | (k', v) :: rest => if String.eqb k' k then Some v else pydict_get k rest
  end.

Definition is_PStr (k : string) (v : pyval) : bool :=
  match v with PStr s => String.eqb s k | _ => false end.

(** [k in obj] *)
Definition py_contains (k : string) (obj : pyval) : result bool :=
  match obj with
  | PDict d => Ok (match pydict_get k d with Some _ => true | None => false end)
  | PList l => Ok (existsb (is_PStr k) l)
  | PStr s => Ok (is_substring k s)
  | _ => Raise (TypeError ("argument of type '" +:+ py_type_name obj +:+ "' is not iterable"))
  end.

(** [len(obj)] *)
Definition py_len (obj : pyval) : result nat :=
  match obj with
  | PDict d => Ok (length d)
  | PList l => Ok (length l)
  | PStr s => Ok (String.length s)
  | _ => Raise (TypeError ("object of type '" +:+ py_type_name obj +:+ "' has no len()"))
  end.

(** [obj[k]] for a string [k] *)
Definition py_getitem (obj : pyval) (k : string) : result pyval :=
  match obj with
  | PDict d =>
      match pydict_get k d with
      | Some v => Ok v
      | None => Raise (KeyError ("'" +:+ k +:+ "'"))
      end
  | PList _ => Raise (TypeError "list indices must be integers or slices, not str")
  | PStr _ => Raise (TypeError "string indices must be integers, not 'str'")
  | _ => Raise (TypeError ("'" +:+ py_type_name obj +:+ "' object is not subscriptable"))
  end.

(** [obj[0]]; a decoded JSON object has string keys only, so [0] is never
    one of them. *)
Definition py_getitem0 (obj : pyval) : result pyval :=
  match obj with
  | PDict _ => Raise (KeyError "0")
  | PList l =>
      match l with
      | v :: _ => Ok v
      | [] => Raise (IndexError "list index out of range")
      end
  | PStr s =>
      match s with
      | String a _ => Ok (PStr (String a EmptyString))
      | EmptyString => Raise (IndexError "string index out of range")
      end
  | _ => Raise (TypeError ("'" +:+ py_type_name obj +:+ "' object is not subscriptable"))
  end.

(** [base64.b64encode(bytes).decode('utf-8')] *)
Definition b64_alphabet : string :=
  "ABCDEFGHIJKLMNOPQRSTUVWXYZabcdefghijklmnopqrstuvwxyz0123456789+/".

Definition b64_char (n : N) : ascii :=
  match String.get (N.to_nat n) b64_alphabet with
  | Some c => c
  | None => "="%char
  end.

Fixpoint b64encode (bytes : string) : string :=
  match bytes with
  | EmptyString => EmptyString
  | String a EmptyString =>
      let x := N_of_ascii a in
      String (b64_char (x / 4))
        (String (b64_char ((x mod 4) * 16)) "==")
  | String a (String b EmptyString) =>
      let x := N_of_ascii a in
      let y := N_of_ascii b in
      String (b64_char (x / 4))
        (String (b64_char ((x mod 4) * 16 + y / 16))
           (String (b64_char ((y mod 16) * 4)) "="))
  | String a (String b (String c rest)) =>
      let x := N_of_ascii a in
      let y := N_of_ascii b in
      let z := N_of_ascii c in
      String (b64_char (x / 4))
        (String (b64_char ((x mod 4) * 16 + y / 16))
           (String (b64_char ((y mod 16) * 4 + z / 64))
              (String (b64_char (z mod 64)) (b64encode rest))))
  end%N.

(** ** Session state, interaction and page *)

(** [st.session_state] once the four guards at the top of the script have
    run, and the working directory the upload is saved to. *)
Record session : Type := Session {
  current_step : Z;
  user_responses : store;
  food_order_analysis : pyval;
  final_result : pyval;
  files : gmap string string;
}.

(** Lines 188-198 on a session that has none of the four keys. *)
Definition new_session (disk : gmap string string) : session :=
  {| current_step := 1;
     user_responses := ∅;
     food_order_analysis := PNone;
     final_result := PNone;
     files := disk |}.

Definition set_current_step (n : Z) (s : session) : session :=
  {| current_step := n;
     user_responses := user_responses s;
     food_order_analysis := food_order_analysis s;
     final_result := final_result s;
     files := files s |}.

Definition set_user_responses (u : store) (s : session) : session :=
  {| current_step := current_step s;
     user_responses := u;
     food_order_analysis := food_order_analysis s;
     final_result := final_result s;
     files := files s |}.

Definition set_food_order_analysis (v : pyval) (s : session) : session :=
  {| current_step := current_step s;
     user_responses := user_responses s;
     food_order_analysis := v;
     final_result := final_result s;
     files := files s |}.

Definition set_final_result (v : pyval) (s : session) : session :=
  {| current_step := current_step s;
     user_responses := user_responses s;
     food_order_analysis := food_order_analysis s;
     final_result := v;
     files := files s |}.

Definition set_files (d : gmap string string) (s : session) : session :=
  {| current_step := current_step s;
     user_responses := user_responses s;
     food_order_analysis := food_order_analysis s;
     final_result := final_result s;
     files := d |}.

Record uploaded_file : Type := UploadedFile {
  file_name : string;
  file_type : string;
  file_buffer : string;
}.

Record response : Type := Response {
  status_code : Z;
  response_text : string;
  (** what [response.json()] gives; [None] when it raises [JSONDecodeError] *)
  response_json : option pyval;
}.

Inductive http_outcome : Type :=
| HttpRaises (msg : string)
| HttpReturns (r : response).

(** What one run of the script reads from outside the session. *)
Record interaction : Type := Interaction {
  (** values the user has set on the widgets of the page, by widget key *)
  widget_state : gmap string pyval;
  (** the button whose click started this run *)
  clicked : option string;
  (** the file held by the uploader *)
  uploaded : option uploaded_file;
  (** how [requests.post] ends in this run, should it be called *)
  http : http_outcome;
}.

(** A run started by nothing the user entered: every widget shows the value
    the script pre-fills it with. *)
Definition no_input (h : http_outcome) : interaction :=
  {| widget_state := ∅; clicked := None; uploaded := None; http := h |}.

Inductive request : Type :=
| FullAnalysis (payload : store)
| InvoiceAnalysis (image_data : string).

Inductive event : Type :=
| ETitle (text : string)
| EHeader (text : string)
| ESubheader (text : string)
| EMarkdown (body : pyval)
| EInfo (text : string)
| EWarning (text : string)
| ESuccess (text : string)
| EError (text : string)
| EImage (path : string)
| EAsk (key : string) (label : string) (shown : pyval)
| EButton (key : string) (label : string)
| EUploader (key : string) (types : list string)
| EPost (r : request).

(** ** The monad of a script run *)

Definition M (A : Type) : Type :=
  interaction → session → session * list event * result A.

Definition ret {A} (a : A) : M A := λ _ s, (s, [], Ok a).

Definition bind {A B} (m : M A) (f : A → M B) : M B :=
  λ i s,
    match m i s with
    | (s1, t1, Ok a) =>
        match f a i s1 with
        | (s2, t2, r) => (s2, t1 ++ t2, r)
        end
    | (s1, t1, Raise e) => (s1, t1, Raise e)
    end.

#[export] Instance M_ret : MRet M := @ret.
#[export] Instance M_bind : MBind M := λ A B f m, bind m f.

Definition raise {A} (e : exn) : M A := λ _ s, (s, [], Raise e).

Definition lift {A} (r : result A) : M A := λ _ s, (s, [], r).

Definition ask : M interaction := λ i s, (s, [], Ok i).

Definition get : M session := λ _ s, (s, [], Ok s).

Definition modify (f : session → session) : M unit := λ _ s, (f s, [], Ok tt).

Definition emit (e : event) : M unit := λ _ s, (s, [e], Ok tt).

(** [try: body except <catches> as e: handler e] *)
Definition try_except {A} (body : M A) (catches : exn → bool) (handler : exn → M A) : M A :=
  λ i s,
    match body i s with
    | (s1, t1, Raise e) =>
        if catches e
        then match handler e i s1 with
             | (s2, t2, r) => (s2, t1 ++ t2, r)
             end
        else (s1, t1, Raise e)
    | out => out
    end.

(** The pure part of a result-returning computation. *)
#[export] Instance result_ret : MRet result := @Ok.
#[export] Instance result_bind : MBind result :=
  λ A B f r, match r with Ok a => f a | Raise e => Raise e end.

(** ** The answer store, lines 200-213 *)

Definition lookup_response (category question : string) (default : pyval) (u : store) : pyval :=
  match u !! category with
  | Some answers =>
      match answers !! question with
      | Some v => v
      | None => default
      end
  | None => default
  end.

Definition get_response (category question : string) (default : pyval) : M pyval :=
  s ← get; mret (lookup_response category question default (user_responses s)).

Definition insert_category (category : string) (u : store) : store :=
  match u !! category with
  | Some _ => u
  | None => <[category := ∅]> u
  end.

Definition insert_response (category question : string) (r : pyval) (u : store) : store :=
  alter (λ answers, <[question := r]> answers) category (insert_category category u).

Definition store_response (category question : string) (r : pyval) : M unit :=
  modify (λ s, set_user_responses (insert_response category question r (user_responses s)) s).

(** [if category not in st.session_state.user_responses:
        st.session_state.user_responses[category] = {}] *)
Definition init_category (category : string) : M unit :=
  modify (λ s, set_user_responses (insert_category category (user_responses s)) s).

(** ** Navigation, lines 215-221 *)

Definition next_step : M unit :=
  modify (λ s, set_current_step (current_step s + 1) s).

Definition prev_step : M unit :=
  s ← get;
  if 1 <? current_step s
  then modify (λ s, set_current_step (current_step s - 1) s)
  else mret tt.

(** ** The page: Streamlit's elements

    A widget shows and returns the value the user set on it when there is
    one and it is a value the widget can hold; otherwise the value the script
    pre-fills it with.  A pre-filled value the widget cannot hold is an
    error of the call; a slider widens its range to hold it. *)

Definition widget_value (key : string) : M (option pyval) :=
  i ← ask; mret (widget_state i !! key).

Definition title (text : string) : M unit := emit (ETitle text).
Definition header (text : string) : M unit := emit (EHeader text).
Definition subheader (text : string) : M unit := emit (ESubheader text).
Definition markdown (body : pyval) : M unit := emit (EMarkdown body).
Definition info (text : string) : M unit := emit (EInfo text).
Definition warning (text : string) : M unit := emit (EWarning text).
Definition success (text : string) : M unit := emit (ESuccess text).
Definition error (text : string) : M unit := emit (EError text).

Definition chosen (options : list string) (prefilled : string) (u : option pyval) : string :=
  match u with
  | Some (PStr x) => if str_in x options then x else prefilled
  | _ => prefilled
  end.

(** [st.selectbox(label, options, index=index, key=key)] *)
Definition selectbox (label : string) (options : list string) (index : nat) (key : string)
  : M string :=
  match options !! index with
  | None => raise (StreamlitAPIException "index must be between 0 and length of options")
  | Some prefilled =>
      u ← widget_value key;
      let x := chosen options prefilled u in
      emit (EAsk key label (PStr x));;
      mret x
  end.

(** [st.radio(label, options, index=index, key=key)] *)
Definition radio (label : string) (options : list string) (index : nat) (key : string)
  : M string :=
  match options !! index with
  | None => raise (StreamlitAPIException "index must be between 0 and length of options")
  | Some prefilled =>
      u ← widget_value key;
      let x := chosen options prefilled u in
      emit (EAsk key label (PStr x));;
      mret x
  end.

(** [st.select_slider(label, options=options, value=value, key=key)] *)
Definition select_slider (label : string) (options : list string) (value : string)
    (key : string) : M string :=
  if str_in value options
  then
    u ← widget_value key;
    let x := chosen options value u in
    emit (EAsk key label (PStr x));;
    mret x
  else raise (ValueError "value is not in options").

(** [st.checkbox(label, value=value, key=key)] *)
Definition checkbox (label : string) (value : pyval) (key : string) : M bool :=
  u ← widget_value key;
  let b := match u with Some (PBool b) => b | _ => py_truthy value end in
  emit (EAsk key label (PBool b));;
  mret b.

(** The integers JavaScript holds exactly, [-(2^53 - 1)] to [2^53 - 1]: a
    number widget refuses a bound or a value outside them. *)
Definition js_max_safe_integer : Z := 2 ^ 53 - 1.

Definition js_safe (z : Z) : bool :=
  (- js_max_safe_integer <=? z) && (z <=? js_max_safe_integer).

Definition entered_int (lo : Z) (hi : option Z) (prefilled : Z) (u : option pyval) : Z :=
  match u with
  | Some (PInt z) =>
      if (lo <=? z) && match hi with Some h => z <=? h | None => true end
      then z else prefilled
  | _ => prefilled
  end.

(** [st.number_input(label, min_value=min_value, step=step, value=value,
    key=key)] with integer arguments *)
Definition number_input (label : string) (min_value step value : Z) (key : string) : M Z :=
  if value <? min_value
  then raise (StreamlitAPIException "the value is less than the min_value")
  else if negb (js_safe min_value && js_safe step && js_safe value)
  then raise (StreamlitAPIException "the value must be between -(1 << 53) + 1 and (1 << 53) - 1")
  else
    u ← widget_value key;
    let x := entered_int min_value None value u in
    emit (EAsk key label (PInt x));;
    mret x.

Definition entered_float (lo : float) (prefilled : float) (u : option pyval) : float :=
  match u with
  | Some (PFloat f) => if PrimFloat.leb lo f then f else prefilled
  | _ => prefilled
  end.

(** [st.number_input] with float arguments *)
Definition number_input_float (label : string) (min_value step value : float) (key : string)
  : M float :=
  if PrimFloat.ltb value min_value
  then raise (StreamlitAPIException "the value is less than the min_value")
  else if PrimFloat.is_infinity value
  then raise (StreamlitAPIException "the value must be a number JavaScript can hold")
  else
    u ← widget_value key;
    let x := entered_float min_value value u in
    emit (EAsk key label (PFloat x));;
    mret x.

(** [st.slider(label, min_value, max_value, value=value, key=key)]: a
    pre-filled value outside the range widens the range to hold it. *)
Definition slider (label : string) (min_value max_value value : Z) (key : string) : M Z :=
  let lo := Z.min value (Z.min min_value max_value) in
  let hi := Z.max value max_value in
  if negb (js_safe lo && js_safe hi)
  then raise (StreamlitAPIException "the value must be between -(1 << 53) + 1 and (1 << 53) - 1")
  else
    u ← widget_value key;
    let x := entered_int lo (Some hi) value u in
    emit (EAsk key label (PInt x));;
    mret x.

Section Widgets.
Context `{!Runtime}.

(** [st.image(path, ...)] opens the file and decodes it to show it: bytes
    that are no image raise PIL's [UnidentifiedImageError], an [OSError].
    A path that is no file is passed on as a URL. *)
Definition image (path : string) : M unit :=
  s ← get;
  match files s !! path with
  | Some data =>
      if decodes_image data then emit (EImage path)
      else raise (OSError "cannot identify image file")
  | None => emit (EImage path)
  end.

(** The text a text widget is pre-filled with: [str(value)], and nothing
    for [None], which the widget then returns as it is. *)
Definition text_value (value : pyval) : pyval :=
  match value with
  | PNone => PNone
  | v => PStr (py_str v)
  end.

Definition entered_text (prefilled : pyval) (u : option pyval) : pyval :=
  match u with
  | Some (PStr t) => PStr t
  | _ => prefilled
  end.

(** [st.text_area(label, value=value, key=key)] *)
Definition text_area (label : string) (value : pyval) (key : string) : M pyval :=
  u ← widget_value key;
  let x := entered_text (text_value value) u in
  emit (EAsk key label x);;
  mret x.

(** [st.text_input(label, value=value, key=key)] *)
Definition text_input (label : string) (value : pyval) (key : string) : M pyval :=
  u ← widget_value key;
  let x := entered_text (text_value value) u in
  emit (EAsk key label x);;
  mret x.

End Widgets.

(** The strings of a list of options that a Python list holds, when it
    holds nothing else. *)
Fixpoint selection (options : list string) (l : list pyval) : option (list string) :=
  match l with
  | [] => Some []
  | PStr x :: rest =>
      if str_in x options then (x ::.) <$> selection options rest else None
  | _ => None
  end.

Definition py_strs (l : list string) : pyval := PList (PStr <$> l).

(** [st.multiselect(label, options, default=default, key=key)] *)
Definition multiselect (label : string) (options : list string) (default : pyval)
    (key : string) : M (list string) :=
  let defaults := match default with
                  | PList l => l
                  | PNone => []
                  | v => [v]
                  end in
  match selection options defaults with
  | None => raise (StreamlitAPIException "every default value must exist in options")
  | Some prefilled =>
      u ← widget_value key;
      let x := match u with
               | Some (PList l) =>
                   match selection options l with Some sel => sel | None => prefilled end
               | _ => prefilled
               end in
      emit (EAsk key label (py_strs x));;
      mret x
  end.

(** [st.button(label, key=key)]: true in the run its click started. *)
Definition button (label : string) (key : string) : M bool :=
  i ← ask;
  emit (EButton key label);;
  mret (bool_decide (clicked i = Some key)).

(** [st.file_uploader(label, type=types, key=key)] *)
Definition file_uploader (label : string) (types : list string) (key : string)
  : M (option uploaded_file) :=
  i ← ask;
  emit (EUploader key types);;
  mret (uploaded i).

(** ** Files *)

(** [with open(path, "wb") as f: f.write(data)] *)
Definition write_file (path : string) (data : string) : M unit :=
  modify (λ s, set_files (<[path := data]> (files s)) s).

(** [open(path, "rb").read()] *)
Definition read_file (path : string) : M string :=
  s ← get;
  match files s !! path with
  | Some data => mret data
  | None => raise (OSError "No such file or directory")
  end.

(** Lines 23-35. *)
Definition encode_image (image_path : string) : M (option string) :=
  try_except
    (data ← read_file image_path;
     let encoded_image := b64encode data in
     mret (Some encoded_image))
    is_Exception
    (λ e, error ("Error encoding image: " +:+ exn_str e);; mret None).

(** ** The model API, lines 37-184 *)

(** [requests.post(url, headers, json, timeout=90)] *)
Definition requests_post (r : request) : M response :=
  i ← ask;
  emit (EPost r);;
  match http i with
  | HttpRaises msg => raise (RequestException msg)
  | HttpReturns resp => mret resp
  end.

(** [response.json()] *)
Definition json_of (resp : response) : M pyval :=
  match response_json resp with
  | Some j => mret j
  | None => raise (JSONDecodeError "Expecting value")
  end.

Section Script.
Context `{!Runtime}.

(** Lines 37-112.  The prompt is built from [user_responses] before the
    [try]; the request is logged with the answers it is built from. *)
Definition analyze_with_gemma (user_responses : store) : M pyval :=
  try_except
    (response ← requests_post (FullAnalysis user_responses);
     if status_code response =? 200
     then
       try_except
         (response_json ← json_of response;
          has_choices ← lift (py_contains "choices" response_json);
          nonempty ← (if has_choices : bool
                      then choices ← lift (py_getitem response_json "choices");
                           n ← lift (py_len choices);
                           mret (0 <? n)%nat
                      else mret false);
          if nonempty : bool
          then
            choices ← lift (py_getitem response_json "choices");
            choice ← lift (py_getitem0 choices);
            has_message ← lift (py_contains "message" choice);
            has_content ← (if has_message : bool
                           then message ← lift (py_getitem choice "message");
                                lift (py_contains "content" message)
                           else mret false);
            if has_content : bool
            then
              message ← lift (py_getitem choice "message");
              lift (py_getitem message "content")
            else
              has_text ← lift (py_contains "text" choice);
              if has_text : bool
              then lift (py_getitem choice "text")
              else mret (PStr (json_dumps response_json))
          else
            has_response ← lift (py_contains "response" response_json);
            if has_response : bool then lift (py_getitem response_json "response") else
            has_result ← lift (py_contains "result" response_json);
            if has_result : bool then lift (py_getitem response_json "result") else
            has_output ← lift (py_contains "output" response_json);
            if has_output : bool then lift (py_getitem response_json "output") else
            has_text ← lift (py_contains "text" response_json);
            if has_text : bool then lift (py_getitem response_json "text") else
            mret (PStr (json_dumps response_json)))
         is_JSONDecodeError
         (λ _, mret (PStr (response_text response)))
     else
       mret (PStr ("Error " +:+ pretty (status_code response)
                   +:+ ": The API request failed. Please try again later.")))
    is_Exception
    (λ e, mret (PStr ("An error occurred: " +:+ exn_str e))).

(** Lines 114-184. *)
Definition analyze_food_invoice (image_data : string) : M pyval :=
  try_except
    (response ← requests_post (InvoiceAnalysis image_data);
     if status_code response =? 200
     then
       try_except
         (response_json ← json_of response;
          has_choices ← lift (py_contains "choices" response_json);
          nonempty ← (if has_choices : bool
                      then choices ← lift (py_getitem response_json "choices");
                           n ← lift (py_len choices);
                           mret (0 <? n)%nat
                      else mret false);
          if nonempty : bool
          then
            choices ← lift (py_getitem response_json "choices");
            choice ← lift (py_getitem0 choices);
            has_message ← lift (py_contains "message" choice);
            has_content ← (if has_message : bool
                           then message ← lift (py_getitem choice "message");
                                lift (py_contains "content" message)
                           else mret false);
            if has_content : bool
            then
              message ← lift (py_getitem choice "message");
              lift (py_getitem message "content")
            else
              has_text ← lift (py_contains "text" choice);
              if has_text : bool
              then lift (py_getitem choice "text")
              else mret (PStr (json_dumps response_json))
          else
            has_response ← lift (py_contains "response" response_json);
            if has_response : bool then lift (py_getitem response_json "response") else
            has_result ← lift (py_contains "result" response_json);
            if has_result : bool then lift (py_getitem response_json "result") else
            has_output ← lift (py_contains "output" response_json);
            if has_output : bool then lift (py_getitem response_json "output") else
            has_text ← lift (py_contains "text" response_json);
            if has_text : bool then lift (py_getitem response_json "text") else
            mret (PStr (json_dumps response_json)))
         is_JSONDecodeError
         (λ _, mret (PStr (response_text response)))
     else
       mret (PStr ("Error " +:+ pretty (status_code response)
                   +:+ ": The API request failed. Please try again later.")))
    is_Exception
    (λ e, mret (PStr ("An error occurred: " +:+ exn_str e))).

(** [options[i]] *)
Definition list_item (options : list string) (i : nat) : result string :=
  match options !! i with
  | Some o => Ok o
  | None => Raise (IndexError "list index out of range")
  end.

(** [try: i = options.index(x) except ValueError: i = fallback] *)
Definition index_or (options : list string) (x : pyval) (fallback : nat) : M nat :=
  try_except (lift (py_index options x)) is_ValueError (λ _, mret fallback).

(** ** Step 1: transportation, lines 231-311 *)

Definition transport_options : list string :=
  ["Car"; "Bus"; "Train"; "Bicycle"; "Walking"; "Motorcycle"; "Airplane"; "Other"].

(** Lines 239-252. *)
Definition ask_primary_mode : M string :=
  default_transport ← get_response "transportation" "primary_mode" (PStr "Car");
  default_index ← index_or transport_options default_transport 0;
  transport_mode ← selectbox "What was your primary mode of transportation today?"
                     transport_options default_index "transport_mode";
  store_response "transportation" "primary_mode" (PStr transport_mode);;
  mret transport_mode.

Definition fuel_options : list string :=
  ["Petrol/Gasoline"; "Diesel"; "Electric"; "Hybrid"; "CNG/LPG"].

(** Lines 257-270. *)
Definition ask_fuel_type : M string :=
  default_fuel ← get_response "transportation" "fuel_type" (PStr "Petrol/Gasoline");
  default_fuel_index ← index_or fuel_options default_fuel 0;
  fuel_type ← selectbox "What type of fuel does your vehicle use?"
                fuel_options default_fuel_index "fuel_type";
  store_response "transportation" "fuel_type" (PStr fuel_type);;
  mret fuel_type.

(** Lines 273-281. *)
Definition ask_distance : M unit :=
  stored ← get_response "transportation" "distance_km" (PFloat 0%float);
  distance_value ← lift (py_float stored);
  distance ← number_input_float "How many kilometers did you travel today?"
               0%float 0.5%float distance_value "distance";
  store_response "transportation" "distance_km" (PFloat distance).

(** Lines 285-293. *)
Definition ask_duration : M unit :=
  stored ← get_response "transportation" "duration_minutes" (PInt 0);
  duration_value ← lift (py_int stored);
  duration ← number_input "How many minutes did you spend on public transport?"
               0 5 duration_value "duration";
  store_response "transportation" "duration_minutes" (PInt duration).

(** Lines 297-305. *)
Definition ask_passengers : M unit :=
  stored ← get_response "transportation" "passengers" (PInt 1);
  passengers_value ← lift (py_int stored);
  passengers ← number_input "Including yourself, how many people were in the vehicle?"
                 1 1 passengers_value "passengers";
  store_response "transportation" "passengers" (PInt passengers).

Definition step1 : M unit :=
  header "Transportation";;
  init_category "transportation";;
  transport_mode ← ask_primary_mode;
  (if str_in transport_mode ["Car"; "Motorcycle"]
   then ask_fuel_type;; mret tt
   else mret tt);;
  ask_distance;;
  (if str_in transport_mode ["Bus"; "Train"] then ask_duration else mret tt);;
  (if String.eqb transport_mode "Car" then ask_passengers else mret tt);;
  next ← button "Next: Food & Diet" "transport_next";
  if next : bool then next_step else mret tt.

(** ** Step 2: food and diet, lines 314-543 *)

Definition diet_options : list string :=
  ["Omnivore (regular meat consumption)"; "Flexitarian (occasional meat)";
   "Pescatarian (fish but no meat)"; "Vegetarian (no meat or fish)";
   "Vegan (no animal products)"].

(** Lines 324-339. *)
Definition ask_diet_type : M string :=
  default_diet ← get_response "diet" "diet_type" (PStr "Omnivore (regular meat consumption)");
  default_diet_index ← index_or diet_options default_diet 0;
  diet_type ← selectbox "How would you describe your diet?"
                diet_options default_diet_index "diet_type";
  store_response "diet" "diet_type" (PStr diet_type);;
  mret diet_type.

(** Lines 343-348. *)
Definition ask_had_breakfast : M bool :=
  stored ← get_response "food" "had_breakfast" (PBool false);
  had_breakfast ← checkbox "Did you have breakfast today?" stored "had_breakfast";
  store_response "food" "had_breakfast" (PBool had_breakfast);;
  mret had_breakfast.

(** Lines 352-357. *)
Definition ask_breakfast_description : M unit :=
  stored ← get_response "food" "breakfast_description" (PStr EmptyString);
  breakfast ← text_area "Please describe what you ate for breakfast" stored "breakfast_desc";
  store_response "food" "breakfast_description" breakfast.

(** Lines 359-366. *)
Definition ask_breakfast_dairy : M unit :=
  stored ← get_response "food" "breakfast_dairy_level" (PInt 0);
  value ← lift (py_int stored);
  breakfast_dairy ← slider "How much dairy did your breakfast contain?" 0 5 value
                      "breakfast_dairy";
  store_response "food" "breakfast_dairy_level" (PInt breakfast_dairy).

(** Lines 368-375. *)
Definition ask_breakfast_meat : M unit :=
  stored ← get_response "food" "breakfast_meat_level" (PInt 0);
  value ← lift (py_int stored);
  breakfast_meat ← slider "How much meat/eggs did your breakfast contain?" 0 5 value
                     "breakfast_meat";
  store_response "food" "breakfast_meat_level" (PInt breakfast_meat).

(** Lines 379-384. *)
Definition ask_had_lunch : M bool :=
  stored ← get_response "food" "had_lunch" (PBool false);
  had_lunch ← checkbox "Did you have lunch today?" stored "had_lunch";
  store_response "food" "had_lunch" (PBool had_lunch);;
  mret had_lunch.

Definition lunch_source_options : list string :=
  ["Home-cooked"; "Restaurant"; "Office/School Cafeteria"; "Delivery/Takeout"; "Other"].

(** Lines 388-401. *)
Definition ask_lunch_source : M string :=
  default_lunch_source ← get_response "food" "lunch_source" (PStr "Home-cooked");
  default_lunch_source_index ← index_or lunch_source_options default_lunch_source 0;
  lunch_source ← radio "Where did you get your lunch?"
                   lunch_source_options default_lunch_source_index "lunch_source";
  store_response "food" "lunch_source" (PStr lunch_source);;
  mret lunch_source.

(** Lines 405-410. *)
Definition ask_has_lunch_invoice : M bool :=
  stored ← get_response "food" "has_lunch_invoice" (PBool false);
  has_invoice ← checkbox "Do you have the delivery invoice/receipt?" stored "lunch_invoice";
  store_response "food" "has_lunch_invoice" (PBool has_invoice);;
  mret has_invoice.

(** Lines 415-420 with [key = "lunch_desc"], lines 431-436 with
    [key = "lunch_desc_2"]. *)
Definition ask_lunch_description (key : string) : M unit :=
  stored ← get_response "food" "lunch_description" (PStr EmptyString);
  lunch_desc ← text_area "Please describe what you ate for lunch" stored key;
  store_response "food" "lunch_description" lunch_desc.

(** Lines 422-429 with [key = "lunch_meat"], lines 438-445 with
    [key = "lunch_meat_2"]. *)
Definition ask_lunch_meat (key : string) : M unit :=
  stored ← get_response "food" "lunch_meat_level" (PInt 0);
  value ← lift (py_int stored);
  lunch_meat ← slider "How much meat did your lunch contain?" 0 5 value key;
  store_response "food" "lunch_meat_level" (PInt lunch_meat).

(** Lines 449-454. *)
Definition ask_had_dinner : M bool :=
  stored ← get_response "food" "had_dinner" (PBool false);
  had_dinner ← checkbox "Did you have dinner?" stored "had_dinner";
  store_response "food" "had_dinner" (PBool had_dinner);;
  mret had_dinner.

Definition dinner_source_options : list string :=
  ["Home-cooked"; "Restaurant"; "Delivery/Takeout"; "Other"].

(** Lines 458-471. *)
Definition ask_dinner_source : M string :=
  default_dinner_source ← get_response "food" "dinner_source" (PStr "Home-cooked");
  default_dinner_source_index ← index_or dinner_source_options default_dinner_source 0;
  dinner_source ← radio "Where did you get your dinner?"
                    dinner_source_options default_dinner_source_index "dinner_source";
  store_response "food" "dinner_source" (PStr dinner_source);;
  mret dinner_source.

(** Lines 475-480. *)
Definition ask_has_dinner_invoice : M bool :=
  stored ← get_response "food" "has_dinner_invoice" (PBool false);
  has_dinner_invoice ← checkbox "Do you have the dinner delivery invoice/receipt?" stored
                         "dinner_invoice";
  store_response "food" "has_dinner_invoice" (PBool has_dinner_invoice);;
  mret has_dinner_invoice.

(** Lines 485-490 with [key = "dinner_desc"], lines 501-506 with
    [key = "dinner_desc_2"]. *)
Definition ask_dinner_description (key : string) : M unit :=
  stored ← get_response "food" "dinner_description" (PStr EmptyString);
  dinner_desc ← text_area "Please describe what you ate for dinner" stored key;
  store_response "food" "dinner_description" dinner_desc.

(** Lines 492-499 with [key = "dinner_meat"], lines 508-515 with
    [key = "dinner_meat_2"]. *)
Definition ask_dinner_meat (key : string) : M unit :=
  stored ← get_response "food" "dinner_meat_level" (PInt 0);
  value ← lift (py_int stored);
  dinner_meat ← slider "How much meat did your dinner contain?" 0 5 value key;
  store_response "food" "dinner_meat_level" (PInt dinner_meat).

(** Lines 519-524. *)
Definition ask_snacks : M unit :=
  stored ← get_response "food" "snacks_description" (PStr EmptyString);
  snacks ← text_area "Did you have any snacks or beverages today? Please describe" stored
             "snacks";
  store_response "food" "snacks_description" snacks.

(** Lines 527-534. *)
Definition ask_food_waste : M unit :=
  stored ← get_response "food" "food_waste_level" (PInt 0);
  value ← lift (py_int stored);
  food_waste ← slider "How much food did you throw away today?" 0 5 value "food_waste";
  store_response "food" "food_waste_level" (PInt food_waste).

Definition step2 : M unit :=
  header "Food & Diet";;
  init_category "food";;
  init_category "diet";;
  ask_diet_type;;
  subheader "Breakfast";;
  had_breakfast ← ask_had_breakfast;
  (if had_breakfast : bool
   then ask_breakfast_description;; ask_breakfast_dairy;; ask_breakfast_meat
   else mret tt);;
  subheader "Lunch";;
  had_lunch ← ask_had_lunch;
  (if had_lunch : bool
   then
     lunch_source ← ask_lunch_source;
     if String.eqb lunch_source "Delivery/Takeout"
     then
       has_invoice ← ask_has_lunch_invoice;
       if has_invoice : bool
       then info "You'll be able to upload the invoice in a later step."
       else ask_lunch_description "lunch_desc";; ask_lunch_meat "lunch_meat"
     else ask_lunch_description "lunch_desc_2";; ask_lunch_meat "lunch_meat_2"
   else mret tt);;
  subheader "Dinner";;
  had_dinner ← ask_had_dinner;
  (if had_dinner : bool
   then
     dinner_source ← ask_dinner_source;
     if String.eqb dinner_source "Delivery/Takeout"
     then
       has_dinner_invoice ← ask_has_dinner_invoice;
       if has_dinner_invoice : bool
       then info "You'll be able to upload the invoice in a later step."
       else ask_dinner_description "dinner_desc";; ask_dinner_meat "dinner_meat"
     else ask_dinner_description "dinner_desc_2";; ask_dinner_meat "dinner_meat_2"
   else mret tt);;
  subheader "Other Food Consumption";;
  ask_snacks;;
  ask_food_waste;;
  prev ← button "Previous" "food_prev";
  (if prev : bool then prev_step else mret tt);;
  next ← button "Next: Home Energy" "food_next";
  if next : bool then next_step else mret tt.

(** [for x in xs: body(x)] *)
Fixpoint for_each {A} (xs : list A) (body : A → M unit) : M unit :=
  match xs with
  | [] => mret tt
  | x :: rest => body x;; for_each rest body
  end.

(** ** Step 3: home energy, lines 546-681 *)

Definition home_type_options : list string :=
  ["Apartment"; "Small house"; "Medium house"; "Large house"; "Other"].

(** Lines 555-568. *)
Definition ask_home_type : M string :=
  default_home_type ← get_response "home" "home_type" (PStr "Apartment");
  default_home_type_index ← index_or home_type_options default_home_type 0;
  home_type ← selectbox "What type of home do you live in?"
                home_type_options default_home_type_index "home_type";
  store_response "home" "home_type" (PStr home_type);;
  mret home_type.

(** Lines 571-578. *)
Definition ask_household_size : M unit :=
  stored ← get_response "home" "household_size" (PInt 1);
  value ← lift (py_int stored);
  household_size ← number_input "How many people live in your household?" 1 1 value
                     "household_size";
  store_response "home" "household_size" (PInt household_size).

Definition electricity_options : list string :=
  ["Grid electricity"; "Solar panels"; "Wind power"; "Other renewable"; "Don't know"].

(** Lines 582-591. *)
Definition ask_electricity_sources : M (list string) :=
  default_electricity ← get_response "energy" "electricity_sources" (PList []);
  electricity_source ← multiselect
                         "What are your sources of electricity? (Select all that apply)"
                         electricity_options default_electricity "electricity_source";
  store_response "energy" "electricity_sources" (py_strs electricity_source);;
  mret electricity_source.

(** Lines 595-600. *)
Definition ask_electricity_provider : M unit :=
  stored ← get_response "energy" "electricity_provider" (PStr EmptyString);
  electricity_provider ← text_input "Who is your electricity provider? (Optional)" stored
                           "electricity_provider";
  store_response "energy" "electricity_provider" electricity_provider.

(** Lines 604-610. *)
Definition ask_ac_hours : M unit :=
  stored ← get_response "energy" "ac_hours" (PInt 0);
  value ← lift (py_int stored);
  ac_usage ← slider "How many hours did you use air conditioning today?" 0 24 value
               "ac_usage";
  store_response "energy" "ac_hours" (PInt ac_usage).

(** Lines 612-618. *)
Definition ask_heating_hours : M unit :=
  stored ← get_response "energy" "heating_hours" (PInt 0);
  value ← lift (py_int stored);
  heating_usage ← slider "How many hours did you use heating today?" 0 24 value
                    "heating_usage";
  store_response "energy" "heating_hours" (PInt heating_usage).

(** Lines 622-629. *)
Definition ask_shower_minutes : M unit :=
  stored ← get_response "water" "shower_minutes" (PInt 0);
  value ← lift (py_int stored);
  shower_duration ← number_input "How many minutes did you shower today?" 0 1 value
                      "shower_duration";
  store_response "water" "shower_minutes" (PInt shower_duration).

(** Lines 632-637. *)
Definition ask_did_laundry : M bool :=
  stored ← get_response "water" "did_laundry" (PBool false);
  laundry ← checkbox "Did you do laundry today?" stored "did_laundry";
  store_response "water" "did_laundry" (PBool laundry);;
  mret laundry.

(** Lines 641-648. *)
Definition ask_laundry_loads : M unit :=
  stored ← get_response "water" "laundry_loads" (PInt 1);
  value ← lift (py_int stored);
  laundry_loads ← number_input "How many loads of laundry?" 1 1 value "laundry_loads";
  store_response "water" "laundry_loads" (PInt laundry_loads).

Definition laundry_temp_options : list string := ["Cold"; "Warm"; "Hot"].

(** Lines 651-664. *)
Definition ask_laundry_temperature : M string :=
  default_temp ← get_response "water" "laundry_temperature" (PStr "Cold");
  default_temp_index ← index_or laundry_temp_options default_temp 0;
  value ← lift (list_item laundry_temp_options default_temp_index);
  laundry_temp ← select_slider "At what temperature?" laundry_temp_options value
                   "laundry_temp";
  store_response "water" "laundry_temperature" (PStr laundry_temp);;
  mret laundry_temp.

(** Lines 667-672. *)
Definition ask_used_dishwasher : M bool :=
  stored ← get_response "water" "used_dishwasher" (PBool false);
  dishwasher ← checkbox "Did you use a dishwasher today?" stored "used_dishwasher";
  store_response "water" "used_dishwasher" (PBool dishwasher);;
  mret dishwasher.

Definition step3 : M unit :=
  header "Home Energy";;
  for_each ["home"; "energy"; "water"] init_category;;
  ask_home_type;;
  ask_household_size;;
  subheader "Electricity";;
  electricity_source ← ask_electricity_sources;
  (if str_in "Grid electricity" electricity_source
   then ask_electricity_provider
   else mret tt);;
  subheader "Heating & Cooling";;
  ask_ac_hours;;
  ask_heating_hours;;
  subheader "Water Usage";;
  ask_shower_minutes;;
  laundry ← ask_did_laundry;
  (if laundry : bool
   then ask_laundry_loads;; ask_laundry_temperature;; mret tt
   else mret tt);;
  ask_used_dishwasher;;
  prev ← button "Previous" "energy_prev";
  (if prev : bool then prev_step else mret tt);;
  next ← button "Next: Consumer Goods" "energy_next";
  if next : bool then next_step else mret tt.

(** ** Step 4: consumer goods, lines 684-801 *)

Definition purchased_options : list string :=
  ["Clothing"; "Electronics"; "Furniture"; "Books/Media"; "Toys"; "Household items"; "None"].

(** Lines 693-702. *)
Definition ask_purchased_items : M (list string) :=
  default_purchased ← get_response "consumption" "purchased_items" (PList []);
  purchased_items ← multiselect
                      "Did you purchase any of the following items today? (Select all that apply)"
                      purchased_options default_purchased "purchased_items";
  store_response "consumption" "purchased_items" (py_strs purchased_items);;
  mret purchased_items.

Definition items_new_options : list string :=
  ["All new"; "Mixture of new and second-hand"; "All second-hand"].

(** Lines 707-720. *)
Definition ask_items_new_or_used : M string :=
  default_items_new ← get_response "consumption" "items_new_or_used" (PStr "All new");
  default_items_new_index ← index_or items_new_options default_items_new 0;
  items_new ← radio "Were these items new or second-hand?"
                items_new_options default_items_new_index "items_new";
  store_response "consumption" "items_new_or_used" (PStr items_new);;
  mret items_new.

Definition packaging_options : list string :=
  ["Minimal/eco-friendly packaging"; "Standard packaging"; "Excessive packaging"].

(** Lines 723-736. *)
Definition ask_item_packaging : M string :=
  default_packaging ← get_response "consumption" "item_packaging" (PStr "Standard packaging");
  default_packaging_index ← index_or packaging_options default_packaging 1;
  item_packaging ← radio "How was the packaging of these items?"
                     packaging_options default_packaging_index "item_packaging";
  store_response "consumption" "item_packaging" (PStr item_packaging);;
  mret item_packaging.

(** Lines 739-744. *)
Definition ask_ordered_online : M bool :=
  stored ← get_response "consumption" "ordered_online" (PBool false);
  online_shopping ← checkbox "Did you order anything online today?" stored "ordered_online";
  store_response "consumption" "ordered_online" (PBool online_shopping);;
  mret online_shopping.

Definition delivery_options : list string := ["Standard"; "Express/Next day"; "Same day"].

(** Lines 748-761. *)
Definition ask_delivery_option : M string :=
  default_delivery ← get_response "consumption" "delivery_option" (PStr "Standard");
  default_delivery_index ← index_or delivery_options default_delivery 0;
  delivery_option ← radio "What delivery option did you choose?"
                      delivery_options default_delivery_index "delivery_option";
  store_response "consumption" "delivery_option" (PStr delivery_option);;
  mret delivery_option.

(** Lines 767-774. *)
Definition ask_recycling : M unit :=
  stored ← get_response "waste" "recycling_percentage" (PInt 0);
  value ← lift (py_int stored);
  recycling ← slider "How much of your waste today did you recycle?" 0 100 value "recycling";
  store_response "waste" "recycling_percentage" (PInt recycling).

(** Lines 777-782. *)
Definition ask_does_compost : M bool :=
  stored ← get_response "waste" "does_compost" (PBool false);
  composting ← checkbox "Do you compost food waste?" stored "does_compost";
  store_response "waste" "does_compost" (PBool composting);;
  mret composting.

(** Lines 785-792. *)
Definition ask_plastic_usage : M unit :=
  stored ← get_response "waste" "single_use_plastic_count" (PInt 0);
  value ← lift (py_int stored);
  plastic_usage ← slider "How many single-use plastic items did you use today?" 0 20 value
                    "plastic_usage";
  store_response "waste" "single_use_plastic_count" (PInt plastic_usage).

Definition step4 : M unit :=
  header "Consumer Goods";;
  for_each ["consumption"; "waste"] init_category;;
  purchased_items ← ask_purchased_items;
  (if negb (str_in "None" purchased_items)
      && match purchased_items with [] => false | _ => true end
   then ask_items_new_or_used;; ask_item_packaging;; mret tt
   else mret tt);;
  online_shopping ← ask_ordered_online;
  (if online_shopping : bool then ask_delivery_option;; mret tt else mret tt);;
  subheader "Waste & Recycling";;
  ask_recycling;;
  ask_does_compost;;
  ask_plastic_usage;;
  prev ← button "Previous" "goods_prev";
  (if prev : bool then prev_step else mret tt);;
  next ← button "Next: Food Invoice" "goods_next";
  if next : bool then next_step else mret tt.

(** ** Step 5: food invoice, lines 804-870 *)

Definition step5 : M unit :=
  header "Food Order Invoice";;
  has_lunch_invoice ← get_response "food" "has_lunch_invoice" (PBool false);
  has_dinner_invoice ← get_response "food" "has_dinner_invoice" (PBool false);
  (if py_truthy has_lunch_invoice || py_truthy has_dinner_invoice
   then
     info "You mentioned you have a food delivery invoice. Please upload it below for analysis.";;
     uploaded_file ← file_uploader "Upload your food order invoice"
                       ["jpg"; "jpeg"; "png"; "pdf"] "invoice_upload";
     match uploaded_file with
     | Some file =>
         if startswith "image" (file_type file)
         then
           write_file "uploaded_invoice.png" (file_buffer file);;
           image "uploaded_invoice.png";;
           analyze_button ← button "Analyze Invoice" "analyze_invoice";
           if analyze_button : bool
           then
             warning "Analyzing your food order... This may take up to 60 seconds.";;
             base64_image ← encode_image "uploaded_invoice.png";
             match base64_image with
             | Some image_data =>
                 if negb (String.eqb image_data EmptyString)
                 then
                   invoice_analysis ← analyze_food_invoice image_data;
                   modify (set_food_order_analysis invoice_analysis);;
                   success "Analysis complete!";;
                   subheader "Food Order Analysis";;
                   markdown invoice_analysis;;
                   store_response "food" "invoice_analysis" invoice_analysis
                 else error "Failed to process the image. Please try another image."
             | None => error "Failed to process the image. Please try another image."
             end
           else mret tt
         else error "Please upload an image file of your invoice. PDF processing is not currently supported."
     | None => mret tt
     end
   else info "You didn't mention having a food delivery invoice. You can proceed to the next step.");;
  prev ← button "Previous" "invoice_prev";
  (if prev : bool then prev_step else mret tt);;
  next ← button "Next: Calculate Footprint" "invoice_next";
  if next : bool then next_step else mret tt.

(** ** Step 6: results, lines 873-927 *)

(** Lines 909-913. *)
Definition next_steps : string :=
  "
    - Track your footprint over time to see your progress
    - Set goals to reduce your highest impact areas
    - Share your journey with friends and family to inspire change
    ".

Definition is_None (v : pyval) : bool :=
  match v with PNone => true | _ => false end.

(** Lines 925-927: every key of the session state is deleted and the script
    is rerun; the guards of lines 188-198 then find none of their keys. *)
Definition start_over : M unit :=
  modify (λ s, new_session (files s));;
  raise RerunException.

(** Line 878: the handler of the Recalculate button. *)
Definition recalculate : M unit := modify (set_final_result PNone).

Definition step6 : M unit :=
  header "Your Carbon Footprint Results";;
  recalculate_clicked ← button "Recalculate" "recalculate";
  (if recalculate_clicked : bool then recalculate else mret tt);;
  s ← get;
  (if py_truthy (food_order_analysis s)
   then
     subheader "Food Order Carbon Footprint";;
     markdown (food_order_analysis s);;
     markdown (PStr "---")
   else mret tt);;
  s ← get;
  (if is_None (final_result s)
   then
     info "Preparing to calculate your overall carbon footprint...";;
     try_except
       (warning "Calculating your carbon footprint... This may take up to 60 seconds.";;
        s ← get;
        result ← analyze_with_gemma (user_responses s);
        modify (set_final_result result);;
        success "Calculation complete!")
       is_Exception
       (λ e,
          error ("Error during calculation: " +:+ exn_str e);;
          modify (set_final_result
                    (PStr ("We encountered an error while calculating your carbon footprint: "
                           +:+ exn_str e))))
   else mret tt);;
  subheader "Overall Carbon Footprint Analysis";;
  s ← get;
  markdown (final_result s);;
  subheader "Next Steps";;
  markdown (PStr next_steps);;
  prev ← button "Previous" "results_prev";
  (if prev : bool then prev_step else mret tt);;
  reset ← button "Start Over" "reset";
  if reset : bool then start_over else mret tt.

(** ** The script, top to bottom *)

(** Lines 225-228. *)
Definition introduction : string :=
  "
This calculator helps you understand your daily carbon footprint based on your activities.
Answer the questions below to get a detailed analysis of your environmental impact.
".

Definition script : M unit :=
  title "Comprehensive Carbon Footprint Calculator";;
  markdown (PStr introduction);;
  s ← get;
  if current_step s =? 1 then step1
  else if current_step s =? 2 then step2
  else if current_step s =? 3 then step3
  else if current_step s =? 4 then step4
  else if current_step s =? 5 then step5
  else if current_step s =? 6 then step6
  else mret tt.

(** One interaction: the script runs, and runs once more from the top when
    it ends in [st.rerun()]; the rerun is started by no click. *)
Definition run (i : interaction) (s : session) : session * list event * result unit :=
  match script i s with
  | (s1, t1, Raise RerunException) =>
      match script (no_input (http i)) s1 with
      | (s2, t2, r) => (s2, t1 ++ t2, r)
      end
  | out => out
  end.

(** The session after a series of interactions, and everything the runs put
    on the page or sent out. *)
Fixpoint runs (interactions : list interaction) (s : session) : session * list event :=
  match interactions with
  | [] => (s, [])
  | i :: rest =>
      match run i s with
      | (s1, t1, _) =>
          match runs rest s1 with
          | (s2, t2) => (s2, t1 ++ t2)
          end
      end
  end.

End Script.

(** * The notions the properties are stated with *)

(** ** The answer store *)

Definition lookup2 (c q : string) (u : store) : option pyval :=
  u !! c ≫= λ answers, answers !! q.

Definition same_key (c q c' q' : string) : bool := String.eqb c c' && String.eqb q q'.

Definition has_category (c : string) (u : store) : bool :=
  match u !! c with Some _ => true | None => false end.

(** A store as the answers written, latest first, over the store a run
    started from. *)
Inductive write : Type :=
| WCategory (c : string)
| WAnswer (c q : string) (v : pyval).

Fixpoint written (ws : list write) (u : store) : store :=
  match ws with
  | [] => u
  | WCategory c :: rest => insert_category c (written rest u)
  | WAnswer c q v :: rest => insert_response c q v (written rest u)
  end.

Fixpoint last_answer (c q : string) (ws : list write) : option pyval :=
  match ws with
  | [] => None
  | WCategory _ :: rest => last_answer c q rest
  | WAnswer c' q' v :: rest =>
      if same_key c q c' q' then Some v else last_answer c q rest
  end.

Fixpoint category_written (c : string) (ws : list write) : bool :=
  match ws with
  | [] => false
  | WCategory c' :: rest => String.eqb c c' || category_written c rest
  | WAnswer c' _ _ :: rest => String.eqb c c' || category_written c rest
  end.

(** ** Questions

    Every question of the wizard reads its stored answer, pre-fills a widget
    from it and stores what the widget returns.  [answered] is the outcome
    of such a question, given what the widget ends up holding. *)

Definition answered {X A} (c q : string) (inj : X → pyval) (key label : string)
    (g : X → A) (p : result X) (s : session) : session * list event * result A :=
  match p with
  | Ok x =>
      (set_user_responses (insert_response c q (inj x) (user_responses s)) s,
       [EAsk key label (inj x)], Ok (g x))
  | Raise e => (s, [], Raise e)
  end.

Definition fallback_index (options : list string) (v : pyval) (fb : nat) : nat :=
  match py_index options v with Ok i => i | Raise _ => fb end.

Definition held_select (options : list string) (fb : nat) (v : pyval) (u : option pyval)
  : result string :=
  match options !! fallback_index options v fb with
  | Some p => Ok (chosen options p u)
  | None => Raise (StreamlitAPIException "index must be between 0 and length of options")
  end.

Definition held_select_slider (options : list string) (fb : nat) (v : pyval)
    (u : option pyval) : result string :=
  match options !! fallback_index options v fb with
  | Some p =>
      if str_in p options then Ok (chosen options p u)
      else Raise (ValueError "value is not in options")
  | None => Raise (IndexError "list index out of range")
  end.

Definition held_check (v : pyval) (u : option pyval) : result bool :=
  Ok (match u with Some (PBool b) => b | _ => py_truthy v end).

Definition held_multi (options : list string) (v : pyval) (u : option pyval)
  : result (list string) :=
  match selection options (match v with PList l => l | PNone => [] | w => [w] end) with
  | None => Raise (StreamlitAPIException "every default value must exist in options")
  | Some prefilled =>
      Ok (match u with
          | Some (PList l) =>
              match selection options l with Some sel => sel | None => prefilled end
          | _ => prefilled
          end)
  end.

Section Questions.

Context `{!Runtime}.

Definition held_slider (lo hi : Z) (v : pyval) (u : option pyval) : result Z :=
  match py_int v with
  | Ok z =>
      if negb (js_safe (Z.min z (Z.min lo hi)) && js_safe (Z.max z hi))
      then Raise (StreamlitAPIException
                    "the value must be between -(1 << 53) + 1 and (1 << 53) - 1")
      else Ok (entered_int (Z.min z (Z.min lo hi)) (Some (Z.max z hi)) z u)
  | Raise e => Raise e
  end.

Definition held_number (lo step : Z) (v : pyval) (u : option pyval) : result Z :=
  match py_int v with
  | Ok z =>
      if z <? lo
      then Raise (StreamlitAPIException "the value is less than the min_value")
      else if negb (js_safe lo && js_safe step && js_safe z)
      then Raise (StreamlitAPIException
                    "the value must be between -(1 << 53) + 1 and (1 << 53) - 1")
      else Ok (entered_int lo None z u)
  | Raise e => Raise e
  end.

Definition held_float (lo : float) (v : pyval) (u : option pyval) : result float :=
  match py_float v with
  | Ok f =>
      if PrimFloat.ltb f lo
      then Raise (StreamlitAPIException "the value is less than the min_value")
      else if PrimFloat.is_infinity f
      then Raise (StreamlitAPIException "the value must be a number JavaScript can hold")
      else Ok (entered_float lo f u)
  | Raise e => Raise e
  end.

Definition held_text (v : pyval) (u : option pyval) : result pyval :=
  Ok (entered_text (text_value v) u).

Definition select_question (c q : string) (d : pyval) (options : list string) (fb : nat)
    (label key : string) : M string :=
  v ← get_response c q d;
  idx ← index_or options v fb;
  x ← selectbox label options idx key;
  store_response c q (PStr x);;
  mret x.

Definition select_slider_question (c q : string) (d : pyval) (options : list string)
    (fb : nat) (label key : string) : M string :=
  v ← get_response c q d;
  idx ← index_or options v fb;
  value ← lift (list_item options idx);
  x ← select_slider label options value key;
  store_response c q (PStr x);;
  mret x.

Definition check_question (c q : string) (d : pyval) (label key : string) : M bool :=
  v ← get_response c q d;
  b ← checkbox label v key;
  store_response c q (PBool b);;
  mret b.

Definition slider_question (c q : string) (d : pyval) (lo hi : Z) (label key : string)
  : M unit :=
  v ← get_response c q d;
  value ← lift (py_int v);
  x ← slider label lo hi value key;
  store_response c q (PInt x).

Definition number_question (c q : string) (d : pyval) (lo step : Z) (label key : string)
  : M unit :=
  v ← get_response c q d;
  value ← lift (py_int v);
  x ← number_input label lo step value key;
  store_response c q (PInt x).

Definition float_question (c q : string) (d : pyval) (lo step : float) (label key : string)
  : M unit :=
  v ← get_response c q d;
  value ← lift (py_float v);
  x ← number_input_float label lo step value key;
  store_response c q (PFloat x).

Definition text_question (c q : string) (d : pyval) (label key : string) : M unit :=
  v ← get_response c q d;
  x ← text_area label v key;
  store_response c q x.

Definition multi_question (c q : string) (d : pyval) (options : list string)
    (label key : string) : M (list string) :=
  v ← get_response c q d;
  x ← multiselect label options v key;
  store_response c q (py_strs x);;
  mret x.

End Questions.

(** ** Running a script symbolically

    [wp m i s t0 Q]: the run of [m] on the interaction [i] from the session
    [s], after a page [t0], ends in a session, a page and a result that
    satisfy [Q]. *)

Definition wp {A} (m : M A) (i : interaction) (s : session) (t0 : list event)
    (Q : session → list event → result A → Prop) : Prop :=
  match m i s with
  | (s', t, r) => Q s' (t0 ++ t) r
  end.

Section Stable.

Context `{!Runtime}.

(** The option a select box or radio group is pre-filled with. *)
Definition prefilled (options : list string) (fb : nat) (v : pyval) : string :=
  default EmptyString (options !! fallback_index options v fb).

End Stable.

(** ** Rendering twice *)

(** The question behind each widget: its category and its key in the
    answer store. *)
Definition questions : list (string * (string * string)) :=
  [("transport_mode", ("transportation", "primary_mode"));
   ("fuel_type", ("transportation", "fuel_type"));
   ("distance", ("transportation", "distance_km"));
   ("duration", ("transportation", "duration_minutes"));
   ("passengers", ("transportation", "passengers"));
   ("diet_type", ("diet", "diet_type"));
   ("had_breakfast", ("food", "had_breakfast"));
   ("breakfast_desc", ("food", "breakfast_description"));
   ("breakfast_dairy", ("food", "breakfast_dairy_level"));
   ("breakfast_meat", ("food", "breakfast_meat_level"));
   ("had_lunch", ("food", "had_lunch"));
   ("lunch_source", ("food", "lunch_source"));
   ("lunch_invoice", ("food", "has_lunch_invoice"));
   ("lunch_desc", ("food", "lunch_description"));
   ("lunch_meat", ("food", "lunch_meat_level"));
   ("lunch_desc_2", ("food", "lunch_description"));
   ("lunch_meat_2", ("food", "lunch_meat_level"));
   ("had_dinner", ("food", "had_dinner"));
   ("dinner_source", ("food", "dinner_source"));
   ("dinner_invoice", ("food", "has_dinner_invoice"));
   ("dinner_desc", ("food", "dinner_description"));
   ("dinner_meat", ("food", "dinner_meat_level"));
   ("dinner_desc_2", ("food", "dinner_description"));
   ("dinner_meat_2", ("food", "dinner_meat_level"));
   ("snacks", ("food", "snacks_description"));
   ("food_waste", ("food", "food_waste_level"));
   ("home_type", ("home", "home_type"));
   ("household_size", ("home", "household_size"));
   ("electricity_source", ("energy", "electricity_sources"));
   ("electricity_provider", ("energy", "electricity_provider"));
   ("ac_usage", ("energy", "ac_hours"));
   ("heating_usage", ("energy", "heating_hours"));
   ("shower_duration", ("water", "shower_minutes"));
   ("did_laundry", ("water", "did_laundry"));
   ("laundry_loads", ("water", "laundry_loads"));
   ("laundry_temp", ("water", "laundry_temperature"));
   ("used_dishwasher", ("water", "used_dishwasher"));
   ("purchased_items", ("consumption", "purchased_items"));
   ("items_new", ("consumption", "items_new_or_used"));
   ("item_packaging", ("consumption", "item_packaging"));
   ("ordered_online", ("consumption", "ordered_online"));
   ("delivery_option", ("consumption", "delivery_option"));
   ("recycling", ("waste", "recycling_percentage"));
   ("does_compost", ("waste", "does_compost"));
   ("plastic_usage", ("waste", "single_use_plastic_count"))].

Fixpoint assoc {A} (key : string) (l : list (string * A)) : option A :=
  match l with
  | [] => None
  | (k, a) :: rest => if String.eqb k key then Some a else assoc key rest
  end.

Definition question_of (key : string) : option (string * string) := assoc key questions.

(** The widget behind each key, with what decides which stored answers it
    can show: the options of a select box, a radio group, a select slider
    or a multiselect, and the least value of a number input. *)
Inductive widget : Type :=
| Choice (options : list string)
| Choices (options : list string)
| Check
| Count (min_value : Z)
| Amount (min_value : float)
| Scale
| Text.

Definition widgets : list (string * widget) :=
  [("transport_mode", Choice transport_options);
   ("fuel_type", Choice fuel_options);
   ("distance", Amount 0%float);
   ("duration", Count 0);
   ("passengers", Count 1);
   ("diet_type", Choice diet_options);
   ("had_breakfast", Check);
   ("breakfast_desc", Text);
   ("breakfast_dairy", Scale);
   ("breakfast_meat", Scale);
   ("had_lunch", Check);
   ("lunch_source", Choice lunch_source_options);
   ("lunch_invoice", Check);
   ("lunch_desc", Text);
   ("lunch_meat", Scale);
   ("lunch_desc_2", Text);
   ("lunch_meat_2", Scale);
   ("had_dinner", Check);
   ("dinner_source", Choice dinner_source_options);
   ("dinner_invoice", Check);
   ("dinner_desc", Text);
   ("dinner_meat", Scale);
   ("dinner_desc_2", Text);
   ("dinner_meat_2", Scale);
   ("snacks", Text);
   ("food_waste", Scale);
   ("home_type", Choice home_type_options);
   ("household_size", Count 1);
   ("electricity_source", Choices electricity_options);
   ("electricity_provider", Text);
   ("ac_usage", Scale);
   ("heating_usage", Scale);
   ("shower_duration", Count 0);
   ("did_laundry", Check);
   ("laundry_loads", Count 1);
   ("laundry_temp", Choice laundry_temp_options);
   ("used_dishwasher", Check);
   ("purchased_items", Choices purchased_options);
   ("items_new", Choice items_new_options);
   ("item_packaging", Choice packaging_options);
   ("ordered_online", Check);
   ("delivery_option", Choice delivery_options);
   ("recycling", Scale);
   ("does_compost", Check);
   ("plastic_usage", Scale)].

(** The stored answers a widget shows as they are: an option of its list;
    a list of its options; a boolean; an integer or a float that is not
    under the least value and that JavaScript can hold; any such integer
    for a slider, whose range widens; a string or None for a text. *)
Definition accepts (w : widget) (v : pyval) : bool :=
  match w, v with
  | Choice options, PStr x => str_in x options
  | Choices options, PList l =>
      match selection options l with Some _ => true | None => false end
  | Check, PBool _ => true
  | Count lo, PInt z => (lo <=? z) && js_safe z
  | Amount lo, PFloat f => negb (PrimFloat.ltb f lo) && negb (PrimFloat.is_infinity f)
  | Scale, PInt z => js_safe z
  | Text, PStr _ => true
  | Text, PNone => true
  | _, _ => false
  end.

Definition can_show (key : string) (v : pyval) : bool :=
  match assoc key widgets with
  | Some w => accepts w v
  | None => false
  end.

(** What a question shows is the answer the session [s] holds for it, and
    the answer the store [u0] held for it when its widget can show that
    one. *)
Definition shows_stored (u0 : store) (s : session) (e : event) : Prop :=
  match e with
  | EAsk key _ shown =>
      ∃ c q, question_of key = Some (c, q)
             ∧ lookup2 c q (user_responses s) = Some shown
             ∧ (∀ v, lookup2 c q u0 = Some v → can_show key v = true → shown = v)
  | _ => True
  end.

(** Every widget of the question [q] of the category [c] can show [v]. *)
Definition can_show_all (c q : string) (v : pyval) : Prop :=
  ∀ key, question_of key = Some (c, q) → can_show key v = true.

(** The session [s] holds every answer that the store [u0] held and that
    the widgets of its question can show. *)
Definition keeps_shown (u0 : store) (s : session) : Prop :=
  ∀ c q v, lookup2 c q u0 = Some v → can_show_all c q v →
           lookup2 c q (user_responses s) = Some v.

(** A write that changes no answer of [u0] the widgets can show. *)
Definition faithful (u0 : store) (w : write) : Prop :=
  match w with
  | WCategory _ => True
  | WAnswer c q y => ∀ v, lookup2 c q u0 = Some v → can_show_all c q v → y = v
  end.

Definition asks_nothing (e : event) : Prop :=
  match e with EAsk _ _ _ => False | _ => True end.

(** Rendering with nothing entered, and then again from the session the
    first rendering left: the cursor stays, the answers the widgets can
    show are kept, every question of the first page shows the answer then
    stored for it, which is the answer stored before when its widget can
    show that one, and the second rendering leaves the session as it is and
    shows the same page. *)
Definition redisplays {A} (m : M A) (h : http_outcome) (s : session) : Prop :=
  match m (no_input h) s with
  | (s1, t1, r1) =>
      (current_step s1 = current_step s ∧ keeps_shown (user_responses s) s1)
      ∧ Forall (shows_stored (user_responses s) s1) t1
      ∧ m (no_input h) s1 = (s1, t1, r1)
  end.

(** [twice D u0 m h s]: the same, of the rest [m] of a step started from
    the store [u0], with the facts [D] about the session the first
    rendering leaves. *)
Definition twice {A} (D : session → Prop) (u0 : store) (m : M A) (h : http_outcome)
    (s : session) : Prop :=
  match m (no_input h) s with
  | (s1, t1, r1) =>
      (D s1 ∧ Forall (shows_stored u0 s1) t1)
      ∧ match m (no_input h) s1 with
        | (s2, t2, r2) => s2 = s1 ∧ t2 = t1 ∧ r2 = r1
        end
  end.

(** ** The API boundary *)

Section Analysis.

Context `{!Runtime}.

(** Lines 89-104 and 161-176: the content found in a decoded response. *)
Definition extract_content (response_json : pyval) : result pyval :=
  has_choices ← py_contains "choices" response_json;
  nonempty ← (if has_choices : bool
              then choices ← py_getitem response_json "choices";
                   n ← py_len choices;
                   mret (0 <? n)%nat
              else mret false);
  if nonempty : bool
  then
    choices ← py_getitem response_json "choices";
    choice ← py_getitem0 choices;
    has_message ← py_contains "message" choice;
    has_content ← (if has_message : bool
                   then message ← py_getitem choice "message";
                        py_contains "content" message
                   else mret false);
    if has_content : bool
    then
      message ← py_getitem choice "message";
      py_getitem message "content"
    else
      has_text ← py_contains "text" choice;
      if has_text : bool
      then py_getitem choice "text"
      else mret (PStr (json_dumps response_json))
  else
    has_response ← py_contains "response" response_json;
    if has_response : bool then py_getitem response_json "response" else
    has_result ← py_contains "result" response_json;
    if has_result : bool then py_getitem response_json "result" else
    has_output ← py_contains "output" response_json;
    if has_output : bool then py_getitem response_json "output" else
    has_text ← py_contains "text" response_json;
    if has_text : bool then py_getitem response_json "text" else
    mret (PStr (json_dumps response_json)).

(** What either analysis function returns, by the outcome of the request. *)
Definition analysis (h : http_outcome) : pyval :=
  match h with
  | HttpRaises msg => PStr ("An error occurred: " +:+ msg)
  | HttpReturns resp =>
      if status_code resp =? 200
      then
        match response_json resp with
        | None => PStr (response_text resp)
        | Some j =>
            match extract_content j with
            | Ok v => v
            | Raise e => PStr ("An error occurred: " +:+ exn_str e)
            end
        end
      else PStr ("Error " +:+ pretty (status_code resp)
                 +:+ ": The API request failed. Please try again later.")
  end.

(** The errors of reading a decoded response. *)
Definition lookup_error (e : exn) : bool :=
  match e with
  | TypeError _ | KeyError _ | IndexError _ => true
  | _ => false
  end.

Definition lookup_errors {A} (r : result A) : Prop :=
  match r with
  | Ok _ => True
  | Raise e => lookup_error e = true
  end.

(** The block inside the inner [try] of both analysis functions. *)
Definition read_response (resp : response) : M pyval :=
  response_json ← json_of resp;
  has_choices ← lift (py_contains "choices" response_json);
  nonempty ← (if has_choices : bool
              then choices ← lift (py_getitem response_json "choices");
                   n ← lift (py_len choices);
                   mret (0 <? n)%nat
              else mret false);
  if nonempty : bool
  then
    choices ← lift (py_getitem response_json "choices");
    choice ← lift (py_getitem0 choices);
    has_message ← lift (py_contains "message" choice);
    has_content ← (if has_message : bool
                   then message ← lift (py_getitem choice "message");
                        lift (py_contains "content" message)
                   else mret false);
    if has_content : bool
    then
      message ← lift (py_getitem choice "message");
      lift (py_getitem message "content")
    else
      has_text ← lift (py_contains "text" choice);
      if has_text : bool
      then lift (py_getitem choice "text")
      else mret (PStr (json_dumps response_json))
  else
    has_response ← lift (py_contains "response" response_json);
    if has_response : bool then lift (py_getitem response_json "response") else
    has_result ← lift (py_contains "result" response_json);
    if has_result : bool then lift (py_getitem response_json "result") else
    has_output ← lift (py_contains "output" response_json);
    if has_output : bool then lift (py_getitem response_json "output") else
    has_text ← lift (py_contains "text" response_json);
    if has_text : bool then lift (py_getitem response_json "text") else
    mret (PStr (json_dumps response_json)).

(** A computation that only computes a result. *)
Definition pure_as {A} (m : M A) (r : result A) : Prop :=
  ∀ i s, m i s = (s, [], r).

Definition analyze (r : request) : M pyval :=
  try_except
    (response ← requests_post r;
     if status_code response =? 200
     then
       try_except (read_response response) is_JSONDecodeError
         (λ _, mret (PStr (response_text response)))
     else
       mret (PStr ("Error " +:+ pretty (status_code response)
                   +:+ ": The API request failed. Please try again later.")))
    is_Exception
    (λ e, mret (PStr ("An error occurred: " +:+ exn_str e))).

End Analysis.

(** ** What a run leaves alone

    [sat R T E m]: every run of [m] relates the session it starts from to
    the one it ends in by [R], puts only events of [T] on the page, and
    raises only exceptions of [E]. *)

Definition sat {A} (R : session → session → Prop) (T : event → Prop) (E : exn → Prop)
    (m : M A) : Prop :=
  ∀ i s,
    match m i s with
    | (s1, t, r) =>
        R s s1 ∧ Forall T t ∧ match r with Raise e => E e | Ok _ => True end
    end.

(** ** Where the cursor can go *)

Definition within (lo hi : Z) (s : session) : Prop := lo ≤ current_step s ≤ hi.

Definition keeps (P : session → Prop) (s s1 : session) : Prop := P s → P s1.

Definition any_event (e : event) : Prop := True.

Definition any_exn (e : exn) : Prop := True.

(** [ends P Q m]: started in a session of [P], [m] keeps the session in [P]
    up to its last statement and leaves it in [Q]. *)
Definition ends {A} (P Q : session → Prop) (m : M A) : Prop :=
  ∀ i s, P s → Q (m i s).1.1.

Section Cursor.

Context `{!Runtime}.

(** The step the script shows. *)
Definition step_at (k : Z) : M unit :=
  if k =? 1 then step1
  else if k =? 2 then step2
  else if k =? 3 then step3
  else if k =? 4 then step4
  else if k =? 5 then step5
  else if k =? 6 then step6
  else mret tt.

Definition banner : list event :=
  [ETitle "Comprehensive Carbon Footprint Calculator";
   EMarkdown (PStr introduction)].

End Cursor.

(** ** Running a step on any interaction *)

(** The requests sent out during a run, in order. *)
Fixpoint requests (t : list event) : list request :=
  match t with
  | [] => []
  | EPost r :: t => r :: requests t
  | _ :: t => requests t
  end.

(** The answers the overall analysis was asked for. *)
Fixpoint full_requests (t : list event) : list store :=
  match t with
  | [] => []
  | EPost (FullAnalysis u) :: t => u :: full_requests t
  | _ :: t => full_requests t
  end.

(** * Navigation *)

Inductive nav : Type := Advance | Retreat.

Definition navigate (n : nav) : M unit :=
  match n with
  | Advance => next_step
  | Retreat => prev_step
  end.

(** The session after a series of calls of [next_step] and [prev_step]. *)
Definition navigated (calls : list nav) (i : interaction) (s : session) : session :=
  (for_each calls navigate i s).1.1.

(** * Questions with a list of options *)

(** The questions that look their stored answer up in a list of options. *)
Inductive enumerated : Type :=
| TransportMode | FuelType | DietType | LunchSource | DinnerSource
| HomeType | LaundryTemperature | NewOrUsed | Packaging | DeliveryOption.

Record enumeration : Type := Enumeration {
  enum_category : string;
  enum_question : string;
  enum_stock : string;
  enum_options : list string;
  enum_fallback : nat;
  enum_label : string;
  enum_key : string;
}.

Definition enumeration_of (e : enumerated) : enumeration :=
  match e with
  | TransportMode =>
      Enumeration "transportation" "primary_mode" "Car" transport_options 0
        "What was your primary mode of transportation today?" "transport_mode"
  | FuelType =>
      Enumeration "transportation" "fuel_type" "Petrol/Gasoline" fuel_options 0
        "What type of fuel does your vehicle use?" "fuel_type"
  | DietType =>
      Enumeration "diet" "diet_type" "Omnivore (regular meat consumption)" diet_options 0
        "How would you describe your diet?" "diet_type"
  | LunchSource =>
      Enumeration "food" "lunch_source" "Home-cooked" lunch_source_options 0
        "Where did you get your lunch?" "lunch_source"
  | DinnerSource =>
      Enumeration "food" "dinner_source" "Home-cooked" dinner_source_options 0
        "Where did you get your dinner?" "dinner_source"
  | HomeType =>
      Enumeration "home" "home_type" "Apartment" home_type_options 0
        "What type of home do you live in?" "home_type"
  | LaundryTemperature =>
      Enumeration "water" "laundry_temperature" "Cold" laundry_temp_options 0
        "At what temperature?" "laundry_temp"
  | NewOrUsed =>
      Enumeration "consumption" "items_new_or_used" "All new" items_new_options 0
        "Were these items new or second-hand?" "items_new"
  | Packaging =>
      Enumeration "consumption" "item_packaging" "Standard packaging" packaging_options 1
        "How was the packaging of these items?" "item_packaging"
  | DeliveryOption =>
      Enumeration "consumption" "delivery_option" "Standard" delivery_options 0
        "What delivery option did you choose?" "delivery_option"
  end.

(** [v in options] *)
Definition is_option (v : pyval) (options : list string) : bool :=
  match v with PStr x => str_in x options | _ => false end.

(** The answer stored for the question, or its stock default. *)
Definition stored_answer (e : enumerated) (u : store) : pyval :=
  lookup_response (enum_category (enumeration_of e)) (enum_question (enumeration_of e))
    (PStr (enum_stock (enumeration_of e))) u.

(** The option the question falls back to. *)
Definition fallback_option (e : enumerated) : string :=
  default EmptyString (enum_options (enumeration_of e) !! enum_fallback (enumeration_of e)).

Section Enumerated.

Context `{!Runtime}.

Definition ask_enumerated (e : enumerated) : M string :=
  match e with
  | TransportMode => ask_primary_mode
  | FuelType => ask_fuel_type
  | DietType => ask_diet_type
  | LunchSource => ask_lunch_source
  | DinnerSource => ask_dinner_source
  | HomeType => ask_home_type
  | LaundryTemperature => ask_laundry_temperature
  | NewOrUsed => ask_items_new_or_used
  | Packaging => ask_item_packaging
  | DeliveryOption => ask_delivery_option
  end.

End Enumerated.

(** * The invoice step *)

Definition invoice_flag (question : string) (u : store) : bool :=
  py_truthy (lookup_response "food" question (PBool false) u).

(** Step 2 flagged a lunch or a dinner invoice. *)
Definition flagged (u : store) : bool :=
  invoice_flag "has_lunch_invoice" u || invoice_flag "has_dinner_invoice" u.

Definition is_uploader (e : event) : bool :=
  match e with EUploader _ _ => true | _ => false end.

Definition is_nothing_to_upload (e : event) : bool :=
  match e with
  | EInfo text =>
      String.eqb text
        "You didn't mention having a food delivery invoice. You can proceed to the next step."
  | _ => false
  end.

Definition offers_upload (t : list event) : bool := existsb is_uploader t.

Definition says_nothing_to_upload (t : list event) : bool := existsb is_nothing_to_upload t.

Definition rejection : string :=
  "Please upload an image file of your invoice. PDF processing is not currently supported.".

(** * The two cached analyses *)

(** An interaction that resets nothing: its click, if any, is neither
    Recalculate nor Start Over. *)
Definition resets_nothing (i : interaction) : Prop :=
  clicked i ≠ Some "recalculate" ∧ clicked i ≠ Some "reset".

Definition keeps_result (s s1 : session) : Prop := final_result s1 = final_result s.

Definition no_full_request (e : event) : Prop :=
  match e with EPost (FullAnalysis _) => False | _ => True end.

Definition not_rerun (e : exn) : Prop := is_Exception e = true.

(** The overall analyses a session can still ask for before a reset: one
    while the slot is empty, none once it is filled. *)
Definition budget (s : session) : nat := if is_None (final_result s) then 1 else 0.

(** * The transportation step *)

(** The page asks the question of the widget [key]. *)
Definition asks (key : string) (t : list event) : bool :=
  existsb (λ e, match e with EAsk k _ _ => String.eqb k key | _ => false end) t.

(** What the mode widget holds when the store holds Bicycle. *)
Definition mode_held (i : interaction) : string :=
  chosen transport_options "Bicycle" (widget_state i !! "transport_mode").

(** * The API boundary: what the analysis functions return *)

Definition is_str (v : pyval) : bool :=
  match v with PStr _ => true | _ => false end.

(** [part_of v j]: [v] is an item or a value inside the decoded body [j]. *)
Inductive part_of : pyval → pyval → Prop :=
| part_item v l : In v l → part_of v (PList l)
| part_value k v d : pydict_get k d = Some v → part_of v (PDict d)
| part_inside v w j : part_of v w → part_of w j → part_of v j.

Definition has_key (k : string) (d : list (string * pyval)) : bool :=
  match pydict_get k d with Some _ => true | None => false end.

(** The keys either function looks for at the top of a decoded object. *)
Definition envelope_keys : list string := ["choices"; "response"; "result"; "output"; "text"].

Definition no_envelope_key (d : list (string * pyval)) : bool :=
  forallb (λ k, negb (has_key k d)) envelope_keys.

Section Boundary.

Context `{!Runtime}.

(** Both functions, whatever they are given and whatever the session holds,
    send their one request and return [v] when the request ends as [h]. *)
Definition both_return (h : http_outcome) (v : pyval) : Prop :=
  (∀ u i s, http i = h →
     analyze_with_gemma u i s = (s, [EPost (FullAnalysis u)], Ok v))
  ∧ (∀ image_data i s, http i = h →
       analyze_food_invoice image_data i s = (s, [EPost (InvoiceAnalysis image_data)], Ok v)).

End Boundary.

(** * Worked examples *)

(** The bytes of a file, from their codes. *)
Definition bytes (codes : list N) : string :=
  string_of_list_ascii (ascii_of_N <$> codes).

(** The eight bytes a PNG file starts with. *)
Definition png_signature : string := bytes [137; 80; 78; 71; 13; 10; 26; 10]%N.

(** A runtime for the examples: it parses no number, prints a value as
    the name of its type, and takes for an image what starts as a PNG file
    does. *)
Definition sample_runtime : Runtime :=
  {| str_to_int := λ _, None;
     str_to_float := λ _, None;
     repr := py_type_name;
     json_dumps := py_type_name;
     decodes_image := String.prefix png_signature |}.

(** The double quote. *)
Definition dq : string := String "034"%char EmptyString.

Definition offline : http_outcome := HttpRaises "Connection refused".

Definition at_step (k : Z) (u : store) : session :=
  {| current_step := k;
     user_responses := u;
     food_order_analysis := PNone;
     final_result := PNone;
     files := ∅ |}.

Definition click (key : string) (h : http_outcome) : interaction :=
  {| widget_state := ∅; clicked := Some key; uploaded := None; http := h |}.

Definition upload (file : uploaded_file) (click : option string) (h : http_outcome)
  : interaction :=
  {| widget_state := ∅; clicked := click; uploaded := Some file; http := h |}.

(** The values shown for the widget [key], in order. *)
Fixpoint shown_for (key : string) (t : list event) : list pyval :=
  match t with
  | [] => []
  | EAsk k _ v :: t => if String.eqb k key then v :: shown_for key t else shown_for key t
  | _ :: t => shown_for key t
  end.

Definition stale_diet : store :=
  {[ "diet" := {[ "diet_type" := PStr "Carnivore-extreme" ]} ]}.

Definition commuter : store :=
  {[ "transportation" := {[ "primary_mode" := PStr "Bus";
                            "distance_km" := PFloat 12.5%float ]} ]}.

Definition bubble_wrap : store :=
  {[ "consumption" := {[ "purchased_items" := PList [PStr "Books/Media"];
                         "item_packaging" := PStr "Bubble wrap" ]} ]}.

Definition lunch_flagged : store :=
  {[ "food" := {[ "has_lunch_invoice" := PBool true ]} ]}.

Definition cyclist : store :=
  {[ "transportation" := {[ "primary_mode" := PStr "Bicycle" ]} ]}.

(** A PNG file of one white pixel: the signature and the chunks IHDR, IDAT
    and IEND. *)
Definition receipt_png : uploaded_file :=
  {| file_name := "receipt.png";
     file_type := "image/png";
     file_buffer :=
       bytes [137; 80; 78; 71; 13; 10; 26; 10;
              0; 0; 0; 13; 73; 72; 68; 82; 0; 0; 0; 1; 0; 0; 0; 1; 8; 2; 0; 0; 0;
              144; 119; 83; 222;
              0; 0; 0; 12; 73; 68; 65; 84; 120; 218; 99; 248; 255; 255; 63; 0; 5; 254; 2; 254;
              51; 18; 149; 20;
              0; 0; 0; 0; 73; 69; 78; 68; 174; 66; 96; 130]%N |}.

(** The file in base 64. *)
Definition receipt_png_base64 : string :=
  "iVBORw0KGgoAAAANSUhEUgAAAAEAAAABCAIAAACQd1PeAAAADElEQVR42mP4//8/AAX+Av4zEpUUAAAAAElFTkSuQmCC".

(** A file that says it is a PNG image and holds three letters. *)
Definition no_png : uploaded_file :=
  {| file_name := "receipt.png"; file_type := "image/png"; file_buffer := "abc" |}.

Definition receipt_pdf : uploaded_file :=
  {| file_name := "receipt.pdf"; file_type := "application/pdf"; file_buffer := "%PDF-1.7" |}.

(** A 200 response with the body [{"response": "text"}]. *)
Definition replies (text : string) : http_outcome :=
  HttpReturns
    {| status_code := 200;
       response_text :=
         "{" +:+ dq +:+ "response" +:+ dq +:+ ": " +:+ dq +:+ text +:+ dq +:+ "}";
       response_json := Some (PDict [("response", PStr text)]) |}.

(** A 200 response with the body [{"choices": [{"message": {"content": null}}]}]. *)
Definition null_content : http_outcome :=
  HttpReturns
    {| status_code := 200;
       response_text :=
         "{" +:+ dq +:+ "choices" +:+ dq +:+ ": [{" +:+ dq +:+ "message" +:+ dq +:+ ": {"
         +:+ dq +:+ "content" +:+ dq +:+ ": null}}]}";
       response_json :=
         Some (PDict [("choices",
                       PList [PDict [("message", PDict [("content", PNone)])]])]) |}.

(** A 200 response with the body [5]. *)
Definition bare_number : http_outcome :=
  HttpReturns {| status_code := 200; response_text := "5"; response_json := Some (PInt 5) |}.

Definition unavailable : http_outcome :=
  HttpReturns {| status_code := 503;
                 response_text := "Service Unavailable";
                 response_json := None |}.

(** A session at step 5 with an earlier invoice analysis in its slot. *)
Definition analyzed_before : session :=
  {| current_step := 5;
     user_responses := lunch_flagged;
     food_order_analysis := PStr "Earlier analysis";
     final_result := PNone;
     files := ∅ |}.

(** A session at step 6 with a result in its slot. *)
Definition with_result : session :=
  {| current_step := 6;
     user_responses := ∅;
     food_order_analysis := PNone;
     final_result := PStr "Earlier result";
     files := ∅ |}.

(** * Where the analysis functions look for the content *)

(** The first of [keys] that the object [d] has, with its value. *)
Fixpoint first_present (keys : list string) (d : list (string * pyval)) : option pyval :=
  match keys with
  | [] => None
  | k :: rest =>
      match pydict_get k d with
      | Some v => Some v
      | None => first_present rest d
      end
  end.

(** [choices] is missing from the object, or is an empty list. *)
Definition no_choices (d : list (string * pyval)) : bool :=
  match pydict_get "choices" d with
  | None | Some (PList []) => true
  | _ => false
  end.

(** The choice has no [message], or [content] is not in its message. *)
Definition lacks_content (choice : list (string * pyval)) : bool :=
  match pydict_get "message" choice with
  | None => true
  | Some message =>
      match py_contains "content" message with
      | Ok false => true
      | _ => false
      end
  end.

(** * More on the results step and the invoice step *)

(** [st.error] and the [error] of a placeholder. *)
Definition is_error (e : event) : bool :=
  match e with EError _ => true | _ => false end.

(** The page has an error message. *)
Definition shows_error (t : list event) : bool := existsb is_error t.

(** The string both analysis functions return for a status other than 200. *)
Definition failure_text (status : Z) : string :=
  "Error " +:+ pretty status +:+ ": The API request failed. Please try again later.".

(** * What the steps leave alone *)

(** The categories of the answer store a step writes to. *)
Definition categories_of_step (k : Z) : list string :=
  if k =? 1 then ["transportation"]
  else if k =? 2 then ["diet"; "food"]
  else if k =? 3 then ["home"; "energy"; "water"]
  else if k =? 4 then ["consumption"; "waste"]
  else if k =? 5 then ["food"]
  else [].

(** The categories outside [cats] hold what they held. *)
Definition keeps_categories (cats : list string) (s s1 : session) : Prop :=
  ∀ c, str_in c cats = false → user_responses s1 !! c = user_responses s !! c.

(** Every file but the saved upload holds what it held. *)
Definition keeps_files (s s1 : session) : Prop :=
  ∀ path, path ≠ "uploaded_invoice.png" → files s1 !! path = files s !! path.

(** Both slots and the files are as they were. *)
Definition keeps_slots (s s1 : session) : Prop :=
  food_order_analysis s1 = food_order_analysis s
  ∧ final_result s1 = final_result s
  ∧ files s1 = files s.

(** The event is no request to the API. *)
Definition no_request (e : event) : Prop :=
  match e with EPost _ => False | _ => True end.

(** * Navigation through the buttons *)

(** [triple i P m Q]: on the interaction [i], from a session of [P], the
    run of [m] ends in a session and a result of [Q]. *)
Definition triple {A} (i : interaction) (P : session → Prop) (m : M A)
    (Q : session → result A → Prop) : Prop :=
  ∀ s, P s → match m i s with (s1, t, r) => Q s1 r end.

(** The session is in [P], a value returned is in [V], an exception raised
    is in [E]. *)
Definition post {A} (P : session → Prop) (V : A → Prop) (E : exn → Prop)
    (s : session) (r : result A) : Prop :=
  P s ∧ match r with Ok a => V a | Raise e => E e end.

(** Any value, and no exception. *)
Definition anything {A} (a : A) : Prop := True.

Definition never (e : exn) : Prop := False.

(** The keys of the buttons that move the cursor. *)
Definition navigation_keys : list string :=
  ["transport_next"; "food_prev"; "food_next"; "energy_prev"; "energy_next";
   "goods_prev"; "goods_next"; "invoice_prev"; "invoice_next"; "results_prev"; "reset"].

(** The key of the Next button of a step. *)
Definition next_button (k : Z) : option string :=
  if k =? 1 then Some "transport_next"
  else if k =? 2 then Some "food_next"
  else if k =? 3 then Some "energy_next"
  else if k =? 4 then Some "goods_next"
  else if k =? 5 then Some "invoice_next"
  else None.

(** The key of the Previous button of a step. *)
Definition prev_button (k : Z) : option string :=
  if k =? 2 then Some "food_prev"
  else if k =? 3 then Some "energy_prev"
  else if k =? 4 then Some "goods_prev"
  else if k =? 5 then Some "invoice_prev"
  else if k =? 6 then Some "results_prev"
  else None.

(** The cursor is at step [n]. *)
Definition at_cursor (n : Z) (s : session) : Prop := current_step s = n.

(** The store holds [v] as the lunch invoice flag. *)
Definition lunch_flag_is (v : option pyval) (s : session) : Prop :=
  lookup2 "food" "has_lunch_invoice" (user_responses s) = v.

(** The session stays at the cursor [n], and the run does not end in a
    rerun. *)
Definition stays (n : Z) (s : session) (r : result ()) : Prop :=
  at_cursor n s ∧ r ≠ Raise RerunException.

(** The session is at the cursor [n'] when the run ends well, and stays at
    [n] when it ends in an exception, which is no rerun. *)
Definition moves (n n' : Z) (s : session) (r : result ()) : Prop :=
  match r with
  | Ok _ => at_cursor n' s
  | Raise e => at_cursor n s ∧ not_rerun e
  end.

(** * Answers are kept *)

(** The store holds an answer to the question [q] of the category [c]. *)
Definition has_answer (c q : string) (s : session) : Prop :=
  is_Some (lookup2 c q (user_responses s)).

(** The session still holds the answer, and the run did not end in a
    rerun. *)
Definition answer_stays (c q : string) (s : session) (r : result ()) : Prop :=
  has_answer c q s ∧ r ≠ Raise RerunException.

(** * A stored answer that is no number *)

(** [st.button], whatever its key. *)
Definition is_button (e : event) : bool :=
  match e with EButton _ _ => true | _ => false end.

(** The page has a button. *)
Definition shows_button (t : list event) : bool := existsb is_button t.

(** * Further worked examples *)

(** An interaction in which the user set [v] on the widget [key]. *)
Definition pick (key : string) (v : pyval) (h : http_outcome) : interaction :=
  {| widget_state := {[ key := v ]}; clicked := None; uploaded := None; http := h |}.

(** A store whose distance is a text that is no number. *)
Definition far_away : store :=
  {[ "transportation" := {[ "distance_km" := PStr "far" ]} ]}.

(** The body [{"choices": [{"message": {"role": "assistant"}, "text": "Low footprint"}]}]. *)
Definition roles_only_body : string :=
  "{" +:+ dq +:+ "choices" +:+ dq +:+ ": [{" +:+ dq +:+ "message" +:+ dq +:+ ": {"
  +:+ dq +:+ "role" +:+ dq +:+ ": " +:+ dq +:+ "assistant" +:+ dq +:+ "}, "
  +:+ dq +:+ "text" +:+ dq +:+ ": " +:+ dq +:+ "Low footprint" +:+ dq +:+ "}]}".

Definition roles_only_json : list (string * pyval) :=
  [("choices",
    PList [PDict [("message", PDict [("role", PStr "assistant")]);
                  ("text", PStr "Low footprint")]])].

(** A 200 response with that body. *)
Definition roles_only : http_outcome :=
  HttpReturns {| status_code := 200;
                 response_text := roles_only_body;
                 response_json := Some (PDict roles_only_json) |}.

(** * Lemmas and theorems *)

(** ** The answer store *)

Lemma lookup_response_lookup2 c q d u :
  lookup_response c q d u = default d (lookup2 c q u).
Proof.
  unfold lookup_response, lookup2. destruct (u !! c) as [a|]; simpl; [|done].
  by destruct (a !! q).
Qed.

Lemma insert_response_insert c q v u :
  insert_response c q v u = <[c := <[q := v]> (default ∅ (u !! c))]> u.
Proof.
  unfold insert_response, insert_category.
  apply map_eq. intros k.
  destruct (u !! c) as [a|] eqn:E; simpl; rewrite lookup_alter;
    destruct (decide (c = k)) as [->|].
  - by rewrite lookup_insert_eq, E.
  - by rewrite lookup_insert_ne.
  - by rewrite !lookup_insert_eq.
  - by rewrite !lookup_insert_ne.
Qed.

Lemma lookup2_insert_response c q c' q' v u :
  lookup2 c q (insert_response c' q' v u)
  = if same_key c q c' q' then Some v else lookup2 c q u.
Proof.
  rewrite insert_response_insert. unfold lookup2, same_key.
  destruct (String.eqb_spec c c') as [->|Hc]; simpl.
  - rewrite lookup_insert_eq. simpl.
    destruct (String.eqb_spec q q') as [->|Hq].
    + by rewrite lookup_insert_eq.
    + rewrite lookup_insert_ne by done. by destruct (u !! c').
  - by rewrite lookup_insert_ne.
Qed.

Lemma lookup2_insert_category c q c' u :
  lookup2 c q (insert_category c' u) = lookup2 c q u.
Proof.
  unfold insert_category, lookup2. destruct (u !! c') eqn:E; [done|].
  destruct (decide (c' = c)) as [->|].
  - by rewrite lookup_insert_eq, E.
  - by rewrite lookup_insert_ne.
Qed.

Lemma insert_response_id c q v u :
  lookup2 c q u = Some v → insert_response c q v u = u.
Proof.
  intros Hl. rewrite insert_response_insert. unfold lookup2 in Hl.
  destruct (u !! c) as [a|] eqn:E; simpl in *; [|done].
  rewrite (insert_id a) by done. by apply insert_id.
Qed.

Lemma insert_category_id c u : has_category c u = true → insert_category c u = u.
Proof. unfold has_category, insert_category. by destruct (u !! c). Qed.

Lemma has_category_insert_category c c' u :
  has_category c (insert_category c' u) = String.eqb c c' || has_category c u.
Proof.
  unfold has_category, insert_category.
  destruct (String.eqb_spec c c') as [->|Hc]; simpl.
  - destruct (u !! c') eqn:E; [by rewrite E|by rewrite lookup_insert_eq].
  - destruct (u !! c') eqn:E; [done|]. by rewrite lookup_insert_ne.
Qed.

Lemma has_category_insert_response c c' q v u :
  has_category c (insert_response c' q v u) = String.eqb c c' || has_category c u.
Proof.
  rewrite insert_response_insert. unfold has_category.
  destruct (String.eqb_spec c c') as [->|Hc]; simpl.
  - by rewrite lookup_insert_eq.
  - by rewrite lookup_insert_ne.
Qed.

Lemma lookup_response_insert_response c q d c' q' v u :
  lookup_response c q d (insert_response c' q' v u)
  = if same_key c q c' q' then v else lookup_response c q d u.
Proof.
  rewrite !lookup_response_lookup2, lookup2_insert_response.
  by destruct (same_key c q c' q').
Qed.

Lemma lookup_response_insert_category c q d c' u :
  lookup_response c q d (insert_category c' u) = lookup_response c q d u.
Proof. by rewrite !lookup_response_lookup2, lookup2_insert_category. Qed.

Lemma lookup_response_written c q d ws u :
  lookup_response c q d (written ws u)
  = match last_answer c q ws with
    | Some v => v
    | None => lookup_response c q d u
    end.
Proof.
  induction ws as [|[c'|c' q' v] rest IH]; simpl; [done| |].
  - by rewrite lookup_response_insert_category.
  - rewrite lookup_response_insert_response. by destruct (same_key c q c' q').
Qed.

Lemma lookup2_written c q ws u v :
  last_answer c q ws = Some v → lookup2 c q (written ws u) = Some v.
Proof.
  induction ws as [|[c'|c' q' w] rest IH]; simpl; [done| |].
  - rewrite lookup2_insert_category. apply IH.
  - rewrite lookup2_insert_response. by destruct (same_key c q c' q').
Qed.

Lemma has_category_written c ws u :
  category_written c ws = true → has_category c (written ws u) = true.
Proof.
  induction ws as [|[c'|c' q' w] rest IH]; simpl; [done| |].
  - rewrite has_category_insert_category. intros [->|?]%orb_prop; [done|].
    rewrite IH by done. apply orb_true_r.
  - rewrite has_category_insert_response. intros [->|?]%orb_prop; [done|].
    rewrite IH by done. apply orb_true_r.
Qed.

(** ** Questions *)

Section QuestionsFacts.

Context `{!Runtime}.

Lemma py_index_raises options v e :
  py_index options v = Raise e → is_ValueError e = true.
Proof.
  destruct v; simpl; try (intros [= <-]; done).
  destruct (index_of s options); [done|]. by intros [= <-].
Qed.

Ltac run_question :=
  intros;
  cbv [select_question select_slider_question check_question slider_question
       number_question float_question text_question multi_question
       get_response index_or selectbox select_slider checkbox slider number_input
       number_input_float text_area multiselect store_response widget_value
       try_except mbind M_bind bind mret M_ret ret get lift modify emit ask raise
       held_select held_select_slider held_check held_slider held_number held_float
       held_text held_multi fallback_index answered list_item];
  repeat match goal with
         | |- context [match ?x with _ => _ end] =>
             match x with
             | context [match _ with _ => _ end] => fail 1
             | _ => destruct x eqn:?; simpl; try done
             end
         end;
  try match goal with
      | H : py_index _ _ = Raise ?e, H' : is_ValueError ?e = false |- _ =>
          apply py_index_raises in H; congruence
      end;
  try reflexivity.

Lemma select_question_run c q d options fb label key i s :
  select_question c q d options fb label key i s
  = answered c q PStr key label (λ x, x)
      (held_select options fb (lookup_response c q d (user_responses s))
         (widget_state i !! key)) s.
Proof. run_question. Qed.

Lemma select_slider_question_run c q d options fb label key i s :
  select_slider_question c q d options fb label key i s
  = answered c q PStr key label (λ x, x)
      (held_select_slider options fb (lookup_response c q d (user_responses s))
         (widget_state i !! key)) s.
Proof. run_question. Qed.

Lemma check_question_run c q d label key i s :
  check_question c q d label key i s
  = answered c q PBool key label (λ x, x)
      (held_check (lookup_response c q d (user_responses s)) (widget_state i !! key)) s.
Proof. run_question. Qed.

Lemma slider_question_run c q d lo hi label key i s :
  slider_question c q d lo hi label key i s
  = answered c q PInt key label (λ _, tt)
      (held_slider lo hi (lookup_response c q d (user_responses s))
         (widget_state i !! key)) s.
Proof. run_question. Qed.

Lemma number_question_run c q d lo step label key i s :
  number_question c q d lo step label key i s
  = answered c q PInt key label (λ _, tt)
      (held_number lo step (lookup_response c q d (user_responses s))
         (widget_state i !! key)) s.
Proof. run_question. Qed.

Lemma float_question_run c q d lo step label key i s :
  float_question c q d lo step label key i s
  = answered c q PFloat key label (λ _, tt)
      (held_float lo (lookup_response c q d (user_responses s))
         (widget_state i !! key)) s.
Proof. run_question. Qed.

Lemma text_question_run c q d label key i s :
  text_question c q d label key i s
  = answered c q (λ x, x) key label (λ _, tt)
      (held_text (lookup_response c q d (user_responses s)) (widget_state i !! key)) s.
Proof. run_question. Qed.

Lemma multi_question_run c q d options label key i s :
  multi_question c q d options label key i s
  = answered c q py_strs key label (λ x, x)
      (held_multi options (lookup_response c q d (user_responses s))
         (widget_state i !! key)) s.
Proof. run_question. Qed.

End QuestionsFacts.

(** ** Running a script symbolically *)

Lemma wp_bind {A B} (m : M A) (f : A → M B) i s t0 Q :
  wp m i s t0 (λ s1 t1 r,
    match r with
    | Ok a => wp (f a) i s1 t1 Q
    | Raise e => Q s1 t1 (Raise e)
    end) →
  wp (m ≫= f) i s t0 Q.
Proof.
  unfold wp. cbv [mbind M_bind bind].
  destruct (m i s) as [[s1 t1] [a|e]]; [|done].
  destruct (f a i s1) as [[s2 t2] r]. by rewrite app_assoc.
Qed.

Lemma wp_ret {A} (a : A) i s t0 Q : Q s t0 (Ok a) → wp (mret a) i s t0 Q.
Proof. unfold wp. cbv [mret M_ret ret]. by rewrite app_nil_r. Qed.

Lemma wp_raise {A} e i s t0 (Q : session → list event → result A → Prop) :
  Q s t0 (Raise e) → wp (raise e) i s t0 Q.
Proof. unfold wp, raise. by rewrite app_nil_r. Qed.

Lemma wp_emit e i s t0 Q : Q s (t0 ++ [e]) (Ok tt) → wp (emit e) i s t0 Q.
Proof. done. Qed.

Lemma wp_modify f i s t0 Q : Q (f s) t0 (Ok tt) → wp (modify f) i s t0 Q.
Proof. unfold wp, modify. by rewrite app_nil_r. Qed.

Lemma wp_get i s t0 Q : Q s t0 (Ok s) → wp get i s t0 Q.
Proof. unfold wp, get. by rewrite app_nil_r. Qed.

Lemma wp_button label key i s t0 Q :
  Q s (t0 ++ [EButton key label]) (Ok (bool_decide (clicked i = Some key))) →
  wp (button label key) i s t0 Q.
Proof. done. Qed.

Lemma wp_if_true {A} (b : bool) (m1 m2 : M A) i s t0 Q :
  b = true → wp m1 i s t0 Q → wp (if b then m1 else m2) i s t0 Q.
Proof. by intros ->. Qed.

Lemma wp_if_false {A} (b : bool) (m1 m2 : M A) i s t0 Q :
  b = false → wp m2 i s t0 Q → wp (if b then m1 else m2) i s t0 Q.
Proof. by intros ->. Qed.


Lemma wp_answered {X A} (m : M A) c q (inj : X → pyval) key label g p i s t0
    (Q : session → list event → result A → Prop) :
  m i s = answered c q inj key label g p s →
  match p with
  | Ok x => Q (set_user_responses (insert_response c q (inj x) (user_responses s)) s)
              (t0 ++ [EAsk key label (inj x)]) (Ok (g x))
  | Raise e => Q s t0 (Raise e)
  end →
  wp m i s t0 Q.
Proof.
  unfold wp. intros ->. destruct p; simpl; [done|]. by rewrite app_nil_r.
Qed.

Lemma set_user_responses_same s : set_user_responses (user_responses s) s = s.
Proof. by destruct s. Qed.

Lemma no_input_widget h (key : string) : widget_state (no_input h) !! key = None.
Proof. done. Qed.

Lemma not_clicked (i : interaction) (key : string) :
  clicked i = None → bool_decide (clicked i = Some key) = false.
Proof. intros ->. done. Qed.

Ltac head_of t :=
  lazymatch t with
  | ?f _ => head_of f
  | _ => t
  end.

(** The stored answer a question reads, found among the answers written. *)
Lemma read_written {X} (F : pyval → option pyval → result X) c q d v ws p h key
    n u a r f :
  last_answer c q ws = Some v →
  F v None = p →
  F (lookup_response c q d (user_responses (Session n (written ws u) a r f)))
    (widget_state (no_input h) !! key) = p.
Proof.
  intros Hl <-. rewrite no_input_widget. cbn [user_responses].
  by rewrite lookup_response_written, Hl.
Qed.

Lemma read_unwritten {X} (F : pyval → option pyval → result X) c q d ws p h key
    n u a r f :
  last_answer c q ws = None →
  F (lookup_response c q d u) None = p →
  F (lookup_response c q d (user_responses (Session n (written ws u) a r f)))
    (widget_state (no_input h) !! key) = p.
Proof.
  intros Hl <-. rewrite no_input_widget. cbn [user_responses].
  by rewrite lookup_response_written, Hl.
Qed.

Ltac find_answer :=
  lazy beta iota delta [last_answer same_key String.eqb Ascii.eqb Bool.eqb andb];
  reflexivity.

Ltac read_answers :=
  lazy beta;
  first [ eapply read_written; [find_answer|]
        | eapply read_unwritten; [find_answer|] ].

Section StableFacts.

Context `{!Runtime}.

(** *** A widget that holds what was stored shows it again *)

Lemma index_of_lookup s options i :
  index_of s options = Some i → options !! i = Some s.
Proof.
  revert i. induction options as [|o rest IH]; intros i; simpl; [done|].
  destruct (String.eqb_spec o s) as [->|].
  - by intros [= <-].
  - destruct (index_of s rest) as [j|]; simpl; [|done].
    intros [= <-]. by apply IH.
Qed.

Lemma index_of_member s options i :
  options !! i = Some s → is_Some (index_of s options).
Proof.
  revert i. induction options as [|o rest IH]; intros i; simpl; [done|].
  destruct (String.eqb_spec o s) as [->|]; [by eexists|].
  destruct i as [|i]; simpl; [by intros [= ->]|].
  intros Hi. destruct (IH _ Hi) as [j ->]. by eexists.
Qed.

Lemma fallback_index_PStr options fb' p i :
  options !! i = Some p →
  options !! fallback_index options (PStr p) fb' = Some p.
Proof.
  intros Hi. unfold fallback_index. simpl.
  destruct (index_of_member _ _ _ Hi) as [j Hj]. rewrite Hj.
  by apply index_of_lookup.
Qed.

Lemma held_select_stable options fb v x :
  held_select options fb v None = Ok x →
  held_select options fb (PStr x) None = Ok x.
Proof.
  unfold held_select.
  destruct (options !! fallback_index options v fb) as [p|] eqn:E; [|done].
  simpl. intros [= <-]. by rewrite (fallback_index_PStr _ fb _ _ E).
Qed.

Lemma fallback_index_lt options fb v :
  (fb <? length options)%nat = true →
  (fallback_index options v fb < length options)%nat.
Proof.
  intros Hfb%Nat.ltb_lt. unfold fallback_index, py_index.
  destruct v; try done.
  destruct (index_of s options) as [i|] eqn:E; [|done].
  apply index_of_lookup in E. by eapply lookup_lt_Some.
Qed.

Lemma held_select_total options fb v u :
  (fb <? length options)%nat = true →
  held_select options fb v u = Ok (chosen options (prefilled options fb v) u).
Proof.
  intros Hfb. unfold held_select, prefilled.
  destruct (lookup_lt_is_Some_2 options _ (fallback_index_lt _ _ v Hfb)) as [p ->].
  done.
Qed.

Lemma held_select_again options fb v :
  (fb <? length options)%nat = true →
  held_select options fb (PStr (prefilled options fb v)) None
  = Ok (prefilled options fb v).
Proof.
  intros Hfb. apply held_select_stable with v.
  by rewrite held_select_total.
Qed.

Lemma held_select_slider_stable options fb v x :
  held_select_slider options fb v None = Ok x →
  held_select_slider options fb (PStr x) None = Ok x.
Proof.
  unfold held_select_slider.
  destruct (options !! fallback_index options v fb) as [p|] eqn:E; [|done].
  destruct (str_in p options) eqn:E'; [|done].
  simpl. intros [= <-]. by rewrite (fallback_index_PStr _ fb _ _ E), E'.
Qed.

Lemma held_slider_stable lo hi v x :
  held_slider lo hi v None = Ok x → held_slider lo hi (PInt x) None = Ok x.
Proof.
  unfold held_slider. destruct (py_int v) as [z|]; [|done].
  destruct (negb _) eqn:E; [done|].
  simpl. intros [= <-]. by rewrite E.
Qed.

Lemma held_number_stable lo step v x :
  held_number lo step v None = Ok x → held_number lo step (PInt x) None = Ok x.
Proof.
  unfold held_number. destruct (py_int v) as [z|]; [|done].
  destruct (z <? lo) eqn:E; [done|].
  destruct (negb _) eqn:E'; [done|].
  simpl. intros [= <-]. by rewrite E, E'.
Qed.

Lemma held_float_stable lo v x :
  held_float lo v None = Ok x → held_float lo (PFloat x) None = Ok x.
Proof.
  unfold held_float. destruct (py_float v) as [f|]; [|done].
  destruct (PrimFloat.ltb f lo) eqn:E; [done|].
  destruct (PrimFloat.is_infinity f) eqn:E'; [done|].
  simpl. intros [= <-]. by rewrite E, E'.
Qed.

Lemma text_value_twice v : text_value (text_value v) = text_value v.
Proof. by destruct v. Qed.

Lemma selection_stable options l sel :
  selection options l = Some sel → selection options (PStr <$> sel) = Some sel.
Proof.
  revert sel. induction l as [|v l IH]; intros sel; simpl.
  - by intros [= <-].
  - destruct v; try done.
    destruct (str_in s options) eqn:E; [|done].
    destruct (selection options l) as [sel'|]; simpl; [|done].
    intros [= <-]. simpl. rewrite E.
    change (list_fmap string pyval PStr sel') with (PStr <$> sel').
    by rewrite (IH sel' eq_refl).
Qed.

Lemma held_multi_stable options v x :
  held_multi options v None = Ok x → held_multi options (py_strs x) None = Ok x.
Proof.
  unfold held_multi.
  destruct (selection options _) as [sel|] eqn:E; [|done].
  intros [= <-]. simpl. by rewrite (selection_stable _ _ _ E).
Qed.

End StableFacts.

(** ** Rendering twice *)

Lemma asks_nothing_shows_stored u0 s t :
  Forall asks_nothing t → Forall (shows_stored u0 s) t.
Proof. intros Ht. eapply Forall_impl; [exact Ht|]. by intros []. Qed.

Lemma keeps_shown_written u ws n a r d :
  Forall (faithful u) ws → keeps_shown u (Session n (written ws u) a r d).
Proof.
  intros Hws c q v Hl Hall. simpl.
  induction Hws as [|w ws Hw _ IH]; simpl; [done|].
  destruct w as [c'|c' q' y]; [by rewrite lookup2_insert_category|].
  rewrite lookup2_insert_response. unfold same_key.
  destruct (String.eqb_spec c c') as [->|]; simpl; [|done].
  destruct (String.eqb_spec q q') as [->|]; [|done].
  f_equal. by apply Hw.
Qed.

Lemma keeps_shown_refl s : keeps_shown (user_responses s) s.
Proof. by intros c q v Hl _. Qed.

Lemma twice_fixed {A B} D u0 (m : M A) (f : A → M B) h s tm a :
  (∀ s, m (no_input h) s = (s, tm, Ok a)) →
  Forall asks_nothing tm →
  twice D u0 (f a) h s →
  twice D u0 (m ≫= f) h s.
Proof.
  unfold twice. cbv [mbind M_bind bind]. intros Hm Htm. rewrite Hm.
  destruct (f a (no_input h) s) as [[s1 t1] r1]. intros [[HD Ht] H2].
  split; [split; [done|]|].
  { apply Forall_app. split; [by apply asks_nothing_shows_stored|done]. }
  rewrite Hm. destruct (f a (no_input h) s1) as [[s2 t2] r2].
  destruct H2 as (-> & -> & ->). done.
Qed.

Lemma twice_ret {A} (D : session → Prop) u0 (a : A) h s : D s → twice D u0 (mret a) h s.
Proof. unfold twice. cbv [mret M_ret ret]. intros HD. by repeat split. Qed.

Lemma twice_last {A} D u0 (m : M A) h s : twice D u0 (m ≫= mret) h s → twice D u0 m h s.
Proof.
  unfold twice. cbv [mbind M_bind bind mret M_ret ret].
  destruct (m (no_input h) s) as [[s1 t1] [a|e]].
  - rewrite app_nil_r. intros [HD H2]. split; [done|].
    destruct (m (no_input h) s1) as [[s2 t2] [a2|e2]]; [|done].
    by rewrite app_nil_r in H2.
  - intros [HD H2]. split; [done|].
    destruct (m (no_input h) s1) as [[s2 t2] [a2|e2]]; [|done].
    by rewrite app_nil_r in H2.
Qed.

Lemma twice_assoc {A B C} D u0 (m : M A) (g : A → M B) (f : B → M C) h s :
  twice D u0 (m ≫= λ a, g a ≫= f) h s → twice D u0 ((m ≫= g) ≫= f) h s.
Proof.
  assert (∀ i s, ((m ≫= g) ≫= f) i s = (m ≫= λ a, g a ≫= f) i s) as Heq.
  { intros i s'. cbv [mbind M_bind bind].
    destruct (m i s') as [[s1 t1] [a|e]]; [|done].
    destruct (g a i s1) as [[s2 t2] [b|e]]; [|done].
    destruct (f b i s2) as [[s3 t3] r]. by rewrite app_assoc. }
  unfold twice. rewrite Heq.
  destruct ((m ≫= λ a, g a ≫= f) (no_input h) s) as [[s1 t1] r1].
  by rewrite Heq.
Qed.

Lemma twice_init_category {B} (D : session → Prop) u0 c (f : () → M B) h n ws u a r d :
  twice (λ s1, D s1 ∧ has_category c (user_responses s1) = true) u0 (f tt) h
    (Session n (written (WCategory c :: ws) u) a r d) →
  twice D u0 (init_category c ≫= f) h (Session n (written ws u) a r d).
Proof.
  unfold twice. cbv [mbind M_bind bind init_category modify]. simpl.
  destruct (f tt (no_input h) _) as [[s1 t1] r1]. intros [[[HD Hc] Ht] H2].
  split; [done|].
  rewrite (insert_category_id _ _ Hc), set_user_responses_same.
  destruct (f tt (no_input h) s1) as [[s2 t2] r2].
  destruct H2 as (-> & -> & ->). done.
Qed.

Lemma lookup_response_of_lookup2 c q d u v :
  lookup2 c q u = Some v → lookup_response c q d u = v.
Proof. intros Hl. by rewrite lookup_response_lookup2, Hl. Qed.

Lemma twice_question {X A B} (D : session → Prop) (m pat : M A) (f : A → M B)
    c q (inj : X → pyval) key label g
    (held : interaction → session → result X) p h n ws u a r d :
  (∀ i s, pat i s = answered c q inj key label g (held i s) s) →
  m = pat →
  question_of key = Some (c, q) →
  held (no_input h) (Session n (written ws u) a r d) = p →
  (∀ x v, p = Ok x → lookup2 c q u = Some v → can_show key v = true → inj x = v) →
  (∀ x, p = Ok x → faithful u (WAnswer c q (inj x)) →
     (∀ s', lookup2 c q (user_responses s') = Some (inj x) →
            held (no_input h) s' = Ok x) ∧
     twice (λ s1, D s1 ∧ lookup2 c q (user_responses s1) = Some (inj x)) u (f (g x)) h
       (Session n (written (WAnswer c q (inj x) :: ws) u) a r d)) →
  (∀ e, p = Raise e → D (Session n (written ws u) a r d)) →
  twice D u (m ≫= f) h (Session n (written ws u) a r d).
Proof.
  intros Hpat -> Hkey Hp Hfill Hok Hfail. unfold twice. cbv [mbind M_bind bind].
  rewrite Hpat, Hp. destruct p as [x|e]; simpl.
  - assert (faithful u (WAnswer c q (inj x))) as Hfaith.
    { intros v Hl Hall. apply (Hfill x v eq_refl Hl). by apply Hall. }
    destruct (Hok x eq_refl Hfaith) as [Hst Hf]. unfold twice in Hf.
    destruct (f (g x) (no_input h) _) as [[s1 t1] r1].
    destruct Hf as [[[HD Hl] Ht] H2]. split; [split; [done|]|].
    { constructor; [|done]. exists c, q. repeat split; [done..|].
      intros v. by apply Hfill. }
    rewrite Hpat, (Hst _ Hl). simpl.
    rewrite (insert_response_id _ _ _ _ Hl), set_user_responses_same.
    destruct (f (g x) (no_input h) s1) as [[s2 t2] r2].
    destruct H2 as (-> & -> & ->). done.
  - split; [split; [by apply (Hfail e)|done]|]. by rewrite Hpat, Hp.
Qed.

Lemma redisplays_twice {A} (m : M A) h :
  (∀ s, twice (λ s1, current_step s1 = current_step s
                     ∧ keeps_shown (user_responses s) s1) (user_responses s) m h s) →
  ∀ s, redisplays m h s.
Proof.
  intros Htw s. specialize (Htw s). unfold twice in Htw. unfold redisplays.
  destruct (m (no_input h) s) as [[s1 t1] r1]. destruct Htw as [[Hn Ht] H2].
  split; [done|]. split; [done|].
  destruct (m (no_input h) s1) as [[s2 t2] r2].
  destruct H2 as (-> & -> & ->). done.
Qed.

Lemma button_no_input label key h s :
  button label key (no_input h) s = (s, [EButton key label], Ok false).
Proof. done. Qed.

Lemma prefill_from {X} (P : pyval → result X) (inj : X → pyval) c q d u key :
  (∀ v x, can_show key v = true → P v = Ok x → inj x = v) →
  ∀ x v, P (lookup_response c q d u) = Ok x → lookup2 c q u = Some v →
         can_show key v = true → inj x = v.
Proof.
  intros HP x v Hp Hl Hok. rewrite (lookup_response_of_lookup2 _ _ _ _ _ Hl) in Hp.
  by apply HP.
Qed.

Lemma str_in_index_of x options :
  str_in x options = true → is_Some (index_of x options).
Proof.
  unfold str_in. induction options as [|o rest IH]; simpl; [done|].
  destruct (String.eqb_spec o x) as [->|Hne]; [by eexists|].
  destruct (String.eqb_spec x o) as [->|_]; [done|]. simpl.
  intros [i ->]%IH. by eexists.
Qed.

Lemma prefilled_option options fb x :
  str_in x options = true → prefilled options fb (PStr x) = x.
Proof.
  intros [i Hi]%str_in_index_of. unfold prefilled, fallback_index, py_index.
  rewrite Hi. by rewrite (index_of_lookup _ _ _ Hi).
Qed.

Lemma held_select_slider_shown options fb x y :
  str_in x options = true → held_select_slider options fb (PStr x) None = Ok y → y = x.
Proof.
  intros Hx. destruct (str_in_index_of _ _ Hx) as [i Hi].
  unfold held_select_slider, fallback_index, py_index.
  rewrite Hi, (index_of_lookup _ _ _ Hi), Hx. simpl. by intros [= <-].
Qed.

Lemma selection_shown options l sel :
  selection options l = Some sel → PStr <$> sel = l.
Proof.
  revert sel. induction l as [|v l IH]; intros sel; simpl.
  - by intros [= <-].
  - destruct v; try done.
    destruct (str_in s options); [|done].
    destruct (selection options l) as [sel'|]; simpl; [|done].
    intros [= <-]. simpl. f_equal. by apply IH.
Qed.

Lemma held_multi_shown options l x :
  held_multi options (PList l) None = Ok x → py_strs x = PList l.
Proof.
  unfold held_multi, py_strs. destruct (selection options l) as [sel|] eqn:E; [|done].
  intros [= <-]. by rewrite (selection_shown _ _ _ E).
Qed.

Lemma js_safe_between lo hi z :
  js_safe lo = true → js_safe hi = true → js_safe z = true →
  js_safe (Z.min z (Z.min lo hi)) && js_safe (Z.max z hi) = true.
Proof. unfold js_safe. intros. apply andb_true_iff. lia. Qed.

Section TwiceFacts.

Context `{!Runtime}.

Lemma held_number_shown lo step z x :
  js_safe lo = true → js_safe step = true → (lo <=? z) && js_safe z = true →
  held_number lo step (PInt z) None = Ok x → x = z.
Proof.
  intros Hlo Hstep [Hz Hs]%andb_true_iff. unfold held_number. simpl.
  destruct (Z.ltb_spec z lo); [lia|]. rewrite Hlo, Hstep, Hs. simpl. by intros [= <-].
Qed.

Lemma held_float_shown lo f x :
  negb (PrimFloat.ltb f lo) && negb (PrimFloat.is_infinity f) = true →
  held_float lo (PFloat f) None = Ok x → x = f.
Proof.
  intros [Hlo Hinf]%andb_true_iff. unfold held_float. simpl.
  apply negb_true_iff in Hlo. apply negb_true_iff in Hinf. rewrite Hlo, Hinf.
  simpl. by intros [= <-].
Qed.

Lemma held_slider_shown lo hi z x :
  js_safe lo = true → js_safe hi = true → js_safe z = true →
  held_slider lo hi (PInt z) None = Ok x → x = z.
Proof.
  intros Hlo Hhi Hz. unfold held_slider. simpl.
  rewrite (js_safe_between lo hi z Hlo Hhi Hz). simpl. by intros [= <-].
Qed.

Ltac with_question m tac :=
  let h := head_of m in
  let body := eval cbv delta [h] in m in
  lazymatch body with
  | context [selectbox] => tac uconstr:(select_question_run _ _ _ _ _ _ _)
  | context [radio] => tac uconstr:(select_question_run _ _ _ _ _ _ _)
  | context [select_slider] => tac uconstr:(select_slider_question_run _ _ _ _ _ _ _)
  | context [checkbox] => tac uconstr:(check_question_run _ _ _ _ _)
  | context [slider] => tac uconstr:(slider_question_run _ _ _ _ _ _ _)
  | context [number_input_float] => tac uconstr:(float_question_run _ _ _ _ _ _ _)
  | context [number_input] => tac uconstr:(number_question_run _ _ _ _ _ _ _)
  | context [text_area] => tac uconstr:(text_question_run _ _ _ _ _)
  | context [text_input] => tac uconstr:(text_question_run _ _ _ _ _)
  | context [multiselect] => tac uconstr:(multi_question_run _ _ _ _ _ _)
  end.

(** What the widget of a question holds: for a check box, a text area
    and a select box it is known without a case analysis. *)
Ltac held_first :=
  lazymatch goal with
  | |- held_select _ _ _ _ = _ =>
      rewrite held_select_total by (vm_compute; reflexivity);
      lazy beta iota delta [chosen]; reflexivity
  | |- held_check _ _ = _ => lazy beta iota delta [held_check]; reflexivity
  | |- held_text _ _ = _ => lazy beta iota delta [held_text entered_text]; reflexivity
  | |- _ => reflexivity
  end.

Ltac held_again :=
  lazymatch goal with
  | |- held_select _ _ _ _ = _ => apply held_select_again; vm_compute; reflexivity
  | |- held_check _ _ = _ => reflexivity
  | |- held_text _ _ = _ =>
      lazy beta iota delta [held_text entered_text]; by rewrite text_value_twice
  | |- _ =>
      first [ eassumption
            | eapply held_select_slider_stable; eassumption
            | eapply held_slider_stable; eassumption
            | eapply held_number_stable; eassumption
            | eapply held_float_stable; eassumption
            | eapply held_multi_stable; eassumption ]
  end.

Ltac stored_again :=
  let s' := fresh "s'" in
  let Hl := fresh "Hl" in
  intros s' Hl; lazy beta;
  rewrite (lookup_response_of_lookup2 _ _ _ _ _ Hl), no_input_widget;
  held_again.

Ltac expected :=
  repeat lazymatch goal with
         | |- _ ∧ _ => split
         | |- True => exact I
         | |- current_step _ = current_step _ => reflexivity
         | |- keeps_shown _ _ =>
             apply keeps_shown_written;
             repeat (constructor;
                     [lazymatch goal with
                      | |- faithful _ (WCategory _) => exact I
                      | |- faithful _ (WAnswer _ _ _) => assumption
                      end|]);
             constructor
         | |- lookup2 _ _ _ = Some _ =>
             lazy beta iota delta [user_responses];
             apply lookup2_written; find_answer
         | |- has_category _ _ = true =>
             lazy beta iota delta [user_responses];
             apply has_category_written; vm_compute; reflexivity
         end.

(** A stored answer the widget accepts is the one shown. *)
Ltac shown_as_stored :=
  let v := fresh "v" in
  let x := fresh "x" in
  let Hok := fresh "Hok" in
  let Hp := fresh "Hp" in
  intros v x Hok Hp; lazy beta in Hp;
  cbv [can_show assoc widgets String.eqb Ascii.eqb Bool.eqb] in Hok;
  destruct v; try discriminate Hok; cbn [accepts] in Hok;
  first
    [ injection Hp as <-; cbn [chosen]; by rewrite (prefilled_option _ _ _ Hok)
    | by rewrite (held_select_slider_shown _ _ _ _ Hok Hp)
    | exact (held_multi_shown _ _ _ Hp)
    | apply held_number_shown in Hp; [by subst|reflexivity|reflexivity|exact Hok]
    | by rewrite (held_float_shown _ _ _ Hok Hp)
    | apply held_slider_shown in Hp; [by subst|reflexivity|reflexivity|exact Hok]
    | by injection Hp as <- ].

Ltac prefilled_as_stored :=
  lazymatch goal with
  | |- ∀ x v, ?p = Ok x → lookup2 ?c ?q ?u = Some v → can_show ?key v = true → _ =>
      lazymatch p with
      | context [lookup_response c q ?d u] =>
          let P := eval pattern (lookup_response c q d u) in p in
          lazymatch P with
          | ?F _ => apply (prefill_from F _ c q d u key)
          end
      end
  end;
  shown_as_stored.

Ltac twice_step :=
  lazymatch goal with
  | |- twice _ _ (mbind _ (mbind _ _)) _ _ => apply twice_assoc
  | |- twice _ _ (mbind _ (mret _)) _ _ =>
      eapply twice_fixed; [intros; reflexivity|by repeat constructor|]
  | |- twice _ _ (mbind _ (header _)) _ _ =>
      eapply twice_fixed; [intros; reflexivity|by repeat constructor|]
  | |- twice _ _ (mbind _ (subheader _)) _ _ =>
      eapply twice_fixed; [intros; reflexivity|by repeat constructor|]
  | |- twice _ _ (mbind _ (info _)) _ _ =>
      eapply twice_fixed; [intros; reflexivity|by repeat constructor|]
  | |- twice _ _ (mbind _ (button _ _)) _ _ =>
      eapply twice_fixed; [intros; apply button_no_input|by repeat constructor|]
  | |- twice _ _ (mbind _ (for_each _ _)) _ _ => lazy beta iota delta [for_each]
  | |- twice _ _ (mbind _ (init_category _)) _ _ => apply twice_init_category
  | |- twice _ _ (mbind _ (if ?b then _ else _)) _ _ => destruct b eqn:?
  | |- twice _ _ (mbind ?f ?m) _ _ =>
      with_question m ltac:(fun run =>
        eapply (twice_question _ _ _ _ _ _ _ _ _ _ _ _ _ _ _ _ _ _ _ run);
        [ reflexivity
        | vm_compute; reflexivity
        | read_answers; held_first
        | prefilled_as_stored
        | let x := fresh "x" in
          let Hx := fresh "Hx" in
          let Hkept := fresh "Hkept" in
          intros x Hx Hkept;
          try (injection Hx as <-);
          split; [stored_again|]
        | let e := fresh "e" in
          let He := fresh "He" in
          intros e He; try discriminate He ])
  | |- twice _ _ (mret _) _ _ => apply twice_ret; expected
  | |- twice _ _ _ _ _ => apply twice_last
  | |- _ => expected
  end; lazy beta iota.

Tactic Notation "redisplay" reference(step) :=
  apply redisplays_twice; intros [n u a r d]; cbn [user_responses];
  change (Session n u a r d) with (Session n (written [] u) a r d);
  unfold step; repeat twice_step.





End TwiceFacts.

(** ** The API boundary *)

Section AnalysisFacts.

Context `{!Runtime}.

Lemma lookup_errors_bind {A B} (r : result A) (f : A → result B) :
  lookup_errors r → (∀ a, lookup_errors (f a)) → lookup_errors (r ≫= f).
Proof. destruct r; simpl; auto. Qed.

Lemma lookup_errors_ret {A} (a : A) : lookup_errors (mret a).
Proof. done. Qed.

Lemma py_contains_errors k obj : lookup_errors (py_contains k obj).
Proof. by destruct obj. Qed.

Lemma py_len_errors obj : lookup_errors (py_len obj).
Proof. by destruct obj. Qed.

Lemma py_getitem_errors obj k : lookup_errors (py_getitem obj k).
Proof. destruct obj; simpl; try done. by destruct (pydict_get k d). Qed.

Lemma py_getitem0_errors obj : lookup_errors (py_getitem0 obj).
Proof. destruct obj; simpl; try done; [by destruct s|by destruct l]. Qed.

Lemma extract_content_errors j : lookup_errors (extract_content j).
Proof.
  unfold extract_content.
  repeat first
    [ apply lookup_errors_bind; [|intros ?]
    | apply lookup_errors_ret
    | apply py_contains_errors
    | apply py_len_errors
    | apply py_getitem_errors
    | apply py_getitem0_errors
    | match goal with |- lookup_errors (if ?b then _ else _) => destruct b end ].
Qed.

Lemma lookup_error_caught e :
  lookup_error e = true → is_Exception e = true ∧ is_JSONDecodeError e = false.
Proof. by destruct e. Qed.

Lemma pure_lift {A} (r : result A) : pure_as (lift r) r.
Proof. done. Qed.

Lemma pure_ret {A} (a : A) : pure_as (mret a) (mret a).
Proof. done. Qed.

Lemma pure_bind {A B} (m : M A) (f : A → M B) r g :
  pure_as m r → (∀ a, pure_as (f a) (g a)) → pure_as (m ≫= f) (r ≫= g).
Proof.
  intros Hm Hf i s. cbv [mbind M_bind bind]. rewrite Hm.
  destruct r as [a|e]; simpl; [|done]. by rewrite Hf.
Qed.

Lemma pure_if {A} (b : bool) (m1 m2 : M A) r1 r2 :
  pure_as m1 r1 → pure_as m2 r2 →
  pure_as (if b then m1 else m2) (if b then r1 else r2).
Proof. by destruct b. Qed.

Lemma read_response_run resp j i s :
  response_json resp = Some j →
  read_response resp i s = (s, [], extract_content j).
Proof.
  intros Hj.
  assert (pure_as (read_response resp) (extract_content j)) as Hp; [|apply Hp].
  unfold read_response, json_of. rewrite Hj.
  apply (pure_bind _ _ (Ok j) extract_content); [apply pure_ret|].
  intros response_json. unfold extract_content.
  repeat first
    [ apply pure_bind; [|intros ?]
    | apply pure_if
    | apply pure_lift
    | apply pure_ret ].
Qed.

Lemma analyze_run r i s : analyze r i s = (s, [EPost r], Ok (analysis (http i))).
Proof.
  unfold analyze, analysis, try_except, requests_post.
  cbv [mbind M_bind bind ask emit raise mret M_ret ret].
  destruct (http i) as [msg|resp]; simpl; [done|].
  destruct (status_code resp =? 200); simpl; [|done].
  destruct (response_json resp) as [j|] eqn:Hj.
  - rewrite (read_response_run _ _ _ _ Hj).
    pose proof (extract_content_errors j) as He.
    destruct (extract_content j) as [v|e]; simpl; [done|].
    destruct (lookup_error_caught _ He) as [He1 He2]. rewrite He2, He1. done.
  - unfold read_response, json_of. rewrite Hj.
    cbv [mbind M_bind bind raise]. simpl. done.
Qed.

Lemma analyze_with_gemma_run u i s :
  analyze_with_gemma u i s = (s, [EPost (FullAnalysis u)], Ok (analysis (http i))).
Proof. apply (analyze_run (FullAnalysis u)). Qed.

Lemma analyze_food_invoice_run image_data i s :
  analyze_food_invoice image_data i s
  = (s, [EPost (InvoiceAnalysis image_data)], Ok (analysis (http i))).
Proof. apply (analyze_run (InvoiceAnalysis image_data)). Qed.

End AnalysisFacts.

(** ** What a run leaves alone *)

Section SatFacts.

Context (R : session → session → Prop) `{!PreOrder R}.

Context (T : event → Prop) (E : exn → Prop).

Lemma sat_ret {A} (a : A) : sat R T E (mret a).
Proof. intros i s. cbv [mret M_ret ret]. by repeat split. Qed.

Lemma sat_bind {A B} (m : M A) (f : A → M B) :
  sat R T E m → (∀ a, sat R T E (f a)) → sat R T E (m ≫= f).
Proof.
  intros Hm Hf i s. cbv [mbind M_bind bind]. specialize (Hm i s).
  destruct (m i s) as [[s1 t1] [a|e]]; [|done].
  specialize (Hf a i s1). destruct (f a i s1) as [[s2 t2] r].
  destruct Hm as (HR1 & HT1 & _), Hf as (HR2 & HT2 & HE).
  split; [by etrans|]. split; [by apply Forall_app|done].
Qed.

Lemma sat_raise {A} e : E e → sat R T E (raise e : M A).
Proof. intros He i s. by repeat split. Qed.

Lemma sat_lift {A} (r : result A) :
  match r with Raise e => E e | Ok _ => True end → sat R T E (lift r).
Proof. intros Hr i s. by repeat split. Qed.

Lemma sat_ask : sat R T E ask.
Proof. intros i s. by repeat split. Qed.

Lemma sat_get : sat R T E get.
Proof. intros i s. by repeat split. Qed.

Lemma sat_emit e : T e → sat R T E (emit e).
Proof. intros He i s. split; [done|]. split; [by constructor|done]. Qed.

Lemma sat_modify f : (∀ s, R s (f s)) → sat R T E (modify f).
Proof. intros Hf i s. by repeat split. Qed.

Lemma sat_if {A} (b : bool) (m1 m2 : M A) :
  sat R T E m1 → sat R T E m2 → sat R T E (if b then m1 else m2).
Proof. by destruct b. Qed.

Lemma sat_try_except {A} (body : M A) catches handler :
  sat R T E body → (∀ e, sat R T E (handler e)) →
  sat R T E (try_except body catches handler).
Proof.
  intros Hb Hh i s. unfold try_except. specialize (Hb i s).
  destruct (body i s) as [[s1 t1] [a|e]]; [done|].
  destruct (catches e); [|done].
  specialize (Hh e i s1). destruct (handler e i s1) as [[s2 t2] r].
  destruct Hb as (HR1 & HT1 & _), Hh as (HR2 & HT2 & HE).
  split; [by etrans|]. split; [by apply Forall_app|done].
Qed.

Lemma sat_for_each {A} (xs : list A) (body : A → M ()) :
  (∀ x, sat R T E (body x)) → sat R T E (for_each xs body).
Proof.
  intros Hb. induction xs as [|x xs IH]; simpl; [apply sat_ret|].
  apply sat_bind; [apply Hb|]. by intros _.
Qed.

End SatFacts.

(** The exceptions of the conversions a question makes. *)
Section ConversionsFacts.

Context `{!Runtime}.

Lemma py_int_raises v :
  match py_int v with Raise e => is_Exception e = true | Ok _ => True end.
Proof.
  destruct v; simpl; try done.
  - unfold float_trunc. by destruct (Prim2SF f).
  - by destruct (str_to_int s).
Qed.

Lemma py_float_raises v :
  match py_float v with Raise e => is_Exception e = true | Ok _ => True end.
Proof.
  destruct v; simpl; try done.
  - unfold float_of_Z. by destruct (is_infinity _).
  - by destruct (str_to_float s).
Qed.

Lemma py_index_raises' options v :
  match py_index options v with Raise e => is_Exception e = true | Ok _ => True end.
Proof. destruct v; simpl; try done. by destruct (index_of s options). Qed.

Lemma list_item_raises options i :
  match list_item options i with Raise e => is_Exception e = true | Ok _ => True end.
Proof. unfold list_item. by destruct (options !! i). Qed.

End ConversionsFacts.

(** The frame of a script built from the primitives, found by following
    its structure. *)
Ltac sat_step :=
  lazymatch goal with
  | |- sat _ _ _ (mbind _ _) => eapply sat_bind
  | |- sat _ _ _ (mret _) => apply sat_ret
  | |- sat _ _ _ (raise _) => apply sat_raise
  | |- sat _ _ _ (lift _) => eapply sat_lift
  | |- match py_int _ with _ => _ end => apply py_int_raises
  | |- match py_float _ with _ => _ end => apply py_float_raises
  | |- match py_index _ _ with _ => _ end => apply py_index_raises'
  | |- match list_item _ _ with _ => _ end => apply list_item_raises
  | |- sat _ _ _ ask => apply sat_ask
  | |- sat _ _ _ get => apply sat_get
  | |- sat _ _ _ (emit _) => apply sat_emit
  | |- sat _ _ _ (modify _) => eapply sat_modify
  | |- sat _ _ _ (try_except _ _ _) => eapply sat_try_except
  | |- sat _ _ _ (for_each _ _) => eapply sat_for_each
  | |- sat _ _ _ (if _ then _ else _) => apply sat_if
  | |- sat _ _ _ (match ?x with _ => _ end) => destruct x
  | |- sat _ _ _ (let _ := _ in _) => lazy zeta
  | |- PreOrder _ => tc_solve
  | |- ∀ _, _ => intros ?
  end; lazy beta.

Section FramesFacts.

Context `{!Runtime}.

Lemma sat_analyze R `{!Reflexive R} (T : event → Prop) E r :
  T (EPost r) → sat R T E (analyze r).
Proof.
  intros HT i s. rewrite analyze_run. split; [done|]. split; [|done].
  by constructor.
Qed.

Lemma sat_analyze_with_gemma R `{!Reflexive R} (T : event → Prop) E u :
  T (EPost (FullAnalysis u)) → sat R T E (analyze_with_gemma u).
Proof. apply (sat_analyze R T E (FullAnalysis u)). Qed.

Lemma sat_analyze_food_invoice R `{!Reflexive R} (T : event → Prop) E image_data :
  T (EPost (InvoiceAnalysis image_data)) → sat R T E (analyze_food_invoice image_data).
Proof. apply (sat_analyze R T E (InvoiceAnalysis image_data)). Qed.

End FramesFacts.

Ltac unfold_widgets :=
  cbv delta [get_response store_response init_category index_or selectbox radio select_slider
    checkbox number_input number_input_float slider text_area text_input multiselect button
    file_uploader widget_value header subheader info warning success error markdown image title
    next_step prev_step write_file read_file encode_image start_over recalculate] beta.

Ltac unfold_questions :=
  cbv delta [ask_primary_mode ask_fuel_type ask_distance ask_duration ask_passengers
    ask_diet_type ask_had_breakfast ask_breakfast_description ask_breakfast_dairy
    ask_breakfast_meat ask_had_lunch ask_lunch_source ask_has_lunch_invoice
    ask_lunch_description ask_lunch_meat ask_had_dinner ask_dinner_source
    ask_has_dinner_invoice ask_dinner_description ask_dinner_meat ask_snacks ask_food_waste
    ask_home_type ask_household_size ask_electricity_sources ask_electricity_provider
    ask_ac_hours ask_heating_hours ask_shower_minutes ask_did_laundry ask_laundry_loads
    ask_laundry_temperature ask_used_dishwasher ask_purchased_items ask_items_new_or_used
    ask_item_packaging ask_ordered_online ask_delivery_option ask_recycling ask_does_compost
    ask_plastic_usage] beta.

Ltac sat_atom :=
  lazymatch goal with
  | |- sat _ _ _ (analyze_with_gemma _) => eapply sat_analyze_with_gemma
  | |- sat _ _ _ (analyze_food_invoice _) => eapply sat_analyze_food_invoice
  | |- Reflexive _ => tc_solve
  | _ => sat_step
  end.

Ltac frame := unfold_questions; unfold_widgets; repeat sat_atom.

(** ** Where the cursor can go *)

#[export] Instance keeps_preorder P : PreOrder (keeps P).
Proof. split; [by intros s Hs|]. intros s1 s2 s3 H1 H2 H. by apply H2, H1. Qed.

Lemma ends_bind {A B} (P Q : session → Prop) (m : M A) (f : A → M B) :
  (∀ s, P s → Q s) →
  sat (keeps P) any_event any_exn m → (∀ a, ends P Q (f a)) → ends P Q (m ≫= f).
Proof.
  intros HPQ Hm Hf i s HP. cbv [mbind M_bind bind]. specialize (Hm i s).
  destruct (m i s) as [[s1 t1] [a|e]].
  - specialize (Hf a i s1). destruct (f a i s1) as [[s2 t2] r]. simpl in *.
    apply Hf, Hm, HP.
  - simpl. apply HPQ, Hm, HP.
Qed.

Lemma ends_sat {A} (P : session → Prop) (m : M A) :
  sat (keeps P) any_event any_exn m → ends P P m.
Proof.
  intros Hm i s HP. specialize (Hm i s). destruct (m i s) as [[s1 t1] r].
  simpl. by apply Hm.
Qed.

Lemma within_weaken lo hi hi' s : hi ≤ hi' → within lo hi s → within lo hi' s.
Proof. unfold within. lia. Qed.

Lemma ends_next_step (b : bool) hi :
  ends (within 1 hi) (within 1 (hi + 1)) (if b then next_step else mret tt).
Proof. intros i s. destruct b; unfold within; simpl; lia. Qed.

Lemma sat_prev_step hi T E : sat (keeps (within 1 hi)) T E prev_step.
Proof.
  intros i s. unfold prev_step. cbv [mbind M_bind bind get modify mret M_ret ret].
  destruct (1 <? current_step s) eqn:Hlt; simpl.
  - split; [|done]. unfold keeps, within. simpl. lia.
  - split; [by intros ?|by split].
Qed.

(** The calls of a step, but for [prev_step], which [sat_prev_step] covers. *)
Ltac unfold_calls :=
  cbv delta [get_response store_response init_category index_or selectbox radio select_slider
    checkbox number_input number_input_float slider text_area text_input multiselect button
    file_uploader widget_value header subheader info warning success error markdown image title
    write_file read_file encode_image start_over recalculate] beta.

Ltac cursor_kept :=
  lazymatch goal with
  | |- sat _ _ _ (if _ then prev_step else mret tt) => apply sat_if; [apply sat_prev_step|apply sat_ret]
  | |- keeps _ _ _ => by intros ?
  | |- any_event _ => exact I
  | |- any_exn _ => exact I
  | |- match ?r with Raise _ => any_exn _ | Ok _ => True end => by destruct r
  | _ => sat_atom
  end.

Ltac ends_step :=
  lazymatch goal with
  | |- ends _ _ (if _ then next_step else mret tt) => apply (ends_next_step _ 5)
  | |- ends _ _ (mbind _ _) =>
      eapply ends_bind;
        [intros ?; apply within_weaken; lia
        |unfold_questions; unfold_calls; repeat cursor_kept
        |intros ?]
  end.

Section CursorFacts.

Context `{!Runtime}.

Lemma step1_cursor : ends (within 1 5) (within 1 6) step1.
Proof. unfold step1. repeat ends_step. Qed.

Lemma step2_cursor : ends (within 1 5) (within 1 6) step2.
Proof. unfold step2. repeat ends_step. Qed.

Lemma step3_cursor : ends (within 1 5) (within 1 6) step3.
Proof. unfold step3. repeat ends_step. Qed.

Lemma step4_cursor : ends (within 1 5) (within 1 6) step4.
Proof. unfold step4. repeat ends_step. Qed.

Lemma step5_cursor : ends (within 1 5) (within 1 6) step5.
Proof. unfold step5. repeat ends_step. Qed.

Lemma step6_cursor : ends (within 1 6) (within 1 6) step6.
Proof.
  apply ends_sat. unfold step6.
  unfold_questions; unfold_calls; repeat cursor_kept.
Qed.

Lemma script_run i s :
  script i s
  = match step_at (current_step s) i s with
    | (s1, t, r) => (s1, banner ++ t, r)
    end.
Proof.
  unfold script, step_at, title, markdown.
  cbv [mbind M_bind bind emit get]. lazy beta iota.
  by destruct (_ i s) as [[s1 t] r].
Qed.

Lemma step_at_cursor k : 1 ≤ k ≤ 6 → ends (λ s, current_step s = k) (within 1 6) (step_at k).
Proof.
  intros Hk i s Hs.
  assert (k = 1 ∨ k = 2 ∨ k = 3 ∨ k = 4 ∨ k = 5 ∨ k = 6) as Hcase by lia.
  destruct Hcase as [->|[->|[->|[->|[->| ->]]]]]; simpl.
  - apply step1_cursor. unfold within. lia.
  - apply step2_cursor. unfold within. lia.
  - apply step3_cursor. unfold within. lia.
  - apply step4_cursor. unfold within. lia.
  - apply step5_cursor. unfold within. lia.
  - apply step6_cursor. unfold within. lia.
Qed.

Lemma script_cursor : ends (within 1 6) (within 1 6) script.
Proof.
  intros i s Hs. rewrite script_run.
  pose proof (step_at_cursor (current_step s) Hs i s eq_refl) as Hstep.
  by destruct (step_at _ i s) as [[s1 t] r].
Qed.

Lemma run_cursor i s : within 1 6 s → within 1 6 (run i s).1.1.
Proof.
  intros Hs. unfold run. pose proof (script_cursor i s Hs) as H1.
  destruct (script i s) as [[s1 t1] [a|e]]; [done|].
  destruct e; try done.
  pose proof (script_cursor (no_input (http i)) s1 H1) as H2.
  by destruct (script _ s1) as [[s2 t2] r].
Qed.

(** What every run keeps holds after any series of them. *)
Lemma runs_invariant (P : session → Prop) :
  (∀ i s, P s → P (run i s).1.1) →
  ∀ interactions s, P s → P (runs interactions s).1.
Proof.
  intros Hrun interactions. induction interactions as [|i rest IH]; intros s Hs; [done|].
  simpl. specialize (Hrun i s Hs). destruct (run i s) as [[s1 t1] r].
  specialize (IH s1 Hrun). by destruct (runs rest s1) as [s2 t2].
Qed.

End CursorFacts.

(** ** Running a step on any interaction *)

Lemma full_requests_app t1 t2 :
  full_requests (t1 ++ t2) = full_requests t1 ++ full_requests t2.
Proof.
  induction t1 as [|e t1 IH]; [done|].
  destruct e as [| | | | | | | | | | | |[]]; simpl; by rewrite ?IH.
Qed.

Lemma wp_elim {A} (m : M A) i s (Q : session → list event → result A → Prop) :
  wp m i s [] Q → match m i s with (s1, t, r) => Q s1 t r end.
Proof. unfold wp. by destruct (m i s) as [[s1 t] r]. Qed.

Lemma wp_get_response c q d i s t0 (Q : session → list event → result pyval → Prop) :
  Q s t0 (Ok (lookup_response c q d (user_responses s))) →
  wp (get_response c q d) i s t0 Q.
Proof. unfold wp, get_response. cbv [mbind M_bind bind get mret M_ret ret]. simpl. by rewrite app_nil_r. Qed.

Lemma wp_file_uploader label types key i s t0
    (Q : session → list event → result (option uploaded_file) → Prop) :
  Q s (t0 ++ [EUploader key types]) (Ok (uploaded i)) →
  wp (file_uploader label types key) i s t0 Q.
Proof. done. Qed.

Lemma wp_try_except {A} (body : M A) (catches : exn → bool) handler i s t0 Q :
  wp body i s t0 (λ s1 t1 r,
    match r with
    | Ok a => Q s1 t1 (Ok a)
    | Raise e =>
        if catches e then wp (handler e) i s1 t1 Q else Q s1 t1 (Raise e)
    end) →
  wp (try_except body catches handler) i s t0 Q.
Proof.
  unfold wp, try_except. destruct (body i s) as [[s1 t1] [a|e]]; [done|].
  destruct (catches e); [|done].
  destruct (handler e i s1) as [[s2 t2] r]. by rewrite app_assoc.
Qed.

Lemma clicked_true (i : interaction) (key : string) :
  clicked i = Some key → bool_decide (clicked i = Some key) = true.
Proof. intros Hc. by apply bool_decide_eq_true. Qed.

Lemma clicked_false (i : interaction) (key : string) :
  clicked i ≠ Some key → bool_decide (clicked i = Some key) = false.
Proof. intros Hc. by apply bool_decide_eq_false. Qed.

Lemma clicked_other (i : interaction) (key key' : string) :
  clicked i = Some key' → String.eqb key' key = false →
  bool_decide (clicked i = Some key) = false.
Proof.
  intros Hc Hk. apply bool_decide_eq_false. rewrite Hc. intros [= ->].
  by rewrite String.eqb_refl in Hk.
Qed.

Section RunFacts.

Context `{!Runtime}.

Lemma wp_analyze_with_gemma u i s t0 (Q : session → list event → result pyval → Prop) :
  Q s (t0 ++ [EPost (FullAnalysis u)]) (Ok (analysis (http i))) →
  wp (analyze_with_gemma u) i s t0 Q.
Proof. unfold wp. by rewrite analyze_with_gemma_run. Qed.

Lemma wp_analyze_food_invoice image_data i s t0
    (Q : session → list event → result pyval → Prop) :
  Q s (t0 ++ [EPost (InvoiceAnalysis image_data)]) (Ok (analysis (http i))) →
  wp (analyze_food_invoice image_data) i s t0 Q.
Proof. unfold wp. by rewrite analyze_food_invoice_run. Qed.

Lemma image_run path i s :
  image path i s
  = match files s !! path with
    | Some data =>
        if decodes_image data then (s, [EImage path], Ok tt)
        else (s, [], Raise (OSError "cannot identify image file"))
    | None => (s, [EImage path], Ok tt)
    end.
Proof.
  unfold image. cbv [mbind M_bind bind get mret M_ret ret raise emit].
  destruct (files s !! path) as [data|]; [|done]. by destruct (decodes_image data).
Qed.

Lemma wp_image path data i s t0 (Q : session → list event → result () → Prop) :
  files s !! path = Some data →
  (if decodes_image data
   then Q s (t0 ++ [EImage path]) (Ok tt)
   else Q s t0 (Raise (OSError "cannot identify image file"))) →
  wp (image path) i s t0 Q.
Proof.
  intros Hf HQ. unfold wp. rewrite image_run, Hf.
  destruct (decodes_image data); [done|]. by rewrite app_nil_r.
Qed.

End RunFacts.

Lemma encode_image_run path i s :
  encode_image path i s
  = match files s !! path with
    | Some data => (s, [], Ok (Some (b64encode data)))
    | None => (s, [EError "Error encoding image: No such file or directory"], Ok None)
    end.
Proof.
  unfold encode_image, try_except, read_file.
  cbv [mbind M_bind bind get mret M_ret ret raise].
  by destruct (files s !! path).
Qed.

Lemma wp_encode_image path data i s t0
    (Q : session → list event → result (option string) → Prop) :
  files s !! path = Some data →
  Q s t0 (Ok (Some (b64encode data))) →
  wp (encode_image path) i s t0 Q.
Proof. intros Hf HQ. unfold wp. by rewrite encode_image_run, Hf, app_nil_r. Qed.

(** The state a run has reached, with the fields of the session read off. *)
Ltac read_session :=
  cbn [current_step user_responses food_order_analysis final_result files
       set_current_step set_user_responses set_food_order_analysis set_final_result
       set_files new_session is_None].

Ltac button_pressed :=
  lazymatch goal with
  | |- wp (if bool_decide (clicked ?i = Some ?k) then _ else _) _ _ _ _ =>
      first
        [ apply wp_if_true; [apply clicked_true; assumption|]
        | apply wp_if_false;
            [first [ apply clicked_false; assumption
                   | eapply clicked_other; [eassumption|reflexivity]
                   | apply not_clicked; first [assumption|reflexivity] ]|]
        | destruct (bool_decide (clicked i = Some k)) eqn:? ]
  end.

Ltac known_condition b :=
  match goal with
  | H : b = true |- _ => apply wp_if_true; [exact H|]
  | H : b = false |- _ => apply wp_if_false; [exact H|]
  end.

Ltac known_option o :=
  match goal with
  | H : o = Some _ |- _ => rewrite H
  | H : o = None |- _ => rewrite H
  end.

(** A condition that computes. *)
Ltac computed_condition b :=
  let v := eval vm_compute in b in
  lazymatch v with
  | true => apply wp_if_true; [vm_compute; reflexivity|]
  | false => apply wp_if_false; [vm_compute; reflexivity|]
  end.

Ltac wp_run :=
  lazymatch goal with
  | |- wp (mbind _ _) _ _ _ _ => apply wp_bind
  | |- wp (mret _) _ _ _ _ => apply wp_ret
  | |- wp (raise _) _ _ _ _ => apply wp_raise
  | |- wp (emit _) _ _ _ _ => apply wp_emit
  | |- wp (title _) _ _ _ _ => apply wp_emit
  | |- wp (header _) _ _ _ _ => apply wp_emit
  | |- wp (subheader _) _ _ _ _ => apply wp_emit
  | |- wp (markdown _) _ _ _ _ => apply wp_emit
  | |- wp (info _) _ _ _ _ => apply wp_emit
  | |- wp (warning _) _ _ _ _ => apply wp_emit
  | |- wp (success _) _ _ _ _ => apply wp_emit
  | |- wp (error _) _ _ _ _ => apply wp_emit
  | |- wp (image _) _ _ _ _ =>
      eapply wp_image; [read_session; apply lookup_insert_eq|]
  | |- if decodes_image ?data then _ else _ =>
      first [ match goal with
              | H : decodes_image data = _ |- _ => rewrite H
              end
            | destruct (decodes_image data) eqn:? ]
  | |- wp get _ _ _ _ => apply wp_get
  | |- wp (modify _) _ _ _ _ => apply wp_modify
  | |- wp (store_response _ _ _) _ _ _ _ => apply wp_modify
  | |- wp (init_category _) _ _ _ _ => apply wp_modify
  | |- wp (write_file _ _) _ _ _ _ => apply wp_modify
  | |- wp next_step _ _ _ _ => apply wp_modify
  | |- wp recalculate _ _ _ _ => apply wp_modify
  | |- wp prev_step _ _ _ _ => unfold prev_step
  | |- wp start_over _ _ _ _ => unfold start_over
  | |- wp (get_response _ _ _) _ _ _ _ => apply wp_get_response
  | |- wp (button _ _) _ _ _ _ => apply wp_button
  | |- wp (file_uploader _ _ _) _ _ _ _ => apply wp_file_uploader
  | |- wp (try_except _ _ _) _ _ _ _ => apply wp_try_except
  | |- wp (analyze_with_gemma _) _ _ _ _ => apply wp_analyze_with_gemma
  | |- wp (analyze_food_invoice _) _ _ _ _ => apply wp_analyze_food_invoice
  | |- wp (encode_image _) _ _ _ _ =>
      eapply wp_encode_image; [read_session; apply lookup_insert_eq|]
  | |- wp (if bool_decide _ then _ else _) _ _ _ _ => button_pressed
  | |- wp (if ?b then _ else _) _ _ _ _ =>
      first [known_condition b | computed_condition b | destruct b eqn:?]
  | |- wp (match uploaded (no_input ?h) with Some _ => _ | None => _ end) _ _ _ _ =>
      change (uploaded (no_input h)) with (@None uploaded_file)
  | |- wp (match ?o with Some _ => _ | None => _ end) _ _ _ _ =>
      first [known_option o | destruct o eqn:?]
  end; lazy beta iota; read_session.

(** * Navigation *)

Section NavigationFacts.

Context `{!Runtime}.

Lemma prev_step_run i s :
  prev_step i s
  = (if 1 <? current_step s then set_current_step (current_step s - 1) s else s, [], Ok tt).
Proof.
  unfold prev_step. cbv [mbind M_bind bind get modify mret M_ret ret].
  by destruct (1 <? current_step s).
Qed.

Lemma navigate_from_1 n i s :
  1 ≤ current_step s → 1 ≤ current_step (navigate n i s).1.1.
Proof.
  intros Hs. destruct n; simpl.
  - lia.
  - rewrite prev_step_run. simpl. destruct (1 <? current_step s) eqn:Hlt; simpl; lia.
Qed.

Lemma navigated_cons n calls i s :
  navigated (n :: calls) i s = navigated calls i (navigate n i s).1.1.
Proof.
  unfold navigated. simpl. cbv [mbind M_bind bind].
  assert ((navigate n i s).2 = Ok tt) as Hok.
  { destruct n; [done|]. simpl. by rewrite prev_step_run. }
  destruct (navigate n i s) as [[s1 t1] r]. simpl in *. subst r.
  by destruct (for_each calls navigate i s1) as [[s2 t2] r2].
Qed.

Lemma navigated_from_1 calls i s :
  1 ≤ current_step s → 1 ≤ current_step (navigated calls i s).
Proof.
  revert s. induction calls as [|n calls IH]; intros s Hs; [done|].
  rewrite navigated_cons. by apply IH, navigate_from_1.
Qed.

(** C3.  From the initial state, after any series of retreats and advances,
    in any order, the cursor is at least 1; a retreat takes one off a cursor
    above 1 and changes nothing else, and leaves the session as it is when
    the cursor is 1. *)
Theorem retreat_never_below_1 :
  (∀ calls disk i, 1 ≤ current_step (navigated calls i (new_session disk)))
  ∧ (∀ i s, 1 < current_step s →
       prev_step i s = (set_current_step (current_step s - 1) s, [], Ok tt))
  ∧ (∀ i s, current_step s = 1 → prev_step i s = (s, [], Ok tt)).
Proof.
  split; [|split].
  - intros calls disk i. by apply navigated_from_1.
  - intros i s Hs. rewrite prev_step_run.
    by destruct (Z.ltb_spec 1 (current_step s)); [|lia].
  - intros i s Hs. rewrite prev_step_run, Hs. done.
Qed.

(** C4, as amended.  Over any series of interactions with a new session the
    cursor stays within 1 and 6, although [next_step] adds one to it
    whatever it is: no run calls it at step 6. *)
Theorem cursor_within_1_and_6 :
  (∀ interactions disk,
     1 ≤ current_step (runs interactions (new_session disk)).1 ≤ 6)
  ∧ (∀ i s, current_step (next_step i s).1.1 = current_step s + 1).
Proof.
  split; [|done].
  intros interactions disk.
  apply (runs_invariant (within 1 6)); [apply run_cursor|done].
Qed.

End NavigationFacts.

(** * Questions with a list of options *)

Lemma index_of_None s options : str_in s options = false → index_of s options = None.
Proof.
  unfold str_in. induction options as [|o rest IH]; simpl; [done|].
  rewrite String.eqb_sym. destruct (String.eqb o s); simpl; [done|].
  intros Hs. by rewrite (IH Hs).
Qed.

Lemma fallback_index_fallback options v fb :
  is_option v options = false → fallback_index options v fb = fb.
Proof.
  unfold fallback_index, py_index, is_option. destruct v; try done.
  intros Hs. by rewrite (index_of_None _ _ Hs).
Qed.

Section EnumeratedFacts.

Context `{!Runtime}.

(** A stored answer that is not among the options is replaced by the
    fallback option, which is shown and returned. *)
Lemma ask_enumerated_fallback e i s :
  is_option (stored_answer e (user_responses s)) (enum_options (enumeration_of e)) = false →
  widget_state i !! enum_key (enumeration_of e) = None →
  ask_enumerated e i s
  = (set_user_responses
       (insert_response (enum_category (enumeration_of e)) (enum_question (enumeration_of e))
          (PStr (fallback_option e)) (user_responses s)) s,
     [EAsk (enum_key (enumeration_of e)) (enum_label (enumeration_of e))
        (PStr (fallback_option e))],
     Ok (fallback_option e)).
Proof.
  unfold stored_answer.
  destruct e; cbn [enumeration_of enum_category enum_question enum_stock enum_options
                   enum_fallback enum_label enum_key ask_enumerated]; intros Hv Hw;
    (etrans;
     [first [ apply (select_question_run _ _ _ _ _ _ _ i s)
            | apply (select_slider_question_run _ _ _ _ _ _ _ i s) ]|]);
    rewrite Hw; unfold held_select, held_select_slider;
    rewrite (fallback_index_fallback _ _ _ Hv); reflexivity.
Qed.

(** C5, as amended.  A question with a list of options whose stored answer
    is not among them does not fail: it shows, returns and stores its
    fallback option.  That is the first option for every such question but
    the packaging question, whose fallback is its second option, Standard
    packaging. *)
Theorem stale_answer_falls_back e i s :
  is_option (stored_answer e (user_responses s)) (enum_options (enumeration_of e)) = false →
  widget_state i !! enum_key (enumeration_of e) = None →
  ask_enumerated e i s
  = (set_user_responses
       (insert_response (enum_category (enumeration_of e)) (enum_question (enumeration_of e))
          (PStr (fallback_option e)) (user_responses s)) s,
     [EAsk (enum_key (enumeration_of e)) (enum_label (enumeration_of e))
        (PStr (fallback_option e))],
     Ok (fallback_option e))
  ∧ enum_options (enumeration_of e) !! (if e is Packaging then 1 else 0)%nat
    = Some (fallback_option e).
Proof.
  intros Hv Hw. split; [by apply ask_enumerated_fallback|]. by destruct e.
Qed.

End EnumeratedFacts.

(** * The invoice step *)

Ltac shown := simpl; repeat first [left; reflexivity | right].

Section InvoiceFacts.

Context `{!Runtime}.

Lemma step5_upload i s :
  current_step s = 5 →
  match script i s with
  | (s1, t, r) =>
      offers_upload t = flagged (user_responses s)
      ∧ says_nothing_to_upload t = negb (flagged (user_responses s))
  end.
Proof.
  destruct s as [n u a r d]. simpl. intros ->.
  apply wp_elim. unfold script, step5, flagged, invoice_flag.
  repeat wp_run.
  all: split; reflexivity.
Qed.

Lemma step5_rejects i s file :
  current_step s = 5 →
  flagged (user_responses s) = true →
  uploaded i = Some file →
  startswith "image" (file_type file) = false →
  match script i s with
  | (s1, t, r) =>
      In (EUploader "invoice_upload" ["jpg"; "jpeg"; "png"; "pdf"]) t
      ∧ In (EError rejection) t
      ∧ requests t = []
      ∧ food_order_analysis s1 = food_order_analysis s
      ∧ user_responses s1 = user_responses s
      ∧ files s1 = files s
  end.
Proof.
  destruct s as [n u a r d]. simpl. intros -> Hf Hu Hty.
  unfold flagged, invoice_flag in Hf.
  apply wp_elim. unfold script, step5.
  repeat wp_run.
  all: repeat split; try reflexivity; shown.
Qed.

(** C6.  The page of step 5 has the uploader exactly when the store holds
    a true lunch or dinner invoice flag under food, and the notice that
    there is nothing to upload exactly when it holds neither; with the
    lunch flag alone set, the uploader is there and the notice is not. *)
Theorem upload_offered_iff_flagged :
  (∀ i s, current_step s = 5 →
     match script i s with
     | (s1, t, r) =>
         offers_upload t = flagged (user_responses s)
         ∧ says_nothing_to_upload t = negb (flagged (user_responses s))
     end)
  ∧ (∀ i s, current_step s = 5 →
       user_responses s = {[ "food" := {[ "has_lunch_invoice" := PBool true ]} ]} →
       match script i s with
       | (s1, t, r) => offers_upload t = true ∧ says_nothing_to_upload t = false
       end).
Proof.
  split; [apply step5_upload|].
  intros i s Hn Hu. pose proof (step5_upload i s Hn) as Hs.
  destruct (script i s) as [[s1 t] r]. by rewrite Hu in Hs.
Qed.

(** C10.  The uploader of step 5 lists pdf among its types, but a file
    whose type does not start with image is answered with an error
    message: no request is sent, and the invoice analysis, the answers and
    the files are left as they were. *)
Theorem pdf_upload_is_rejected i s file :
  current_step s = 5 →
  flagged (user_responses s) = true →
  uploaded i = Some file →
  startswith "image" (file_type file) = false →
  match script i s with
  | (s1, t, r) =>
      In (EUploader "invoice_upload" ["jpg"; "jpeg"; "png"; "pdf"]) t
      ∧ In (EError rejection) t
      ∧ requests t = []
      ∧ food_order_analysis s1 = food_order_analysis s
      ∧ user_responses s1 = user_responses s
      ∧ files s1 = files s
  end.
Proof. apply step5_rejects. Qed.

End InvoiceFacts.

(** * The two cached analyses *)

#[export] Instance keeps_result_preorder : PreOrder keeps_result.
Proof. split; [done|]. intros s1 s2 s3 H1 H2. unfold keeps_result in *. congruence. Qed.

Lemma no_full_requests t : Forall no_full_request t → full_requests t = [].
Proof.
  induction 1 as [|e t He _ IH]; [done|].
  destruct e as [| | | | | | | | | | | |[]]; done.
Qed.

Section CachesFacts.

Context `{!Runtime}.

Lemma is_None_false v : v ≠ PNone → is_None v = false.
Proof. by destruct v. Qed.

(** Step 6 with a result in the slot. *)
Lemma step6_cached i s :
  current_step s = 6 → final_result s ≠ PNone → clicked i ≠ Some "recalculate" →
  match script i s with
  | (s1, t, r) =>
      requests t = []
      ∧ full_requests t = []
      ∧ In (EMarkdown (final_result s)) t
      ∧ (clicked i ≠ Some "reset" → r = Ok tt ∧ final_result s1 = final_result s)
  end.
Proof.
  destruct s as [n u a r d]. simpl. intros -> Hr%is_None_false Hc.
  apply wp_elim. unfold script, step6.
  repeat wp_run.
  all: repeat split; try reflexivity; try shown.
  all: exfalso;
    match goal with
    | H : bool_decide _ = true |- _ => apply bool_decide_eq_true in H; done
    end.
Qed.

(** Step 6 with an empty slot. *)
Lemma step6_computes i s :
  current_step s = 6 → final_result s = PNone →
  match script i s with
  | (s1, t, r) =>
      requests t = [FullAnalysis (user_responses s)]
      ∧ full_requests t = [user_responses s]
      ∧ In (EMarkdown (analysis (http i))) t
      ∧ (clicked i ≠ Some "reset" → r = Ok tt ∧ final_result s1 = analysis (http i))
  end.
Proof.
  destruct s as [n u a r d]. simpl. intros -> ->.
  apply wp_elim. unfold script, step6.
  repeat wp_run.
  all: repeat split; try reflexivity; try shown.
  all: exfalso;
    match goal with
    | H : bool_decide _ = true |- _ => apply bool_decide_eq_true in H; done
    end.
Qed.

(** Step 5 sends the invoice out whenever Analyze is clicked on an image
    the page could show, whatever the slot holds. *)
Lemma step5_analyzes i s file :
  current_step s = 5 →
  flagged (user_responses s) = true →
  uploaded i = Some file →
  startswith "image" (file_type file) = true →
  decodes_image (file_buffer file) = true →
  b64encode (file_buffer file) ≠ EmptyString →
  clicked i = Some "analyze_invoice" →
  match script i s with
  | (s1, t, r) =>
      requests t = [InvoiceAnalysis (b64encode (file_buffer file))]
      ∧ food_order_analysis s1 = analysis (http i)
      ∧ In (EMarkdown (analysis (http i))) t
  end.
Proof.
  destruct s as [n u a r d]. simpl. intros -> Hf Hu Hty Hdec Hne Hc.
  unfold flagged, invoice_flag in Hf.
  assert (negb (String.eqb (b64encode (file_buffer file)) EmptyString) = true) as Hne'.
  { apply negb_true_iff. by apply String.eqb_neq. }
  apply wp_elim. unfold script, step5.
  repeat wp_run.
  all: repeat split; try reflexivity; shown.
Qed.

(** An upload the page cannot show ends the run at [st.image], before the
    Analyze button: nothing is sent, whatever was clicked. *)
Lemma step5_undecodable i s file :
  current_step s = 5 →
  flagged (user_responses s) = true →
  uploaded i = Some file →
  startswith "image" (file_type file) = true →
  decodes_image (file_buffer file) = false →
  match script i s with
  | (s1, t, r) =>
      r = Raise (OSError "cannot identify image file")
      ∧ requests t = []
      ∧ food_order_analysis s1 = food_order_analysis s
  end.
Proof.
  destruct s as [n u a r d]. simpl. intros -> Hf Hu Hty Hdec.
  unfold flagged, invoice_flag in Hf.
  apply wp_elim. unfold script, step5.
  repeat wp_run.
  all: by repeat split.
Qed.

Lemma step5_waits i s :
  current_step s = 5 →
  clicked i ≠ Some "analyze_invoice" →
  match script i s with
  | (s1, t, r) =>
      requests t = [] ∧ food_order_analysis s1 = food_order_analysis s
  end.
Proof.
  destruct s as [n u a r d]. simpl. intros -> Hc.
  apply wp_elim. unfold script, step5.
  repeat wp_run.
  all: by split.
Qed.

Lemma step1_keeps_result : sat keeps_result no_full_request not_rerun step1.
Proof. unfold step1. frame. all: done. Qed.

Lemma step2_keeps_result : sat keeps_result no_full_request not_rerun step2.
Proof. unfold step2. frame. all: done. Qed.

Lemma step3_keeps_result : sat keeps_result no_full_request not_rerun step3.
Proof. unfold step3. frame. all: done. Qed.

Lemma step4_keeps_result : sat keeps_result no_full_request not_rerun step4.
Proof. unfold step4. frame. all: done. Qed.

Lemma step5_keeps_result : sat keeps_result no_full_request not_rerun step5.
Proof. unfold step5. frame. all: done. Qed.

Lemma step_at_keeps_result k :
  k ≠ 6 → sat keeps_result no_full_request not_rerun (step_at k).
Proof.
  intros Hk. unfold step_at.
  repeat lazymatch goal with
  | |- sat _ _ _ (if ?k =? 6 then _ else _) =>
      destruct (Z.eqb_spec k 6); [done|]
  | |- sat _ _ _ (if ?b then _ else _) => destruct b
  end;
  auto using step1_keeps_result, step2_keeps_result, step3_keeps_result,
    step4_keeps_result, step5_keeps_result.
  by intros i s.
Qed.

(** A run that resets nothing spends the budget it uses. *)
Lemma script_budget i s :
  resets_nothing i → analysis (http i) ≠ PNone →
  match script i s with
  | (s1, t, r) =>
      (length (full_requests t) + budget s1 ≤ budget s)%nat
      ∧ r ≠ Raise RerunException
  end.
Proof.
  intros [Hrecalc Hreset] Hv.
  destruct (decide (current_step s = 6)) as [H6|H6].
  - assert (final_result s = PNone ∨ final_result s ≠ PNone) as [Hr|Hr].
    { destruct (final_result s); by (left + right). }
    + pose proof (step6_computes i s H6 Hr) as Hs.
      destruct (script i s) as [[s1 t] r]. destruct Hs as (_ & -> & _ & Hs).
      destruct (Hs Hreset) as [-> Hr1]. split; [|done].
      unfold budget. rewrite Hr1, Hr, (is_None_false _ Hv). done.
    + pose proof (step6_cached i s H6 Hr Hrecalc) as Hs.
      destruct (script i s) as [[s1 t] r]. destruct Hs as (_ & -> & _ & Hs).
      destruct (Hs Hreset) as [-> Hr1]. split; [|done].
      unfold budget. by rewrite Hr1.
  - rewrite script_run.
    pose proof (step_at_keeps_result _ H6 i s) as Hs.
    destruct (step_at _ i s) as [[s1 t] r]. destruct Hs as (Hr & Ht & He).
    split.
    + rewrite (full_requests_app banner), (no_full_requests _ Ht).
      unfold budget. by rewrite Hr.
    + intros ->. done.
Qed.

Lemma run_budget i s :
  resets_nothing i → analysis (http i) ≠ PNone →
  match run i s with
  | (s1, t, r) => (length (full_requests t) + budget s1 ≤ budget s)%nat
  end.
Proof.
  intros Hi Hv. unfold run. pose proof (script_budget i s Hi Hv) as Hs.
  destruct (script i s) as [[s1 t] [x|e]]; [by destruct Hs|].
  destruct Hs as [Hb He]. by destruct e.
Qed.

Lemma runs_budget interactions s :
  Forall (λ i, resets_nothing i ∧ analysis (http i) ≠ PNone) interactions →
  (length (full_requests (runs interactions s).2) + budget (runs interactions s).1
   ≤ budget s)%nat.
Proof.
  intros Hall. revert s. induction Hall as [|i rest [Hi Hv] _ IH]; intros s.
  - simpl. lia.
  - simpl. pose proof (run_budget i s Hi Hv) as Hrun.
    destruct (run i s) as [[s1 t1] r1]. specialize (IH s1).
    destruct (runs rest s1) as [s2 t2]. simpl in *.
    rewrite full_requests_app, length_app. lia.
Qed.

(** C1, as amended.  The slot of the overall result is a cache: step 6
    shows what it holds and sends nothing while it holds a result and
    Recalculate is not clicked; it sends one request, with the answers,
    when the slot is empty, and shows and keeps what comes back.  So over
    any series of interactions that click neither Recalculate nor Start
    Over, and whose analysis is not None, at most one overall analysis is
    asked for, and none when the series starts with a result in the slot.
    The slot of the invoice analysis is no cache: step 5 sends the invoice
    in every run started by a click on Analyze with an uploaded image the
    page can show, whatever the slot holds, and in no other run: not
    without the click, and not for an upload that [st.image] cannot decode,
    which ends the run before the button. *)
Theorem overall_analysis_is_computed_once :
  (∀ i s, current_step s = 6 → final_result s ≠ PNone →
     clicked i ≠ Some "recalculate" →
     match script i s with
     | (s1, t, r) =>
         requests t = []
         ∧ In (EMarkdown (final_result s)) t
         ∧ (clicked i ≠ Some "reset" → final_result s1 = final_result s)
     end)
  ∧ (∀ i s, current_step s = 6 → final_result s = PNone →
       match script i s with
       | (s1, t, r) =>
           requests t = [FullAnalysis (user_responses s)]
           ∧ In (EMarkdown (analysis (http i))) t
           ∧ (clicked i ≠ Some "reset" → final_result s1 = analysis (http i))
       end)
  ∧ (∀ interactions s,
       Forall (λ i, resets_nothing i ∧ analysis (http i) ≠ PNone) interactions →
       (length (full_requests (runs interactions s).2) ≤ 1)%nat
       ∧ (final_result s ≠ PNone → full_requests (runs interactions s).2 = []))
  ∧ (∀ i s file, current_step s = 5 → flagged (user_responses s) = true →
       uploaded i = Some file → startswith "image" (file_type file) = true →
       decodes_image (file_buffer file) = true →
       b64encode (file_buffer file) ≠ EmptyString →
       clicked i = Some "analyze_invoice" →
       match script i s with
       | (s1, t, r) =>
           requests t = [InvoiceAnalysis (b64encode (file_buffer file))]
           ∧ food_order_analysis s1 = analysis (http i)
       end)
  ∧ (∀ i s, current_step s = 5 → clicked i ≠ Some "analyze_invoice" →
       match script i s with
       | (s1, t, r) =>
           requests t = [] ∧ food_order_analysis s1 = food_order_analysis s
       end)
  ∧ (∀ i s file, current_step s = 5 → flagged (user_responses s) = true →
       uploaded i = Some file → startswith "image" (file_type file) = true →
       decodes_image (file_buffer file) = false →
       match script i s with
       | (s1, t, r) =>
           requests t = [] ∧ food_order_analysis s1 = food_order_analysis s
       end).
Proof.
  split; [|split; [|split; [|split; [|split]]]].
  - intros i s H6 Hr Hc. pose proof (step6_cached i s H6 Hr Hc) as Hs.
    destruct (script i s) as [[s1 t] r]. destruct Hs as (? & _ & ? & Hs).
    repeat split; [done..|]. intros Hreset. by destruct (Hs Hreset).
  - intros i s H6 Hr. pose proof (step6_computes i s H6 Hr) as Hs.
    destruct (script i s) as [[s1 t] r]. destruct Hs as (? & _ & ? & Hs).
    repeat split; [done..|]. intros Hreset. by destruct (Hs Hreset).
  - intros interactions s Hall. pose proof (runs_budget interactions s Hall) as Hb.
    split.
    + unfold budget in Hb at 2. destruct (is_None (final_result s)); lia.
    + intros Hr. unfold budget in Hb at 2. rewrite (is_None_false _ Hr) in Hb.
      destruct (full_requests _); [done|simpl in Hb; lia].
  - intros i s file H5 Hf Hu Hty Hdec Hne Hc.
    pose proof (step5_analyzes i s file H5 Hf Hu Hty Hdec Hne Hc) as Hs.
    destruct (script i s) as [[s1 t] r]. by destruct Hs as (? & ? & _).
  - apply step5_waits.
  - intros i s file H5 Hf Hu Hty Hdec.
    pose proof (step5_undecodable i s file H5 Hf Hu Hty Hdec) as Hs.
    destruct (script i s) as [[s1 t] r]. by destruct Hs as (_ & ? & ?).
Qed.

End CachesFacts.

(** * The transportation step *)

Section TransportationFacts.

Context `{!Runtime}.

Lemma ask_primary_mode_run i s :
  ask_primary_mode i s
  = answered "transportation" "primary_mode" PStr "transport_mode"
      "What was your primary mode of transportation today?" (λ x, x)
      (held_select transport_options 0
         (lookup_response "transportation" "primary_mode" (PStr "Car") (user_responses s))
         (widget_state i !! "transport_mode")) s.
Proof. apply (select_question_run _ _ _ _ _ _ _ i s). Qed.

Lemma ask_distance_run i s :
  ask_distance i s
  = answered "transportation" "distance_km" PFloat "distance"
      "How many kilometers did you travel today?" (λ _, tt)
      (held_float 0
         (lookup_response "transportation" "distance_km" (PFloat 0) (user_responses s))
         (widget_state i !! "distance")) s.
Proof. apply (float_question_run _ _ _ _ _ _ _ i s). Qed.

Lemma step1_bicycle i s :
  current_step s = 1 →
  lookup2 "transportation" "primary_mode" (user_responses s) = Some (PStr "Bicycle") →
  mode_held i = "Bicycle" →
  match script i s with
  | (s1, t, r) =>
      asks "fuel_type" t = false
      ∧ asks "duration" t = false
      ∧ asks "passengers" t = false
      ∧ lookup2 "transportation" "fuel_type" (user_responses s1)
        = lookup2 "transportation" "fuel_type" (user_responses s)
      ∧ lookup2 "transportation" "duration_minutes" (user_responses s1)
        = lookup2 "transportation" "duration_minutes" (user_responses s)
      ∧ lookup2 "transportation" "passengers" (user_responses s1)
        = lookup2 "transportation" "passengers" (user_responses s)
  end.
Proof.
  destruct s as [n u a r d]. simpl. intros -> Hu Hw. unfold mode_held in Hw.
  apply wp_elim. unfold script. repeat wp_run. unfold step1. repeat wp_run.
  eapply wp_answered; [apply ask_primary_mode_run|]. read_session.
  rewrite lookup_response_insert_category, (lookup_response_of_lookup2 _ _ _ _ _ Hu).
  rewrite held_select_total by (vm_compute; reflexivity).
  change (prefilled transport_options 0 (PStr "Bicycle")) with "Bicycle".
  rewrite Hw. lazy beta iota. read_session.
  repeat wp_run.
  eapply wp_answered; [apply ask_distance_run|]. read_session.
  destruct (held_float _ _ _) as [km|e]; repeat wp_run.
  all: repeat split; try reflexivity.

  all: rewrite ?lookup2_insert_response, ?lookup2_insert_category; reflexivity.
Qed.

(** C7.  With Bicycle stored as the primary mode, and held by the mode
    widget, the page of step 1 asks neither for the fuel type, nor for the
    minutes on public transport, nor for the number of passengers, and the
    store holds for these three what it held before. *)
Theorem bicycle_skips_fuel_duration_passengers i s :
  current_step s = 1 →
  lookup2 "transportation" "primary_mode" (user_responses s) = Some (PStr "Bicycle") →
  mode_held i = "Bicycle" →
  match script i s with
  | (s1, t, r) =>
      asks "fuel_type" t = false
      ∧ asks "duration" t = false
      ∧ asks "passengers" t = false
      ∧ lookup2 "transportation" "fuel_type" (user_responses s1)
        = lookup2 "transportation" "fuel_type" (user_responses s)
      ∧ lookup2 "transportation" "duration_minutes" (user_responses s1)
        = lookup2 "transportation" "duration_minutes" (user_responses s)
      ∧ lookup2 "transportation" "passengers" (user_responses s1)
        = lookup2 "transportation" "passengers" (user_responses s)
  end.
Proof. apply step1_bicycle. Qed.

End TransportationFacts.

(** * The API boundary: what the analysis functions return *)

Section BoundaryFacts.

Context `{!Runtime}.

Lemma both_return_analysis h : both_return h (analysis h).
Proof.
  split.
  - intros u i s <-. apply analyze_with_gemma_run.
  - intros image_data i s <-. apply analyze_food_invoice_run.
Qed.

Lemma both_return_inj h v w : both_return h v → both_return h w → v = w.
Proof.
  intros [Hv _] [Hw _].
  specialize (Hv ∅ (no_input h) (new_session ∅) eq_refl).
  specialize (Hw ∅ (no_input h) (new_session ∅) eq_refl).
  congruence.
Qed.

Lemma py_getitem_part obj k v : py_getitem obj k = Ok v → part_of v obj.
Proof.
  destruct obj; simpl; try done.
  destruct (pydict_get k d) eqn:Hd; [|done]. intros [= <-]. by eapply part_value.
Qed.

Lemma py_getitem0_part obj v :
  py_getitem0 obj = Ok v → is_str v = true ∨ part_of v obj.
Proof.
  destruct obj; simpl; try done.
  - destruct s; [done|]. intros [= <-]. by left.
  - destruct l as [|x l]; [done|]. intros [= <-]. right. apply part_item. by left.
Qed.

Lemma extract_content_part j v :
  extract_content j = Ok v → is_str v = true ∨ part_of v j.
Proof.
  unfold extract_content. cbv [mbind result_bind mret result_ret].
  intros Hv.
  repeat match type of Hv with
  | context [py_contains ?k ?o] => destruct (py_contains k o) as [[]|]
  | context [py_len ?o] => destruct (py_len o) as [[|?]|]; simpl in Hv
  | context [py_getitem0 ?o] =>
      let H := fresh "Hitem" in destruct (py_getitem0 o) eqn:H
  | context [py_getitem ?o ?k] =>
      let H := fresh "Hget" in destruct (py_getitem o k) eqn:H
  end; try discriminate.
  all: repeat match goal with
  | H : py_getitem0 _ = Ok ?a |- _ =>
      apply py_getitem0_part in H as [H|H]; [destruct a; try discriminate H; simpl in *|]
  end.
  all: simplify_eq.
  all: try by left.
  all: repeat match goal with
  | H : py_getitem _ _ = Ok _ |- _ => apply py_getitem_part in H
  end.
  all: right; eauto 6 using part_inside.
Qed.

Lemma extract_content_no_envelope d :
  no_envelope_key d = true →
  extract_content (PDict d) = Ok (PStr (json_dumps (PDict d))).
Proof.
  unfold no_envelope_key, envelope_keys, has_key. simpl. rewrite !andb_true_iff.
  intros (H1 & H2 & H3 & H4 & H5 & _).
  unfold extract_content. simpl.
  destruct (pydict_get "choices" d); [done|].
  destruct (pydict_get "response" d); [done|].
  destruct (pydict_get "result" d); [done|].
  destruct (pydict_get "output" d); [done|].
  destruct (pydict_get "text" d); [done|].
  done.
Qed.

(** X20.  Whatever the request and however it ends, the two analysis
    functions raise nothing, send their one request and leave the session
    alone.  What they return is a string, or else a part of the decoded
    body of a 200 response.  An exception of the request gives a string
    that ends in its message; a status other than 200 a string with the
    status; a body that does not decode the body itself; a decoded object
    with none of the known keys its dump. *)
Theorem analysis_functions_recover :
  (∀ h, ∃ v, both_return h v)
  ∧ (∀ h v, both_return h v →
       is_str v = true
       ∨ ∃ resp j, h = HttpReturns resp ∧ status_code resp = 200
                   ∧ response_json resp = Some j ∧ part_of v j)
  ∧ (∀ msg, both_return (HttpRaises msg) (PStr ("An error occurred: " +:+ msg)))
  ∧ (∀ resp, status_code resp ≠ 200 →
       both_return (HttpReturns resp)
         (PStr ("Error " +:+ pretty (status_code resp)
                +:+ ": The API request failed. Please try again later.")))
  ∧ (∀ resp, status_code resp = 200 → response_json resp = None →
       both_return (HttpReturns resp) (PStr (response_text resp)))
  ∧ (∀ resp d, status_code resp = 200 → response_json resp = Some (PDict d) →
       no_envelope_key d = true →
       both_return (HttpReturns resp) (PStr (json_dumps (PDict d)))).
Proof.
  split; [|split; [|split; [|split; [|split]]]].
  - intros h. exists (analysis h). apply both_return_analysis.
  - intros h v Hv.
    rewrite (both_return_inj h v (analysis h) Hv (both_return_analysis h)).
    destruct h as [msg|resp]; simpl; [by left|].
    destruct (Z.eqb_spec (status_code resp) 200) as [H200|]; [|by left].
    destruct (response_json resp) as [j|] eqn:Hj; [|by left].
    destruct (extract_content j) as [w|e] eqn:Hw; [|by left].
    destruct (extract_content_part j w Hw) as [Hs|Hp]; [by left|].
    right. by exists resp, j.
  - intros msg. apply (both_return_analysis (HttpRaises msg)).
  - intros resp Hs. pose proof (both_return_analysis (HttpReturns resp)) as Hb.
    simpl in Hb. by destruct (Z.eqb_spec (status_code resp) 200).
  - intros resp Hs Hj. pose proof (both_return_analysis (HttpReturns resp)) as Hb.
    simpl in Hb. by rewrite Hs, Hj in Hb.
  - intros resp d Hs Hj Hd. pose proof (both_return_analysis (HttpReturns resp)) as Hb.
    simpl in Hb. by rewrite Hs, Hj, (extract_content_no_envelope d Hd) in Hb.
Qed.

End BoundaryFacts.

(** * Recalculate *)

Section RecalculateFacts.

Context `{!Runtime}.

(** C9.  The handler of Recalculate empties the slot of the overall result
    and touches nothing else.  In the run its click starts, at step 6, the
    answers, the invoice analysis, the cursor and the files are left as
    they were, and the slot is filled again by the one request the run
    sends. *)
Theorem recalculate_clears_final_result_only :
  (∀ i s, recalculate i s = (set_final_result PNone s, [], Ok tt))
  ∧ (∀ i s, current_step s = 6 → clicked i = Some "recalculate" →
       match script i s with
       | (s1, t, r) =>
           r = Ok tt
           ∧ user_responses s1 = user_responses s
           ∧ food_order_analysis s1 = food_order_analysis s
           ∧ current_step s1 = 6
           ∧ files s1 = files s
           ∧ final_result s1 = analysis (http i)
           ∧ requests t = [FullAnalysis (user_responses s)]
       end).
Proof.
  split; [done|].
  intros i [n u a r d] Hn Hc. simpl in Hn. subst n.
  apply wp_elim. unfold script, step6.
  repeat wp_run.
  all: by repeat split.
Qed.

End RecalculateFacts.

(** * Rendering a step again *)

Section RedisplayFacts.

Context `{!Runtime}.






End RedisplayFacts.

(** * Worked examples *)

Section ExamplesFacts.

#[local] Existing Instance sample_runtime.

(** C1 does not hold of the slot of the invoice analysis.  With an
    analysis already in the slot, a click on Analyze sends the invoice out
    again and replaces what the slot held. *)
Lemma invoice_is_analyzed_again :
  food_order_analysis analyzed_before = PStr "Earlier analysis"
  ∧ match script (upload receipt_png (Some "analyze_invoice")
                    (replies "New analysis")) analyzed_before with
    | (s1, t, r) =>
        requests t = [InvoiceAnalysis receipt_png_base64]
        ∧ food_order_analysis s1 = PStr "New analysis"
    end.
Proof.
  split; [reflexivity|].
  pose proof (step5_analyzes
                (upload receipt_png (Some "analyze_invoice")
                   (replies "New analysis"))
                analyzed_before receipt_png eq_refl) as Hs.
  destruct (script _ analyzed_before) as [[s1 t] r].
  destruct Hs as (Ht & Ha & _);
    [vm_compute; reflexivity|reflexivity|reflexivity|reflexivity|done|reflexivity|].
  split; [exact Ht|exact Ha].
Qed.

(** C1 at a file that is no image: the run ends at [st.image], before the
    Analyze button, and sends nothing. *)
Lemma letters_are_not_analyzed :
  match script (upload no_png (Some "analyze_invoice") (replies "New analysis"))
          analyzed_before with
  | (s1, t, r) =>
      r = Raise (OSError "cannot identify image file")
      ∧ requests t = []
      ∧ food_order_analysis s1 = PStr "Earlier analysis"
  end.
Proof.
  apply (step5_undecodable
           (upload no_png (Some "analyze_invoice") (replies "New analysis"))
           analyzed_before no_png);
    first [reflexivity | vm_compute; reflexivity].
Qed.

(** C1 at a session that reaches step 6 with an empty slot. *)
Lemma overall_analysis_witness :
  current_step (at_step 6 ∅) = 6
  ∧ final_result (at_step 6 ∅) = PNone
  ∧ match script (no_input offline) (at_step 6 ∅) with
    | (s1, t, r) =>
        requests t = [FullAnalysis (user_responses (at_step 6 ∅))]
        ∧ In (EMarkdown (analysis (http (no_input offline)))) t
        ∧ (clicked (no_input offline) ≠ Some "reset" →
           final_result s1 = analysis (http (no_input offline)))
    end.
Proof.
  split; [reflexivity|]. split; [reflexivity|].
  apply (proj1 (proj2 overall_analysis_is_computed_once)); reflexivity.
Defined.


(** C2 at a store that holds Bus and 12.5 km: step 1 shows both, and not
    the stock Car and 0, and leaves them in the store. *)
Lemma stored_answers_are_shown :
  match script (no_input offline) (at_step 1 commuter) with
  | (s1, t, r) =>
      shown_for "transport_mode" t = [PStr "Bus"]
      ∧ shown_for "distance" t = [PFloat 12.5%float]
      ∧ lookup2 "transportation" "primary_mode" (user_responses s1) = Some (PStr "Bus")
      ∧ lookup2 "transportation" "distance_km" (user_responses s1)
        = Some (PFloat 12.5%float)
  end.
Proof.
  assert (shown_for "transport_mode" (script (no_input offline) (at_step 1 commuter)).1.2
          = [PStr "Bus"]) as Hm by (vm_compute; reflexivity).
  assert (shown_for "distance" (script (no_input offline) (at_step 1 commuter)).1.2
          = [PFloat 12.5%float]) as Hd by (vm_compute; reflexivity).
  assert (lookup2 "transportation" "primary_mode"
            (user_responses (script (no_input offline) (at_step 1 commuter)).1.1)
          = Some (PStr "Bus")) as Hu by (vm_compute; reflexivity).
  assert (lookup2 "transportation" "distance_km"
            (user_responses (script (no_input offline) (at_step 1 commuter)).1.1)
          = Some (PFloat 12.5%float)) as Hv by (vm_compute; reflexivity).
  by destruct (script _ _) as [[s1 t] r].
Qed.

(** C3 at a session on step 3. *)
Lemma retreat_witness :
  1 < current_step (at_step 3 ∅)
  ∧ prev_step (no_input offline) (at_step 3 ∅)
    = (set_current_step (current_step (at_step 3 ∅) - 1) (at_step 3 ∅), [], Ok tt).
Proof.
  split; [reflexivity|].
  apply (proj1 (proj2 retreat_never_below_1)). reflexivity.
Defined.

(** C4 does not hold of [next_step] itself, which takes the cursor
    from 6 to 7. *)
Lemma advance_past_results :
  current_step (at_step 6 ∅) = 6
  ∧ current_step (next_step (no_input offline) (at_step 6 ∅)).1.1 = 7.
Proof. split; reflexivity. Qed.

(** C5 does not hold of the packaging question, which falls back to
    its second option. *)
Lemma packaging_falls_back_to_second :
  is_option (stored_answer Packaging (user_responses (at_step 4 bubble_wrap)))
    packaging_options = false
  ∧ packaging_options !! 0%nat = Some "Minimal/eco-friendly packaging"
  ∧ match script (no_input offline) (at_step 4 bubble_wrap) with
    | (s1, t, r) =>
        r = Ok tt ∧ shown_for "item_packaging" t = [PStr "Standard packaging"]
    end.
Proof.
  split; [vm_compute; reflexivity|]. split; [reflexivity|].
  assert ((script (no_input offline) (at_step 4 bubble_wrap)).2 = Ok tt) as Hr
    by (vm_compute; reflexivity).
  assert (shown_for "item_packaging" (script (no_input offline) (at_step 4 bubble_wrap)).1.2
          = [PStr "Standard packaging"]) as Ht
    by (vm_compute; reflexivity).
  by destruct (script _ _) as [[s1 t] r].
Qed.

(** C5 at the diet question with a diet that is no option. *)
Lemma stale_answer_witness :
  is_option (stored_answer DietType (user_responses (at_step 2 stale_diet)))
    (enum_options (enumeration_of DietType)) = false
  ∧ ask_enumerated DietType (no_input offline) (at_step 2 stale_diet)
    = (set_user_responses
         (insert_response "diet" "diet_type" (PStr (fallback_option DietType))
            (user_responses (at_step 2 stale_diet))) (at_step 2 stale_diet),
       [EAsk "diet_type" "How would you describe your diet?"
          (PStr (fallback_option DietType))],
       Ok (fallback_option DietType)).
Proof.
  split; [vm_compute; reflexivity|].
  apply (stale_answer_falls_back DietType (no_input offline) (at_step 2 stale_diet));
    [vm_compute; reflexivity|reflexivity].
Defined.

(** C6 at the store of its example: the lunch flag alone. *)
Lemma upload_offered_witness :
  match script (no_input offline) (at_step 5 lunch_flagged) with
  | (s1, t, r) => offers_upload t = true ∧ says_nothing_to_upload t = false
  end.
Proof.
  apply (proj2 upload_offered_iff_flagged (no_input offline) (at_step 5 lunch_flagged));
    reflexivity.
Defined.

(** C7 at the store that holds Bicycle and nothing else. *)
Lemma bicycle_witness :
  lookup2 "transportation" "primary_mode" (user_responses (at_step 1 cyclist))
  = Some (PStr "Bicycle")
  ∧ match script (no_input offline) (at_step 1 cyclist) with
    | (s1, t, r) =>
        asks "fuel_type" t = false
        ∧ asks "duration" t = false
        ∧ asks "passengers" t = false
        ∧ lookup2 "transportation" "fuel_type" (user_responses s1)
          = lookup2 "transportation" "fuel_type" (user_responses (at_step 1 cyclist))
        ∧ lookup2 "transportation" "duration_minutes" (user_responses s1)
          = lookup2 "transportation" "duration_minutes" (user_responses (at_step 1 cyclist))
        ∧ lookup2 "transportation" "passengers" (user_responses s1)
          = lookup2 "transportation" "passengers" (user_responses (at_step 1 cyclist))
    end.
Proof.
  split; [vm_compute; reflexivity|].
  apply (bicycle_skips_fuel_duration_passengers (no_input offline) (at_step 1 cyclist));
    [reflexivity|vm_compute; reflexivity|reflexivity].
Defined.

(** C8.  At a 200 response whose body is the number 5 both functions
    return the string of the error of looking a key up in a number, and
    not the body or its dump; at one whose content is null they return
    None, which is no string. *)
Lemma analysis_is_not_always_text :
  both_return bare_number
    (PStr "An error occurred: argument of type 'int' is not iterable")
  ∧ both_return null_content PNone
  ∧ is_str PNone = false.
Proof.
  split; [apply (both_return_analysis bare_number)|].
  split; [apply (both_return_analysis null_content)|reflexivity].
Qed.

(** X20 at a response with status 503. *)
Lemma analysis_witness :
  both_return unavailable
    (PStr ("Error " +:+ pretty 503 +:+ ": The API request failed. Please try again later.")).
Proof.
  apply (proj1 (proj2 (proj2 (proj2 analysis_functions_recover)))). done.
Defined.

(** C9 at a click on Recalculate with a result in the slot. *)
Lemma recalculate_witness :
  clicked (click "recalculate" offline) = Some "recalculate"
  ∧ match script (click "recalculate" offline) with_result with
    | (s1, t, r) =>
        r = Ok tt
        ∧ user_responses s1 = user_responses with_result
        ∧ food_order_analysis s1 = food_order_analysis with_result
        ∧ current_step s1 = 6
        ∧ files s1 = files with_result
        ∧ final_result s1 = analysis (http (click "recalculate" offline))
        ∧ requests t = [FullAnalysis (user_responses with_result)]
    end.
Proof.
  split; [reflexivity|].
  apply (proj2 recalculate_clears_final_result_only); reflexivity.
Defined.

(** C10 at an uploaded PDF. *)
Lemma pdf_upload_witness :
  flagged (user_responses (at_step 5 lunch_flagged)) = true
  ∧ startswith "image" (file_type receipt_pdf) = false
  ∧ match script (upload receipt_pdf None offline) (at_step 5 lunch_flagged) with
    | (s1, t, r) =>
        In (EUploader "invoice_upload" ["jpg"; "jpeg"; "png"; "pdf"]) t
        ∧ In (EError rejection) t
        ∧ requests t = []
        ∧ food_order_analysis s1 = food_order_analysis (at_step 5 lunch_flagged)
        ∧ user_responses s1 = user_responses (at_step 5 lunch_flagged)
        ∧ files s1 = files (at_step 5 lunch_flagged)
    end.
Proof.
  split; [vm_compute; reflexivity|]. split; [reflexivity|].
  apply (pdf_upload_is_rejected (upload receipt_pdf None offline) (at_step 5 lunch_flagged)
           receipt_pdf);
    [reflexivity|vm_compute; reflexivity|reflexivity|reflexivity].
Defined.

End ExamplesFacts.

(** * More on the answer store and the cursor *)

Section StoreAndCursorFacts.

Context `{!Runtime}.

Lemma insert_response_twice c q v w u :
  insert_response c q w (insert_response c q v u) = insert_response c q w u.
Proof.
  rewrite !insert_response_insert, lookup_insert_eq. simpl.
  by rewrite insert_insert_eq, insert_insert_eq.
Qed.

(** X1.  What was stored is what is read back, under the key it was stored
    under; every other key reads as before; of two answers stored under one
    key the second is the one kept; and a question that has no answer in the
    store reads as the default, the session staying as it is. *)
Theorem store_then_get :
  (∀ c q v d i s,
     (store_response c q v ≫= λ _, get_response c q d) i s
     = (set_user_responses (insert_response c q v (user_responses s)) s, [], Ok v))
  ∧ (∀ c q v c' q' d i s, (c', q') ≠ (c, q) →
       (store_response c q v ≫= λ _, get_response c' q' d) i s
       = (set_user_responses (insert_response c q v (user_responses s)) s, [],
          Ok (lookup_response c' q' d (user_responses s))))
  ∧ (∀ c q v w i s,
       (store_response c q v ≫= λ _, store_response c q w) i s
       = store_response c q w i s)
  ∧ (∀ c q d i s, lookup2 c q (user_responses s) = None →
       get_response c q d i s = (s, [], Ok d)).
Proof.
  split; [|split; [|split]].
  - intros c q v d i s. cbv [mbind M_bind bind store_response get_response modify get
      mret M_ret ret]. simpl.
    rewrite lookup_response_insert_response. unfold same_key.
    by rewrite !String.eqb_refl.
  - intros c q v c' q' d i s Hne. cbv [mbind M_bind bind store_response get_response
      modify get mret M_ret ret]. simpl.
    rewrite lookup_response_insert_response. unfold same_key.
    destruct (String.eqb_spec c' c) as [->|]; [|done].
    destruct (String.eqb_spec q' q) as [->|]; [|done]. done.
  - intros c q v w i s. cbv [mbind M_bind bind store_response modify]. simpl.
    by rewrite insert_response_twice.
  - intros c q d i s Hl. cbv [mbind M_bind bind get_response get mret M_ret ret]. simpl.
    by rewrite lookup_response_lookup2, Hl.
Qed.

(** X2.  A retreat undoes an advance from any cursor of at least 1; an
    advance undoes a retreat only from a cursor above 1, and takes the
    cursor from 1 to 2. *)
Theorem retreat_undoes_advance :
  (∀ i s, 1 ≤ current_step s → (next_step ≫= λ _, prev_step) i s = (s, [], Ok tt))
  ∧ (∀ i s, 1 < current_step s → (prev_step ≫= λ _, next_step) i s = (s, [], Ok tt))
  ∧ (∀ i s, current_step s = 1 →
       (prev_step ≫= λ _, next_step) i s = (set_current_step 2 s, [], Ok tt)).
Proof.
  split; [|split]; intros i [n u a r d]; simpl; intros Hn;
    cbv [mbind M_bind bind next_step prev_step modify get mret M_ret ret]; simpl.
  - destruct (Z.ltb_spec 1 (n + 1)); [|lia]. simpl.
    by replace (n + 1 - 1) with n by lia.
  - destruct (Z.ltb_spec 1 n); [|lia]. simpl.
    by replace (n - 1 + 1) with n by lia.
  - by subst n.
Qed.

End StoreAndCursorFacts.

(** * Where the analysis functions look for the content *)

Section ContentFacts.

Context `{!Runtime}.

Lemma extract_content_message d choice rest message v :
  pydict_get "choices" d = Some (PList (PDict choice :: rest)) →
  pydict_get "message" choice = Some (PDict message) →
  pydict_get "content" message = Some v →
  extract_content (PDict d) = Ok v.
Proof.
  intros Hc Hm Hv. unfold extract_content. simpl.
  repeat (first [rewrite Hc|rewrite Hm|rewrite Hv]; simpl). done.
Qed.

Lemma extract_content_choice_text d choice rest v :
  pydict_get "choices" d = Some (PList (PDict choice :: rest)) →
  lacks_content choice = true →
  pydict_get "text" choice = Some v →
  extract_content (PDict d) = Ok v.
Proof.
  intros Hc Hm Hv. unfold lacks_content in Hm. unfold extract_content. simpl.
  rewrite Hc. simpl.
  destruct (pydict_get "message" choice) as [message|]; simpl.
  - destruct (py_contains "content" message) as [[]|]; try done. simpl. by rewrite Hv.
  - by rewrite Hv.
Qed.

Lemma extract_content_choice_unknown d choice rest :
  pydict_get "choices" d = Some (PList (PDict choice :: rest)) →
  lacks_content choice = true →
  pydict_get "text" choice = None →
  extract_content (PDict d) = Ok (PStr (json_dumps (PDict d))).
Proof.
  intros Hc Hm Hv. unfold lacks_content in Hm. unfold extract_content. simpl.
  rewrite Hc. simpl.
  destruct (pydict_get "message" choice) as [message|]; simpl.
  - destruct (py_contains "content" message) as [[]|]; try done. simpl. by rewrite Hv.
  - by rewrite Hv.
Qed.

Lemma extract_content_no_choices d :
  no_choices d = true →
  extract_content (PDict d)
  = Ok (default (PStr (json_dumps (PDict d)))
          (first_present ["response"; "result"; "output"; "text"] d)).
Proof.
  unfold no_choices, extract_content. simpl.
  destruct (pydict_get "choices" d) as [[| | | | |[|? ?]|]|]; try done; simpl;
    intros _;
    destruct (pydict_get "response" d); simpl; try done;
    destruct (pydict_get "result" d); simpl; try done;
    destruct (pydict_get "output" d); simpl; try done;
    destruct (pydict_get "text" d); simpl; done.
Qed.

Lemma both_return_content resp j v :
  status_code resp = 200 → response_json resp = Some j → extract_content j = Ok v →
  both_return (HttpReturns resp) v.
Proof.
  intros Hs Hj Hv. pose proof (both_return_analysis (HttpReturns resp)) as Hb.
  simpl in Hb. by rewrite Hs, Hj, Hv in Hb.
Qed.

(** X3.  From the decoded object of a 200 response both functions take the
    content of the message of the first choice when there is one; when
    that choice has no message, or a message without content, its text;
    when it has no text either, the dump of the whole object, whatever
    other keys it has; and when there are no choices, the value of the first
    of [response], [result], [output] and [text] that the object has, and
    its dump when it has none. *)
Theorem content_is_looked_up_in_order resp d :
  status_code resp = 200 →
  response_json resp = Some (PDict d) →
  (∀ choice rest message v,
     pydict_get "choices" d = Some (PList (PDict choice :: rest)) →
     pydict_get "message" choice = Some (PDict message) →
     pydict_get "content" message = Some v →
     both_return (HttpReturns resp) v)
  ∧ (∀ choice rest v,
       pydict_get "choices" d = Some (PList (PDict choice :: rest)) →
       lacks_content choice = true →
       pydict_get "text" choice = Some v →
       both_return (HttpReturns resp) v)
  ∧ (∀ choice rest,
       pydict_get "choices" d = Some (PList (PDict choice :: rest)) →
       lacks_content choice = true →
       pydict_get "text" choice = None →
       both_return (HttpReturns resp) (PStr (json_dumps (PDict d))))
  ∧ (no_choices d = true →
     both_return (HttpReturns resp)
       (default (PStr (json_dumps (PDict d)))
          (first_present ["response"; "result"; "output"; "text"] d))).
Proof.
  intros Hs Hj. repeat split; intros;
    apply (both_return_content resp (PDict d)); try done;
    eauto using extract_content_message, extract_content_choice_text,
      extract_content_choice_unknown, extract_content_no_choices.
Qed.

End ContentFacts.

(** * What a question with options stores *)

Lemma chosen_is_option options p u :
  str_in p options = true → str_in (chosen options p u) options = true.
Proof.
  intros Hp. unfold chosen. destruct u as [[]|]; try done.
  by destruct (str_in s options) eqn:Hs.
Qed.

Lemma lookup_is_option (options : list string) i p :
  options !! i = Some p → str_in p options = true.
Proof.
  unfold str_in. revert i. induction options as [|o rest IH]; intros [|i]; simpl; try done.
  - intros [= ->]. by rewrite String.eqb_refl.
  - intros Hi. rewrite (IH _ Hi). by rewrite orb_true_r.
Qed.

Lemma held_select_option options fb v u :
  (fb <? length options)%nat = true →
  ∃ x, held_select options fb v u = Ok x ∧ str_in x options = true.
Proof.
  intros Hfb. unfold held_select.
  destruct (lookup_lt_is_Some_2 options _ (fallback_index_lt _ _ v Hfb)) as [p Hp].
  rewrite Hp. eexists. split; [done|].
  by eapply chosen_is_option, lookup_is_option.
Qed.

Lemma held_select_slider_option options fb v u :
  (fb <? length options)%nat = true →
  ∃ x, held_select_slider options fb v u = Ok x ∧ str_in x options = true.
Proof.
  intros Hfb. unfold held_select_slider.
  destruct (lookup_lt_is_Some_2 options _ (fallback_index_lt _ _ v Hfb)) as [p Hp].
  rewrite Hp, (lookup_is_option _ _ _ Hp). eexists. split; [done|].
  by eapply chosen_is_option, lookup_is_option.
Qed.

Section EnumeratedAnswersFacts.

Context `{!Runtime}.

Lemma ask_enumerated_run e i s :
  ∃ held,
    ask_enumerated e i s
    = answered (enum_category (enumeration_of e)) (enum_question (enumeration_of e)) PStr
        (enum_key (enumeration_of e)) (enum_label (enumeration_of e)) (λ x, x) held s
    ∧ ∃ x, held = Ok x ∧ str_in x (enum_options (enumeration_of e)) = true.
Proof.
  destruct e; cbn [enumeration_of enum_category enum_question enum_options enum_label
                   enum_key ask_enumerated];
    eexists;
    (split;
     [first [ apply (select_question_run _ _ _ _ _ _ _ i s)
            | apply (select_slider_question_run _ _ _ _ _ _ _ i s) ]
     |first [ by apply held_select_option
            | by apply held_select_slider_option ]]).
Qed.

(** X4.  A question with a list of options never fails, whatever the store
    holds for it and whatever is set on its widget: it shows, returns and
    stores one of its options. *)
Theorem enumerated_answer_is_option e i s :
  ∃ x,
    str_in x (enum_options (enumeration_of e)) = true
    ∧ ask_enumerated e i s
      = (set_user_responses
           (insert_response (enum_category (enumeration_of e))
              (enum_question (enumeration_of e)) (PStr x) (user_responses s)) s,
         [EAsk (enum_key (enumeration_of e)) (enum_label (enumeration_of e)) (PStr x)],
         Ok x).
Proof.
  destruct (ask_enumerated_run e i s) as (held & Hrun & x & -> & Hx).
  exists x. by split.
Qed.

End EnumeratedAnswersFacts.

(** * More on the results step and the invoice step *)

Lemma requests_of_app t1 t2 : requests (t1 ++ t2) = requests t1 ++ requests t2.
Proof.
  induction t1 as [|e t1 IH]; [done|]. destruct e; simpl; by rewrite ?IH.
Qed.

Section ResultsStepFacts.

Context `{!Runtime}.

(** Step 6 rendered by no click. *)
Lemma step6_plain i s :
  current_step s = 6 → clicked i = None →
  match script i s with
  | (s1, t, r) =>
      r = Ok tt
      ∧ current_step s1 = 6
      ∧ user_responses s1 = user_responses s
      ∧ food_order_analysis s1 = food_order_analysis s
      ∧ files s1 = files s
      ∧ (if is_None (final_result s)
         then final_result s1 = analysis (http i)
              ∧ requests t = [FullAnalysis (user_responses s)]
         else final_result s1 = final_result s ∧ requests t = [])
  end.
Proof.
  destruct s as [n u a r d]. simpl. intros -> Hc.
  apply wp_elim. unfold script, step6.
  repeat wp_run.
  all: by repeat split.
Qed.

Lemma analysis_failure resp :
  status_code resp ≠ 200 →
  analysis (HttpReturns resp) = PStr (failure_text (status_code resp)).
Proof. intros Hs. simpl. by destruct (Z.eqb_spec (status_code resp) 200). Qed.

Lemma run_plain i s :
  current_step s = 6 → clicked i = None → run i s = script i s.
Proof.
  intros H6 Hc. unfold run. pose proof (step6_plain i s H6 Hc) as Hs.
  destruct (script i s) as [[s1 t] r]. by destruct Hs as (-> & _).
Qed.

(** X5.  A failed analysis is kept like a result.  Step 6 rendered with an
    empty slot while the API answers with a status other than 200 stores the
    string of the failure in the slot; rendered again, it shows that string
    and sends nothing more, whatever the API would answer now. *)
Theorem failed_analysis_is_kept i1 i2 s resp :
  current_step s = 6 → final_result s = PNone →
  clicked i1 = None → http i1 = HttpReturns resp → status_code resp ≠ 200 →
  clicked i2 = None →
  match runs [i1; i2] s with
  | (s2, t) =>
      final_result s2 = PStr (failure_text (status_code resp))
      ∧ requests t = [FullAnalysis (user_responses s)]
  end.
Proof.
  intros H6 Hr Hc1 Hh Hs Hc2. simpl.
  rewrite (run_plain i1 s H6 Hc1).
  pose proof (step6_plain i1 s H6 Hc1) as H1. rewrite Hr in H1.
  destruct (script i1 s) as [[s1 t1] r1].
  destruct H1 as (_ & H61 & Hu1 & _ & _ & Hr1 & Ht1).
  rewrite Hh, (analysis_failure _ Hs) in Hr1.
  rewrite (run_plain i2 s1 H61 Hc2).
  pose proof (step6_plain i2 s1 H61 Hc2) as H2. rewrite Hr1 in H2.
  destruct (script i2 s1) as [[s2 t2] r2].
  destruct H2 as (_ & _ & _ & _ & _ & Hr2 & Ht2).
  split; [done|]. by rewrite app_nil_r, requests_of_app, Ht1, Ht2.
Qed.

(** X6.  The page of step 6 never has an error message: the analysis raises
    nothing for the handler around it to catch, and what fails comes back as
    the text of the result. *)
Theorem results_page_shows_no_error i s :
  current_step s = 6 →
  match script i s with
  | (s1, t, r) => shows_error t = false
  end.
Proof.
  destruct s as [n u a r d]. simpl. intros ->.
  apply wp_elim. unfold script, step6.
  repeat wp_run.
  all: reflexivity.
Qed.

(** X7.  A click on Analyze at step 5, with an uploaded image that
    [st.image] decodes, saves the upload as [uploaded_invoice.png], and
    keeps what the analysis returns both in the slot of the invoice
    analysis and in the answers, under [invoice_analysis] of [food]. *)
Theorem invoice_analysis_is_stored_twice i s file :
  current_step s = 5 →
  flagged (user_responses s) = true →
  uploaded i = Some file →
  startswith "image" (file_type file) = true →
  decodes_image (file_buffer file) = true →
  b64encode (file_buffer file) ≠ EmptyString →
  clicked i = Some "analyze_invoice" →
  match script i s with
  | (s1, t, r) =>
      r = Ok tt
      ∧ food_order_analysis s1 = analysis (http i)
      ∧ user_responses s1
        = insert_response "food" "invoice_analysis" (analysis (http i)) (user_responses s)
      ∧ files s1 = <["uploaded_invoice.png" := file_buffer file]> (files s)
      ∧ current_step s1 = 5
      ∧ final_result s1 = final_result s
  end.
Proof.
  destruct s as [n u a r d]. simpl. intros -> Hf Hu Hty Hdec Hne Hc.
  unfold flagged, invoice_flag in Hf.
  assert (negb (String.eqb (b64encode (file_buffer file)) EmptyString) = true) as Hne'.
  { apply negb_true_iff. by apply String.eqb_neq. }
  apply wp_elim. unfold script, step5.
  repeat wp_run.
  all: by repeat split.
Qed.

End ResultsStepFacts.

(** * What the steps leave alone *)

#[export] Instance keeps_categories_preorder cats : PreOrder (keeps_categories cats).
Proof.
  split; [by intros s c|]. intros s1 s2 s3 H1 H2 c Hc.
  by rewrite (H2 c Hc), (H1 c Hc).
Qed.

#[export] Instance keeps_files_preorder : PreOrder keeps_files.
Proof.
  split; [by intros s p|]. intros s1 s2 s3 H1 H2 p Hp.
  by rewrite (H2 p Hp), (H1 p Hp).
Qed.

#[export] Instance keeps_slots_preorder : PreOrder keeps_slots.
Proof.
  split; [by intros s|]. intros s1 s2 s3 (? & ? & ?) (? & ? & ?).
  unfold keeps_slots. repeat split; congruence.
Qed.

Lemma str_in_ne c c' cats : str_in c cats = false → str_in c' cats = true → c' ≠ c.
Proof. intros Hc Hc' ->. congruence. Qed.

Lemma insert_category_other c c' u : c' ≠ c → insert_category c' u !! c = u !! c.
Proof.
  intros Hne. unfold insert_category. destruct (u !! c'); [done|].
  by rewrite lookup_insert_ne.
Qed.

Lemma insert_response_other c c' q v u : c' ≠ c → insert_response c' q v u !! c = u !! c.
Proof.
  intros Hne. unfold insert_response. rewrite lookup_alter_ne by done.
  by apply insert_category_other.
Qed.

Lemma no_requests t : Forall no_request t → requests t = [].
Proof. induction 1 as [|e t He _ IH]; [done|]. by destruct e. Qed.

Ltac kept_step :=
  lazymatch goal with
  | |- any_event _ => exact I
  | |- any_exn _ => exact I
  | |- no_request _ => exact I
  | |- match ?r with Raise _ => any_exn _ | Ok _ => True end => by destruct r
  | |- keeps_categories _ _ _ =>
      let c := fresh "c" in
      let Hc := fresh "Hc" in
      intros c Hc; cbn [user_responses set_user_responses set_food_order_analysis
                        set_final_result set_files set_current_step];
      first [ reflexivity
            | apply insert_response_other, (str_in_ne _ _ _ Hc); reflexivity
            | apply insert_category_other, (str_in_ne _ _ _ Hc); reflexivity ]
  | |- keeps_files _ _ =>
      let p := fresh "p" in
      let Hp := fresh "Hp" in
      intros p Hp; cbn [files set_user_responses set_food_order_analysis set_final_result
                        set_files set_current_step new_session];
      first [ reflexivity | by apply lookup_insert_ne ]
  | |- keeps_slots _ _ => by repeat split
  | |- sat _ _ _ (for_each _ _) => lazy beta iota delta [for_each]
  | _ => sat_atom
  end.

Ltac kept := unfold_questions; unfold_widgets; repeat kept_step.

Section KeptFacts.

Context `{!Runtime}.

Lemma step1_categories : sat (keeps_categories ["transportation"]) any_event any_exn step1.
Proof. unfold step1. kept. Qed.

Lemma step2_categories : sat (keeps_categories ["diet"; "food"]) any_event any_exn step2.
Proof. unfold step2. kept. Qed.

Lemma step3_categories :
  sat (keeps_categories ["home"; "energy"; "water"]) any_event any_exn step3.
Proof. unfold step3. kept. Qed.

Lemma step4_categories :
  sat (keeps_categories ["consumption"; "waste"]) any_event any_exn step4.
Proof. unfold step4. kept. Qed.

Lemma step5_categories : sat (keeps_categories ["food"]) any_event any_exn step5.
Proof. unfold step5. kept. Qed.

Lemma step_at_categories k :
  1 ≤ k ≤ 5 → sat (keeps_categories (categories_of_step k)) any_event any_exn (step_at k).
Proof.
  intros Hk.
  assert (k = 1 ∨ k = 2 ∨ k = 3 ∨ k = 4 ∨ k = 5) as [->|[->|[->|[->| ->]]]] by lia.
  - apply step1_categories.
  - apply step2_categories.
  - apply step3_categories.
  - apply step4_categories.
  - apply step5_categories.
Qed.

Lemma script_categories i s c :
  1 ≤ current_step s ≤ 5 →
  str_in c (categories_of_step (current_step s)) = false →
  user_responses (script i s).1.1 !! c = user_responses s !! c.
Proof.
  intros Hk Hc. rewrite script_run.
  pose proof (step_at_categories _ Hk i s) as Hs.
  destruct (step_at _ i s) as [[s1 t] r]. destruct Hs as (Hs & _). by apply Hs.
Qed.

(** X8.  Steps 1 to 5 write to their own categories of the answer store
    only: every other category holds after the run what it held before,
    whatever was entered or clicked and however the run ends. *)
Theorem step_writes_its_categories i s c :
  1 ≤ current_step s ≤ 5 →
  str_in c (categories_of_step (current_step s)) = false →
  user_responses (script i s).1.1 !! c = user_responses s !! c.
Proof. apply script_categories. Qed.

Lemma step1_slots : sat keeps_slots no_request any_exn step1.
Proof. unfold step1. kept. Qed.

Lemma step2_slots : sat keeps_slots no_request any_exn step2.
Proof. unfold step2. kept. Qed.

Lemma step3_slots : sat keeps_slots no_request any_exn step3.
Proof. unfold step3. kept. Qed.

Lemma step4_slots : sat keeps_slots no_request any_exn step4.
Proof. unfold step4. kept. Qed.

Lemma script_sends_nothing i s :
  1 ≤ current_step s ≤ 4 →
  match script i s with
  | (s1, t, r) =>
      requests t = []
      ∧ food_order_analysis s1 = food_order_analysis s
      ∧ final_result s1 = final_result s
      ∧ files s1 = files s
  end.
Proof.
  intros Hk. rewrite script_run.
  assert (sat keeps_slots no_request any_exn (step_at (current_step s))) as Hs.
  { assert (current_step s = 1 ∨ current_step s = 2 ∨ current_step s = 3
            ∨ current_step s = 4) as [->|[->|[->| ->]]] by lia;
      auto using step1_slots, step2_slots, step3_slots, step4_slots. }
  specialize (Hs i s). destruct (step_at _ i s) as [[s1 t] r].
  destruct Hs as ((Ha & Hr & Hf) & Ht & _).
  split; [|done]. rewrite requests_of_app, (no_requests _ Ht). done.
Qed.

(** X9.  Steps 1 to 4 send no request and leave both analysis slots and the
    files as they were, whatever was entered or clicked. *)
Theorem questionnaire_sends_nothing i s :
  1 ≤ current_step s ≤ 4 →
  match script i s with
  | (s1, t, r) =>
      requests t = []
      ∧ food_order_analysis s1 = food_order_analysis s
      ∧ final_result s1 = final_result s
      ∧ files s1 = files s
  end.
Proof. apply script_sends_nothing. Qed.

Lemma step1_files : sat keeps_files any_event any_exn step1.
Proof. unfold step1. kept. Qed.

Lemma step2_files : sat keeps_files any_event any_exn step2.
Proof. unfold step2. kept. Qed.

Lemma step3_files : sat keeps_files any_event any_exn step3.
Proof. unfold step3. kept. Qed.

Lemma step4_files : sat keeps_files any_event any_exn step4.
Proof. unfold step4. kept. Qed.

Lemma step5_files : sat keeps_files any_event any_exn step5.
Proof. unfold step5. kept. Qed.

Lemma step6_files : sat keeps_files any_event any_exn step6.
Proof. unfold step6. kept. Qed.

Lemma script_files i s : keeps_files s (script i s).1.1.
Proof.
  rewrite script_run.
  assert (sat keeps_files any_event any_exn (step_at (current_step s))) as Hs.
  { unfold step_at.
    repeat lazymatch goal with
    | |- sat _ _ _ (if ?b then _ else _) => destruct b
    end;
    auto using step1_files, step2_files, step3_files, step4_files, step5_files,
      step6_files.
    by intros i' s'. }
  specialize (Hs i s). destruct (step_at _ i s) as [[s1 t] r]. by destruct Hs.
Qed.

Lemma run_files i s : keeps_files s (run i s).1.1.
Proof.
  unfold run. pose proof (script_files i s) as H1.
  destruct (script i s) as [[s1 t1] [a|e]]; [done|].
  destruct e; try done.
  pose proof (script_files (no_input (http i)) s1) as H2.
  destruct (script _ s1) as [[s2 t2] r]. simpl in *. by etrans.
Qed.

(** X10.  Over any series of interactions, the only file the application
    writes is [uploaded_invoice.png]: every other file holds at the end what
    it held at the start. *)
Theorem only_the_upload_is_written interactions s path :
  path ≠ "uploaded_invoice.png" →
  files (runs interactions s).1 !! path = files s !! path.
Proof.
  intros Hp. revert s. induction interactions as [|i rest IH]; intros s; [done|].
  simpl. pose proof (run_files i s) as Hrun.
  destruct (run i s) as [[s1 t1] r1]. specialize (IH s1).
  destruct (runs rest s1) as [s2 t2]. simpl in *.
  by rewrite IH, (Hrun _ Hp).
Qed.

End KeptFacts.

(** * Start Over *)

Section StartOverFacts.

Context `{!Runtime}.

Lemma script_reset i s :
  current_step s = 6 → clicked i = Some "reset" →
  ∃ t, script i s = (new_session (files s), t, Raise RerunException).
Proof.
  destruct s as [n u a r d]. simpl. intros -> Hc.
  assert (match script i (Session 6 u a r d) with
          | (s1, t, r1) => s1 = new_session d ∧ r1 = Raise RerunException
          end) as Hs.
  { apply wp_elim. unfold script, step6. repeat wp_run. all: by split. }
  destruct (script i _) as [[s1 t] r1]. destruct Hs as [-> ->]. by exists t.
Qed.

(** The first page of a new session. *)
Lemma script_new_session h d :
  match script (no_input h) (new_session d) with
  | (s1, t, r) =>
      r = Ok tt
      ∧ current_step s1 = 1
      ∧ lookup2 "transportation" "primary_mode" (user_responses s1) = Some (PStr "Car")
      ∧ lookup2 "transportation" "fuel_type" (user_responses s1)
        = Some (PStr "Petrol/Gasoline")
      ∧ lookup2 "transportation" "distance_km" (user_responses s1) = Some (PFloat 0)
      ∧ lookup2 "transportation" "passengers" (user_responses s1) = Some (PInt 1)
  end.
Proof.
  assert ((script (no_input h) (new_session d)).2 = Ok tt) as Hr
    by (vm_compute; reflexivity).
  assert (current_step (script (no_input h) (new_session d)).1.1 = 1) as Hn
    by (vm_compute; reflexivity).
  assert (lookup2 "transportation" "primary_mode"
            (user_responses (script (no_input h) (new_session d)).1.1)
          = Some (PStr "Car")) as H1 by (vm_compute; reflexivity).
  assert (lookup2 "transportation" "fuel_type"
            (user_responses (script (no_input h) (new_session d)).1.1)
          = Some (PStr "Petrol/Gasoline")) as H2 by (vm_compute; reflexivity).
  assert (lookup2 "transportation" "distance_km"
            (user_responses (script (no_input h) (new_session d)).1.1)
          = Some (PFloat 0)) as H3 by (vm_compute; reflexivity).
  assert (lookup2 "transportation" "passengers"
            (user_responses (script (no_input h) (new_session d)).1.1)
          = Some (PInt 1)) as H4 by (vm_compute; reflexivity).
  by destruct (script _ _) as [[s1 t] r].
Qed.

(** X11.  A click on Start Over at step 6 ends the run on the first page of
    a new session: the cursor is 1, both slots are empty, and of the answers
    given before nothing is left, the store holding the stock answers of
    step 1 and no other category.  The files are those of before. *)
Theorem start_over_resets i s :
  current_step s = 6 → clicked i = Some "reset" →
  match run i s with
  | (s2, t, r) =>
      r = Ok tt
      ∧ current_step s2 = 1
      ∧ food_order_analysis s2 = PNone
      ∧ final_result s2 = PNone
      ∧ files s2 = files s
      ∧ lookup2 "transportation" "primary_mode" (user_responses s2) = Some (PStr "Car")
      ∧ lookup2 "transportation" "fuel_type" (user_responses s2)
        = Some (PStr "Petrol/Gasoline")
      ∧ lookup2 "transportation" "distance_km" (user_responses s2) = Some (PFloat 0)
      ∧ lookup2 "transportation" "passengers" (user_responses s2) = Some (PInt 1)
      ∧ (∀ c, c ≠ "transportation" → user_responses s2 !! c = None)
  end.
Proof.
  intros H6 Hc. unfold run.
  destruct (script_reset i s H6 Hc) as [t1 ->].
  pose proof (script_new_session (http i) (files s)) as Hnew.
  pose proof (script_sends_nothing (no_input (http i)) (new_session (files s)))
    as Hslots.
  pose proof (script_categories (no_input (http i)) (new_session (files s)))
    as Hcats.
  destruct (script _ (new_session _)) as [[s2 t2] r].
  destruct Hnew as (-> & Hn & H1 & H2 & H3 & H4).
  destruct Hslots as (_ & Ha & Hr & Hf); [simpl; lia|].
  repeat split; try done.
  intros c Hne. simpl in Hcats. rewrite Hcats; [done|lia|].
  unfold categories_of_step, str_in. simpl. rewrite orb_false_r.
  by apply String.eqb_neq.
Qed.

End StartOverFacts.

(** * Navigation through the buttons *)

Lemma triple_bind {A B} i (P P' : session → Prop) (V : A → Prop) E (m : M A) (f : A → M B)
    (Q : session → result B → Prop) :
  triple i P m (post P' V E) →
  (∀ a, V a → triple i P' (f a) Q) →
  (∀ s e, P' s → E e → Q s (Raise e)) →
  triple i P (m ≫= f) Q.
Proof.
  intros Hm Hf HE s HP. cbv [mbind M_bind bind]. specialize (Hm s HP).
  destruct (m i s) as [[s1 t1] [a|e]]; destruct Hm as [HP' Hr].
  - specialize (Hf a Hr s1 HP'). by destruct (f a i s1) as [[s2 t2] r].
  - by apply HE.
Qed.

Lemma triple_sat {A} i (P : session → Prop) T E (m : M A) :
  sat (keeps P) T E m → triple i P m (post P anything E).
Proof.
  intros Hm s HP. specialize (Hm i s). destruct (m i s) as [[s1 t] r].
  destruct Hm as (HR & _ & HE). split; [by apply HR|]. by destruct r.
Qed.

Lemma triple_sat_end {A} i (P : session → Prop) T E (m : M A)
    (Q : session → result A → Prop) :
  sat (keeps P) T E m → (∀ s r, P s → Q s r) → triple i P m Q.
Proof.
  intros Hm HQ s HP. specialize (Hm i s). destruct (m i s) as [[s1 t] r].
  destruct Hm as (HR & _). by apply HQ, HR.
Qed.

Lemma triple_button i (P : session → Prop) E label key :
  triple i P (button label key)
    (post P (λ b, b = bool_decide (clicked i = Some key)) E).
Proof. intros s HP. by split. Qed.

Lemma triple_ret {A} i (P : session → Prop) (a : A) (Q : session → result A → Prop) :
  (∀ s, P s → Q s (Ok a)) → triple i P (mret a) Q.
Proof. intros HQ s HP. by apply HQ. Qed.

Lemma triple_next_step i n (Q : session → result () → Prop) :
  (∀ s, at_cursor (n + 1) s → Q s (Ok tt)) → triple i (at_cursor n) next_step Q.
Proof. intros HQ s HP. apply HQ. unfold at_cursor in *. simpl. lia. Qed.

Lemma triple_prev_step i n E :
  1 < n → triple i (at_cursor n) prev_step (post (at_cursor (n - 1)) anything E).
Proof.
  intros Hn s HP. unfold at_cursor in *. rewrite prev_step_run, HP.
  destruct (Z.ltb_spec 1 n); [|lia]. by split.
Qed.

Lemma triple_start_over i P (Q : session → result () → Prop) :
  (∀ s, Q (new_session (files s)) (Raise RerunException)) →
  triple i P start_over Q.
Proof. intros HQ s HP. apply HQ. Qed.

Lemma triple_ask_had_lunch i (P : session → Prop) E :
  widget_state i !! "had_lunch" = Some (PBool false) →
  (∀ s v, keeps P s
            (set_user_responses (insert_response "food" "had_lunch" v (user_responses s)) s)) →
  triple i P ask_had_lunch (post P (λ x, x = false) E).
Proof.
  intros Hw HP s Hs.
  change (ask_had_lunch i s)
    with (check_question "food" "had_lunch" (PBool false) "Did you have lunch today?"
            "had_lunch" i s).
  rewrite check_question_run, Hw. simpl. split; [by apply HP|done].
Qed.

(** What a click known to be on some key, or on none of the navigation
    keys, makes of a button. *)
Ltac button_known :=
  lazymatch goal with
  | |- context [@bool_decide (clicked ?i = Some ?k) _] =>
      first
        [ rewrite (clicked_true i k) by assumption
        | match goal with
          | Hc : clicked i = Some _ |- _ => rewrite (clicked_other i k _ Hc eq_refl)
          | Hn : ∀ k', In k' navigation_keys → clicked i ≠ Some k' |- _ =>
              rewrite (clicked_false i k)
                by (apply Hn; repeat first [left; reflexivity | right])
          | Hr : clicked i ≠ Some k |- _ => rewrite (clicked_false i k Hr)
          end
        | destruct (bool_decide (clicked i = Some k)) ]
  end; lazy beta iota.

Ltac at_cursor_kept :=
  lazymatch goal with
  | |- keeps (at_cursor _) _ _ => by intros ?
  | |- keeps (lunch_flag_is _) _ _ =>
      let HP := fresh "HP" in
      intros HP; unfold lunch_flag_is;
      cbn [user_responses set_user_responses set_food_order_analysis set_final_result
           set_files set_current_step];
      first [ exact HP
            | rewrite lookup2_insert_response; exact HP
            | rewrite lookup2_insert_category; exact HP ]
  | |- any_event _ => exact I
  | |- sat _ _ _ (for_each _ _) => lazy beta iota delta [for_each]
  | |- sat _ _ _ prev_step => unfold prev_step
  | _ => sat_atom
  end.

Ltac triple_step_with kept :=
  lazymatch goal with
  | |- triple _ _ (mbind _ (button _ _)) _ =>
      eapply triple_bind;
        [ apply triple_button with (E := never)
        | let b := fresh "b" in intros b ->; button_known
        | by intros ? ? ? [] ]
  | |- triple _ (at_cursor _) (mbind _ prev_step) _ =>
      eapply triple_bind;
        [ apply triple_prev_step with (E := never); lia
        | intros ? _
        | by intros ? ? ? [] ]
  | Hw : widget_state ?i !! "had_lunch" = Some (PBool false)
    |- triple ?i _ (mbind _ ask_had_lunch) _ =>
      eapply triple_bind;
        [ apply triple_ask_had_lunch with (E := never); [exact Hw|intros ? ?; kept tt]
        | let x := fresh "x" in intros x ->; lazy beta iota
        | by intros ? ? ? [] ]
  | |- triple _ _ (mbind _ _) _ =>
      eapply triple_bind;
        [ apply triple_sat with (T := any_event) (E := not_rerun);
          unfold_questions; unfold_calls; repeat (kept tt)
        | intros ? _ | ]
  | |- triple _ (at_cursor _) next_step _ => apply triple_next_step
  | |- triple _ _ next_step _ =>
      eapply triple_sat_end with (T := any_event) (E := any_exn);
        [unfold next_step; repeat (kept tt)|]
  | |- triple _ _ start_over _ => apply triple_start_over
  | |- triple _ _ (mret _) _ => apply triple_ret
  end; lazy beta.

Ltac triple_step := triple_step_with ltac:(fun _ => at_cursor_kept).

Lemma stays_raise n s e : at_cursor n s → not_rerun e → stays n s (Raise e).
Proof. intros Hs He. split; [done|]. by intros [= ->]. Qed.

Ltac triple_done :=
  lazymatch goal with
  | |- not_rerun _ => reflexivity
  | |- ∀ s e, _ → _ → stays _ _ _ => intros ? ? ? ?; by apply stays_raise
  | |- ∀ s, _ → stays _ _ _ => intros ? ?; by split
  | |- ∀ s e, _ → _ → moves _ _ _ _ => intros ? ? ? ?; by split
  | |- ∀ s, _ → moves _ _ _ _ => intros ? ?; assumption
  | |- ∀ s, moves _ _ _ _ => idtac
  | |- _ => idtac
  end.

Section NavigatedFacts.

Context `{!Runtime}.

Section NoNavigationFacts.

Context (i : interaction).

Context (Hnav : ∀ k, In k navigation_keys → clicked i ≠ Some k).

Lemma step1_stays n : triple i (at_cursor n) step1 (stays n).
Proof. unfold step1; repeat triple_step; triple_done. Qed.

Lemma step2_stays n : triple i (at_cursor n) step2 (stays n).
Proof. unfold step2; repeat triple_step; triple_done. Qed.

Lemma step3_stays n : triple i (at_cursor n) step3 (stays n).
Proof. unfold step3; repeat triple_step; triple_done. Qed.

Lemma step4_stays n : triple i (at_cursor n) step4 (stays n).
Proof. unfold step4; repeat triple_step; triple_done. Qed.

Lemma step5_stays n : triple i (at_cursor n) step5 (stays n).
Proof. unfold step5; repeat triple_step; triple_done. Qed.

Lemma step6_stays n : triple i (at_cursor n) step6 (stays n).
Proof. unfold step6; repeat triple_step; triple_done. Qed.

Lemma step_at_stays k n : triple i (at_cursor n) (step_at k) (stays n).
Proof.
  unfold step_at.
  repeat lazymatch goal with
  | |- triple _ _ (if ?b then _ else _) _ => destruct b
  end;
  auto using step1_stays, step2_stays, step3_stays, step4_stays, step5_stays, step6_stays.
  by intros s Hs.
Qed.

End NoNavigationFacts.

(** X12.  The cursor moves by the navigation buttons only: a run started by
    anything but a click on a Previous, a Next or the Start Over button ends
    at the step it started from, whatever else it does. *)
Theorem cursor_moves_by_navigation_only i s :
  (∀ k, In k navigation_keys → clicked i ≠ Some k) →
  current_step (run i s).1.1 = current_step s.
Proof.
  intros Hnav. unfold run. rewrite script_run.
  pose proof (step_at_stays i Hnav (current_step s) (current_step s) s eq_refl) as Hs.
  destruct (step_at _ i s) as [[s1 t] r]. destruct Hs as [Hs Hr].
  by destruct r as [[]|[]].
Qed.

Section NextFacts.

Context (i : interaction).

Lemma step1_next :
  clicked i = Some "transport_next" → triple i (at_cursor 1) step1 (moves 1 2).
Proof. intros Hc. unfold step1; repeat triple_step; triple_done. Qed.

Lemma step2_next :
  clicked i = Some "food_next" → triple i (at_cursor 2) step2 (moves 2 3).
Proof. intros Hc. unfold step2; repeat triple_step; triple_done. Qed.

Lemma step3_next :
  clicked i = Some "energy_next" → triple i (at_cursor 3) step3 (moves 3 4).
Proof. intros Hc. unfold step3; repeat triple_step; triple_done. Qed.

Lemma step4_next :
  clicked i = Some "goods_next" → triple i (at_cursor 4) step4 (moves 4 5).
Proof. intros Hc. unfold step4; repeat triple_step; triple_done. Qed.

Lemma step5_next :
  clicked i = Some "invoice_next" → triple i (at_cursor 5) step5 (moves 5 6).
Proof. intros Hc. unfold step5; repeat triple_step; triple_done. Qed.

Lemma step2_prev :
  clicked i = Some "food_prev" → triple i (at_cursor 2) step2 (moves 2 1).
Proof. intros Hc. unfold step2; repeat triple_step; triple_done. Qed.

Lemma step3_prev :
  clicked i = Some "energy_prev" → triple i (at_cursor 3) step3 (moves 3 2).
Proof. intros Hc. unfold step3; repeat triple_step; triple_done. Qed.

Lemma step4_prev :
  clicked i = Some "goods_prev" → triple i (at_cursor 4) step4 (moves 4 3).
Proof. intros Hc. unfold step4; repeat triple_step; triple_done. Qed.

Lemma step5_prev :
  clicked i = Some "invoice_prev" → triple i (at_cursor 5) step5 (moves 5 4).
Proof. intros Hc. unfold step5; repeat triple_step; triple_done. Qed.

Lemma step6_prev :
  clicked i = Some "results_prev" → triple i (at_cursor 6) step6 (moves 6 5).
Proof. intros Hc. unfold step6; repeat triple_step; triple_done. Qed.

End NextFacts.

Lemma run_moves i s n n' :
  current_step s = n →
  triple i (at_cursor n) (step_at n) (moves n n') →
  match run i s with
  | (s1, t, r) =>
      match r with
      | Ok _ => current_step s1 = n'
      | Raise _ => current_step s1 = n
      end
  end.
Proof.
  intros Hn Hstep. unfold run. rewrite script_run, Hn.
  specialize (Hstep s Hn). destruct (step_at n i s) as [[s1 t] [[]|e]]; [done|].
  destruct Hstep as [Hs He]. by destruct e.
Qed.

(** X13.  A click on the Next button of a step from 1 to 5 takes the cursor
    one step on when the page is rendered to its end; when the page fails
    before its buttons, the cursor stays. *)
Theorem next_advances i s key :
  next_button (current_step s) = Some key → clicked i = Some key →
  match run i s with
  | (s1, t, r) =>
      match r with
      | Ok _ => current_step s1 = current_step s + 1
      | Raise _ => current_step s1 = current_step s
      end
  end.
Proof.
  unfold next_button. intros Hk Hc.
  repeat lazymatch type of Hk with
  | (if ?n =? ?k then _ else _) = _ =>
      destruct (Z.eqb_spec n k) as [Hn|_];
        [injection Hk as <-; rewrite Hn; apply run_moves; [done|]|]
  end; [..|done].
  - by apply step1_next.
  - by apply step2_next.
  - by apply step3_next.
  - by apply step4_next.
  - by apply step5_next.
Qed.

(** X14.  A click on the Previous button of a step from 2 to 6 takes the
    cursor one step back when the page is rendered to its end; when the page
    fails before its buttons, the cursor stays. *)
Theorem previous_retreats i s key :
  prev_button (current_step s) = Some key → clicked i = Some key →
  match run i s with
  | (s1, t, r) =>
      match r with
      | Ok _ => current_step s1 = current_step s - 1
      | Raise _ => current_step s1 = current_step s
      end
  end.
Proof.
  unfold prev_button. intros Hk Hc.
  repeat lazymatch type of Hk with
  | (if ?n =? ?k then _ else _) = _ =>
      destruct (Z.eqb_spec n k) as [Hn|_];
        [injection Hk as <-; rewrite Hn; apply run_moves; [done|]|]
  end; [..|done].
  - by apply step2_prev.
  - by apply step3_prev.
  - by apply step4_prev.
  - by apply step5_prev.
  - by apply step6_prev.
Qed.

(** X15.  Step 2 writes the lunch invoice flag only when it asks for it.
    When the lunch box is unticked the flag a session already holds is left
    as it is, so a flag set before goes on marking an invoice for step 5. *)
Theorem unticked_lunch_keeps_invoice_flag i s :
  current_step s = 2 →
  widget_state i !! "had_lunch" = Some (PBool false) →
  match script i s with
  | (s1, t, r) =>
      lookup2 "food" "has_lunch_invoice" (user_responses s1)
      = lookup2 "food" "has_lunch_invoice" (user_responses s)
      ∧ (invoice_flag "has_lunch_invoice" (user_responses s) = true →
         flagged (user_responses s1) = true)
  end.
Proof.
  intros H2 Hw. rewrite script_run, H2. change (step_at 2) with step2.
  assert (triple i (lunch_flag_is (lookup2 "food" "has_lunch_invoice" (user_responses s)))
            step2 (λ s1 _, lunch_flag_is
                             (lookup2 "food" "has_lunch_invoice" (user_responses s)) s1))
    as Hstep.
  { generalize (lookup2 "food" "has_lunch_invoice" (user_responses s)). intros v.
    unfold step2. repeat triple_step. all: try reflexivity.
    all: try by intros ? ? ? ?. all: try by intros ? ?. }
  specialize (Hstep s eq_refl). destruct (step2 i s) as [[s1 t] r].
  unfold lunch_flag_is in Hstep. split; [done|].
  unfold flagged, invoice_flag. rewrite !lookup_response_lookup2, Hstep.
  by intros ->.
Qed.

End NavigatedFacts.

Lemma has_answer_insert_response c q c' q' v u :
  is_Some (lookup2 c q u) → is_Some (lookup2 c q (insert_response c' q' v u)).
Proof. intros Hu. rewrite lookup2_insert_response. by destruct (same_key c q c' q'). Qed.

Lemma has_answer_insert_category c q c' u :
  is_Some (lookup2 c q u) → is_Some (lookup2 c q (insert_category c' u)).
Proof. intros Hu. by rewrite lookup2_insert_category. Qed.

Lemma answer_stays_raise c q s e :
  has_answer c q s → not_rerun e → answer_stays c q s (Raise e).
Proof. intros Hs He. split; [done|]. by intros [= ->]. Qed.

Ltac answer_kept :=
  lazymatch goal with
  | |- keeps (has_answer _ _) _ _ =>
      let HP := fresh "HP" in
      intros HP; unfold has_answer in *;
      cbn [user_responses set_user_responses set_food_order_analysis set_final_result
           set_files set_current_step] in *;
      first [ exact HP
            | apply has_answer_insert_response; exact HP
            | apply has_answer_insert_category; exact HP ]
  | |- any_event _ => exact I
  | |- sat _ _ _ (for_each _ _) => lazy beta iota delta [for_each]
  | |- sat _ _ _ prev_step => unfold prev_step
  | _ => sat_atom
  end.

Lemma triple_next_answer i c q : triple i (has_answer c q) next_step (answer_stays c q).
Proof. intros s Hs. by split. Qed.

Ltac answer_step :=
  lazymatch goal with
  | |- triple _ (has_answer _ _) next_step _ => apply triple_next_answer
  | _ => triple_step_with ltac:(fun _ => answer_kept)
  end.

Ltac answer_done :=
  lazymatch goal with
  | |- not_rerun _ => reflexivity
  | |- ∀ s e, _ → _ → answer_stays _ _ _ _ => intros ? ? ? ?; by apply answer_stays_raise
  | |- ∀ s, _ → answer_stays _ _ _ _ => intros ? ?; by split
  | |- _ => idtac
  end.

Section AnswersKeptFacts.

Context `{!Runtime}.

Section NoStartOverFacts.

Context (i : interaction) (c q : string).

Context (Hreset : clicked i ≠ Some "reset").

Lemma step1_answers : triple i (has_answer c q) step1 (answer_stays c q).
Proof. unfold step1; repeat answer_step; answer_done. Qed.

Lemma step2_answers : triple i (has_answer c q) step2 (answer_stays c q).
Proof. unfold step2; repeat answer_step; answer_done. Qed.

Lemma step3_answers : triple i (has_answer c q) step3 (answer_stays c q).
Proof. unfold step3; repeat answer_step; answer_done. Qed.

Lemma step4_answers : triple i (has_answer c q) step4 (answer_stays c q).
Proof. unfold step4; repeat answer_step; answer_done. Qed.

Lemma step5_answers : triple i (has_answer c q) step5 (answer_stays c q).
Proof. unfold step5; repeat answer_step; answer_done. Qed.

Lemma step6_answers : triple i (has_answer c q) step6 (answer_stays c q).
Proof. unfold step6; repeat answer_step; answer_done. Qed.

Lemma step_at_answers k : triple i (has_answer c q) (step_at k) (answer_stays c q).
Proof.
  unfold step_at.
  repeat lazymatch goal with
  | |- triple _ _ (if ?b then _ else _) _ => destruct b
  end;
  auto using step1_answers, step2_answers, step3_answers, step4_answers, step5_answers,
    step6_answers.
  by intros s Hs.
Qed.

End NoStartOverFacts.

Lemma run_answers i s c q :
  clicked i ≠ Some "reset" → has_answer c q s → has_answer c q (run i s).1.1.
Proof.
  intros Hreset Hs. unfold run. rewrite script_run.
  pose proof (step_at_answers i c q Hreset (current_step s) s Hs) as Hstep.
  destruct (step_at _ i s) as [[s1 t] r]. destruct Hstep as [Hs1 Hr].
  by destruct r as [[]|[]].
Qed.

(** X16.  An answer is dropped by Start Over only: whatever the user enters,
    uploads or clicks, and however the runs end, a question that has an
    answer in the store still has one after any series of interactions none
    of which is a click on Start Over. *)
Theorem answers_are_kept interactions s c q :
  Forall (λ i, clicked i ≠ Some "reset") interactions →
  has_answer c q s →
  has_answer c q (runs interactions s).1.
Proof.
  intros Hall. revert s. induction Hall as [|i rest Hi _ IH]; intros s Hs; [done|].
  simpl. pose proof (run_answers i s c q Hi Hs) as Hrun.
  destruct (run i s) as [[s1 t1] r]. specialize (IH s1 Hrun).
  by destruct (runs rest s1) as [s2 t2].
Qed.

End AnswersKeptFacts.

(** * A stored answer that is no number *)

Lemma lookup_response_other c q d c' q' v u :
  same_key c q c' q' = false →
  lookup_response c q d (insert_response c' q' v u) = lookup_response c q d u.
Proof. intros Hk. by rewrite lookup_response_insert_response, Hk. Qed.

Section NumbersFacts.

Context `{!Runtime}.

Lemma ask_fuel_type_run i s :
  ask_fuel_type i s
  = answered "transportation" "fuel_type" PStr "fuel_type"
      "What type of fuel does your vehicle use?" (λ x, x)
      (held_select fuel_options 0
         (lookup_response "transportation" "fuel_type" (PStr "Petrol/Gasoline")
            (user_responses s))
         (widget_state i !! "fuel_type")) s.
Proof. apply (select_question_run _ _ _ _ _ _ _ i s). Qed.

(** X17.  Step 1 converts the stored distance with [float].  When that
    fails, the run ends in the exception of the conversion: the page stops
    before the distance question, without a button, and the cursor stays at
    1. *)
Theorem stored_distance_must_convert i s e :
  current_step s = 1 →
  py_float (lookup_response "transportation" "distance_km" (PFloat 0) (user_responses s))
  = Raise e →
  match script i s with
  | (s1, t, r) =>
      r = Raise e
      ∧ current_step s1 = 1
      ∧ asks "distance" t = false
      ∧ shows_button t = false
  end.
Proof.
  destruct s as [n u a r d]. simpl. intros -> He.
  apply wp_elim. unfold script. repeat wp_run. unfold step1. repeat wp_run.
  eapply wp_answered; [apply ask_primary_mode_run|]. read_session.
  rewrite held_select_total by (vm_compute; reflexivity).
  lazy beta iota. read_session.
  apply wp_bind.
  match goal with
  | |- wp (if ?b then _ else _) _ _ _ _ => destruct b
  end.
  - repeat wp_run.
    eapply wp_answered; [apply ask_fuel_type_run|]. read_session.
    rewrite held_select_total by (vm_compute; reflexivity).
    lazy beta iota. read_session. repeat wp_run.
    eapply wp_answered; [apply ask_distance_run|]. read_session.
    rewrite !(lookup_response_other "transportation" "distance_km") by reflexivity.
    rewrite (lookup_response_insert_category "transportation" "distance_km").
    unfold held_float. rewrite He. by repeat split.
  - repeat wp_run.
    eapply wp_answered; [apply ask_distance_run|]. read_session.
    rewrite !(lookup_response_other "transportation" "distance_km") by reflexivity.
    rewrite (lookup_response_insert_category "transportation" "distance_km").
    unfold held_float. rewrite He. by repeat split.
Qed.

End NumbersFacts.

(** * One request a run, and what the user picks *)

Lemma held_select_slider_picked options fb v x :
  (fb <? length options)%nat = true →
  ∃ p, held_select_slider options fb v (Some (PStr x)) = Ok (chosen options p (Some (PStr x))).
Proof.
  intros Hfb. unfold held_select_slider.
  destruct (lookup_lt_is_Some_2 options _ (fallback_index_lt _ _ v Hfb)) as [p Hp].
  rewrite Hp, (lookup_is_option _ _ _ Hp). by exists p.
Qed.

Section OneRequestFacts.

Context `{!Runtime}.

Lemma step5_requests i s :
  current_step s = 5 →
  match script i s with
  | (s1, t, r) => (length (requests t) ≤ 1)%nat ∧ r ≠ Raise RerunException
  end.
Proof.
  destruct s as [n u a r d]. simpl. intros ->.
  apply wp_elim. unfold script, step5.
  repeat wp_run.
  all: split; [simpl; lia|done].
Qed.

Lemma step6_requests i s :
  current_step s = 6 →
  match script i s with
  | (s1, t, r) => (length (requests t) ≤ 1)%nat
  end.
Proof.
  destruct s as [n u a r d]. simpl. intros ->.
  apply wp_elim. unfold script, step6.
  repeat wp_run.
  all: simpl; lia.
Qed.

Lemma script_requests i s :
  match script i s with
  | (s1, t, r) =>
      (length (requests t) ≤ 1)%nat
      ∧ (r = Raise RerunException → current_step s = 6 ∧ clicked i = Some "reset")
  end.
Proof.
  destruct (decide (current_step s = 6)) as [H6|H6].
  - pose proof (step6_requests i s H6) as Hs.
    destruct (decide (clicked i = Some "reset")) as [Hc|Hc].
    + destruct (script i s) as [[s1 t] r]. by split.
    + assert ((script i s).2 ≠ Raise RerunException) as Hr.
      { destruct s as [n u a r d]. simpl in H6. subst n.
        assert (match script i (Session 6 u a r d) with
                | (s1, t, r1) => r1 ≠ Raise RerunException
                end) as Hw.
        { apply wp_elim. unfold script, step6. repeat wp_run. all: done. }
        by destruct (script i _) as [[s1 t] r1]. }
      destruct (script i s) as [[s1 t] r]. split; [done|]. by intros ->.
  - destruct (decide (current_step s = 5)) as [H5|H5].
    + pose proof (step5_requests i s H5) as Hs.
      destruct (script i s) as [[s1 t] r]. destruct Hs as [Ht Hr]. by split.
    + rewrite script_run.
      assert (sat keeps_slots no_request not_rerun (step_at (current_step s))) as Hs.
      { unfold step_at.
        repeat lazymatch goal with
        | |- sat _ _ _ (if ?k =? 5 then _ else _) =>
            destruct (Z.eqb_spec k 5); [done|]
        | |- sat _ _ _ (if ?k =? 6 then _ else _) =>
            destruct (Z.eqb_spec k 6); [done|]
        | |- sat _ _ _ (if ?b then _ else _) => destruct b
        end.
        - unfold step1. kept. all: done.
        - unfold step2. kept. all: done.
        - unfold step3. kept. all: done.
        - unfold step4. kept. all: done.
        - by intros i' s'. }
      specialize (Hs i s). destruct (step_at _ i s) as [[s1 t] r].
      destruct Hs as (_ & Ht & Hr).
      split.
      * rewrite requests_of_app, (no_requests _ Ht). simpl. lia.
      * intros ->. done.
Qed.

(** X18.  A run sends at most one request, whatever the step, the session
    and the interaction, the rerun after Start Over included. *)
Theorem a_run_sends_at_most_one_request i s :
  (length (requests (run i s).1.2) ≤ 1)%nat.
Proof.
  unfold run. pose proof (script_requests i s) as Hs.
  destruct (script i s) as [[s1 t1] [x|e]] eqn:Hrun; [by destruct Hs|].
  destruct Hs as [Ht Hr].
  destruct e; try done.
  destruct (Hr eq_refl) as [H6 Hc].
  destruct (script_reset i s H6 Hc) as [t Hreset].
  rewrite Hreset in Hrun. injection Hrun as <- <-.
  pose proof (script_sends_nothing (no_input (http i)) (new_session (files s)))
    as Hnew.
  destruct (script _ (new_session _)) as [[s2 t2] r]. simpl.
  destruct Hnew as (Ht2 & _); [simpl; lia|].
  rewrite requests_of_app, Ht2, app_nil_r. done.
Qed.

(** X19.  What the user picks on the widget of a question with options, when
    it is one of the options, is what the question shows, returns and
    stores, whatever the store held for it. *)
Theorem picked_option_is_stored e i s x :
  widget_state i !! enum_key (enumeration_of e) = Some (PStr x) →
  str_in x (enum_options (enumeration_of e)) = true →
  ask_enumerated e i s
  = (set_user_responses
       (insert_response (enum_category (enumeration_of e))
          (enum_question (enumeration_of e)) (PStr x) (user_responses s)) s,
     [EAsk (enum_key (enumeration_of e)) (enum_label (enumeration_of e)) (PStr x)],
     Ok x).
Proof.
  destruct e; cbn [enumeration_of enum_category enum_question enum_options enum_label
                   enum_key ask_enumerated]; intros Hw Hx;
    (etrans;
     [first [ apply (select_question_run _ _ _ _ _ _ _ i s)
            | apply (select_slider_question_run _ _ _ _ _ _ _ i s) ]|]);
    rewrite Hw;
    first [ rewrite held_select_total by (vm_compute; reflexivity)
          | match goal with
            | |- context [held_select_slider ?o ?fb ?v ?u] =>
                destruct (held_select_slider_picked o fb v x) as [p ->];
                  [vm_compute; reflexivity|]
            end ];
    unfold answered, chosen; rewrite ?Hx; reflexivity.
Qed.

End OneRequestFacts.

(** * Further worked examples *)

Section MoreExamplesFacts.

#[local] Existing Instance sample_runtime.

(** X1 at the lunch flag read after a diet was stored. *)
Lemma store_witness :
  (store_response "diet" "diet_type" (PStr "Vegan (no animal products)")
     ≫= λ _, get_response "food" "has_lunch_invoice" (PBool false))
    (no_input offline) (at_step 2 lunch_flagged)
  = (set_user_responses
       (insert_response "diet" "diet_type" (PStr "Vegan (no animal products)")
          (user_responses (at_step 2 lunch_flagged))) (at_step 2 lunch_flagged),
     [],
     Ok (lookup_response "food" "has_lunch_invoice" (PBool false)
           (user_responses (at_step 2 lunch_flagged)))).
Proof. apply (proj1 (proj2 store_then_get)). discriminate. Defined.

(** X2 at an advance and a retreat from step 3. *)
Lemma round_trip_witness :
  (next_step ≫= λ _, prev_step) (no_input offline) (at_step 3 ∅) = (at_step 3 ∅, [], Ok tt).
Proof. apply (proj1 retreat_undoes_advance). simpl. lia. Defined.

(** X3 at a body whose first choice has a message without content, and a
    text. *)
Lemma content_witness :
  both_return roles_only (PStr "Low footprint").
Proof.
  apply (proj1 (proj2 (content_is_looked_up_in_order
                         {| status_code := 200;
                            response_text := roles_only_body;
                            response_json := Some (PDict roles_only_json) |}
                         roles_only_json eq_refl eq_refl))
           [("message", PDict [("role", PStr "assistant")]); ("text", PStr "Low footprint")]
           []);
    reflexivity.
Defined.

(** X5 at step 6 rendered twice, the API answering 503 the first time. *)
Lemma failed_analysis_witness :
  match runs [no_input unavailable; no_input offline] (at_step 6 ∅) with
  | (s2, t) =>
      final_result s2 = PStr (failure_text 503)
      ∧ requests t = [FullAnalysis (user_responses (at_step 6 ∅))]
  end.
Proof.
  apply (failed_analysis_is_kept (no_input unavailable) (no_input offline) (at_step 6 ∅)
           {| status_code := 503; response_text := "Service Unavailable";
              response_json := None |});
    done.
Defined.

(** X6 at step 6 with the API out of reach. *)
Lemma no_error_witness :
  match script (no_input offline) (at_step 6 ∅) with
  | (s1, t, r) => shows_error t = false
  end.
Proof. apply (results_page_shows_no_error (no_input offline) (at_step 6 ∅)). reflexivity. Defined.

(** X7 at a PNG receipt uploaded over an earlier analysis. *)
Lemma invoice_stored_witness :
  match script (upload receipt_png (Some "analyze_invoice") (replies "New analysis"))
          analyzed_before with
  | (s1, t, r) =>
      r = Ok tt
      ∧ food_order_analysis s1
        = analysis (http (upload receipt_png (Some "analyze_invoice")
                            (replies "New analysis")))
      ∧ user_responses s1
        = insert_response "food" "invoice_analysis"
            (analysis (http (upload receipt_png (Some "analyze_invoice")
                               (replies "New analysis"))))
            (user_responses analyzed_before)
      ∧ files s1 = <["uploaded_invoice.png" := file_buffer receipt_png]>
                     (files analyzed_before)
      ∧ current_step s1 = 5
      ∧ final_result s1 = final_result analyzed_before
  end.
Proof.
  apply (invoice_analysis_is_stored_twice
           (upload receipt_png (Some "analyze_invoice") (replies "New analysis"))
           analyzed_before receipt_png);
    [reflexivity|vm_compute; reflexivity|reflexivity|reflexivity|reflexivity|done
    |reflexivity].
Defined.

(** X8 at step 2, for the category of step 1. *)
Lemma categories_witness :
  user_responses (script (no_input offline) (at_step 2 cyclist)).1.1 !! "transportation"
  = user_responses (at_step 2 cyclist) !! "transportation".
Proof.
  apply (step_writes_its_categories (no_input offline) (at_step 2 cyclist) "transportation");
    [simpl; lia|reflexivity].
Defined.

(** X9 at step 3 of an empty store. *)
Lemma questionnaire_witness :
  match script (no_input offline) (at_step 3 ∅) with
  | (s1, t, r) =>
      requests t = []
      ∧ food_order_analysis s1 = food_order_analysis (at_step 3 ∅)
      ∧ final_result s1 = final_result (at_step 3 ∅)
      ∧ files s1 = files (at_step 3 ∅)
  end.
Proof.
  apply (questionnaire_sends_nothing (no_input offline) (at_step 3 ∅)). simpl. lia.
Defined.

(** X10 at an upload without a click, for a file of another name. *)
Lemma files_witness :
  files (runs [upload receipt_png None offline] analyzed_before).1 !! "notes.txt"
  = files analyzed_before !! "notes.txt".
Proof.
  apply (only_the_upload_is_written [upload receipt_png None offline] analyzed_before
           "notes.txt").
  done.
Defined.

(** X11 at a click on Start Over with a result in the slot. *)
Lemma start_over_witness :
  match run (click "reset" offline) with_result with
  | (s2, t, r) =>
      r = Ok tt
      ∧ current_step s2 = 1
      ∧ food_order_analysis s2 = PNone
      ∧ final_result s2 = PNone
      ∧ files s2 = files with_result
      ∧ lookup2 "transportation" "primary_mode" (user_responses s2) = Some (PStr "Car")
      ∧ lookup2 "transportation" "fuel_type" (user_responses s2)
        = Some (PStr "Petrol/Gasoline")
      ∧ lookup2 "transportation" "distance_km" (user_responses s2) = Some (PFloat 0)
      ∧ lookup2 "transportation" "passengers" (user_responses s2) = Some (PInt 1)
      ∧ (∀ c, c ≠ "transportation" → user_responses s2 !! c = None)
  end.
Proof. apply (start_over_resets (click "reset" offline) with_result); reflexivity. Defined.

(** X12 at a click on Analyze Invoice. *)
Lemma no_navigation_witness :
  current_step (run (click "analyze_invoice" offline) analyzed_before).1.1
  = current_step analyzed_before.
Proof.
  apply (cursor_moves_by_navigation_only (click "analyze_invoice" offline) analyzed_before).
  intros k Hk Hc. injection Hc as <-. simpl in Hk.
  repeat (destruct Hk as [Hk|Hk]; [discriminate Hk|]). exact Hk.
Defined.

(** X13 at a click on the Next button of step 2. *)
Lemma next_witness :
  match run (click "food_next" offline) (at_step 2 ∅) with
  | (s1, t, r) =>
      match r with
      | Ok _ => current_step s1 = current_step (at_step 2 ∅) + 1
      | Raise _ => current_step s1 = current_step (at_step 2 ∅)
      end
  end.
Proof.
  apply (next_advances (click "food_next" offline) (at_step 2 ∅) "food_next"); reflexivity.
Defined.

(** X14 at a click on the Previous button of step 6. *)
Lemma previous_witness :
  match run (click "results_prev" offline) with_result with
  | (s1, t, r) =>
      match r with
      | Ok _ => current_step s1 = current_step with_result - 1
      | Raise _ => current_step s1 = current_step with_result
      end
  end.
Proof.
  apply (previous_retreats (click "results_prev" offline) with_result "results_prev");
    reflexivity.
Defined.

(** X15 at a store with the lunch flag set and the lunch box unticked. *)
Lemma unticked_lunch_witness :
  match script (pick "had_lunch" (PBool false) offline) (at_step 2 lunch_flagged) with
  | (s1, t, r) =>
      lookup2 "food" "has_lunch_invoice" (user_responses s1)
      = lookup2 "food" "has_lunch_invoice" (user_responses (at_step 2 lunch_flagged))
      ∧ (invoice_flag "has_lunch_invoice" (user_responses (at_step 2 lunch_flagged)) = true →
         flagged (user_responses s1) = true)
  end.
Proof.
  apply (unticked_lunch_keeps_invoice_flag (pick "had_lunch" (PBool false) offline)
           (at_step 2 lunch_flagged));
    [reflexivity|vm_compute; reflexivity].
Defined.

(** X17 at a stored distance that is the text [far]. *)
Lemma distance_witness :
  match script (no_input offline) (at_step 1 far_away) with
  | (s1, t, r) =>
      r = Raise (ValueError "could not convert string to float")
      ∧ current_step s1 = 1
      ∧ asks "distance" t = false
      ∧ shows_button t = false
  end.
Proof.
  apply (stored_distance_must_convert (no_input offline) (at_step 1 far_away));
    [reflexivity|vm_compute; reflexivity].
Defined.

(** X19 at the diet question, with Vegan picked over a stale stored diet. *)
Lemma picked_option_witness :
  ask_enumerated DietType (pick "diet_type" (PStr "Vegan (no animal products)") offline) (at_step 2 stale_diet)
  = (set_user_responses
       (insert_response "diet" "diet_type" (PStr "Vegan (no animal products)")
          (user_responses (at_step 2 stale_diet))) (at_step 2 stale_diet),
     [EAsk "diet_type" "How would you describe your diet?" (PStr "Vegan (no animal products)")],
     Ok "Vegan (no animal products)").
Proof.
  apply (picked_option_is_stored DietType (pick "diet_type" (PStr "Vegan (no animal products)") offline)
           (at_step 2 stale_diet) "Vegan (no animal products)");
    vm_compute; reflexivity.
Defined.

(** X16 at a click on Next and a click on Recalculate. *)
Lemma answers_witness :
  has_answer "transportation" "primary_mode"
    (runs [click "food_next" offline; click "recalculate" offline] (at_step 2 cyclist)).1.
Proof.
  apply (answers_are_kept [click "food_next" offline; click "recalculate" offline]
           (at_step 2 cyclist) "transportation" "primary_mode").
  - repeat constructor; discriminate.
  - vm_compute. by eexists.
Defined.

End MoreExamplesFacts.
